(** * AI Coding Tutor: a shallow embedding of [app.py]

    The development follows the layout of the source file: the SQLite
    tables and the store functions, the age bands, the three calls to the
    chat backend, the forms of the login page, the quiz ([display_quiz]),
    the progress box, and the pages with the script that routes between
    them ([main]).

    Conventions.
    - A Python [int] is a [Z]; a Python [str] is a [string] whose
      characters are read as code points below 256.
    - A Python call that may raise is a value of [outcome]: [Return v] or
      [Raise e].  [try_except] is the [try ... except Exception as e] block.
    - The SQLite file is a record of two tables, each a list of rows in
      insertion order, with the [AUTOINCREMENT] counters of
      [sqlite_sequence] next to them.  [CURRENT_TIMESTAMP] is an argument.
    - [bcrypt] is two parameters, [hashpw] and [checkpw]; either may
      raise, and nothing else is assumed of them.
    - [st.session_state] is a record; the dictionary [quiz_answers] is a
      [gmap nat string].  A run of the script receives what the browser
      sent (which button was pressed, what the radio widgets hold) as
      arguments, and [st.rerun()] is the [rerun] flag of the result.
    - The items of [quiz_questions] are typed records.  A value of
      [generate_quiz] that is no list of such items is stored by the
      script like any other; the model reports the run that stores it and
      stops there. *)

From Stdlib Require Import ZArith String Ascii List Lia Bool Sorted Permutation.
From stdpp Require Import base option list gmap strings.

Set Warnings "-register-all".

Local Open Scope string_scope.
Local Open Scope list_scope.
Local Open Scope Z_scope.

(** ** Exceptions *)

Inductive exn_class : Type :=
  | JSONDecodeError
  | KeyError
  | TypeError
  | IndexError
  | IntegrityError
  | ValueError
  | OverflowError
  | UnboundLocalError
  | RemoteError.

(** An exception object: its class and the text [str(e)] gives. *)
Record exn : Type := Exn { exn_kind : exn_class; exn_str : string }.

Inductive outcome (A : Type) : Type :=
  | Return (a : A)
  | Raise (e : exn).
Arguments Return {A} a.
Arguments Raise {A} e.

Definition bind {A B : Type} (m : outcome A) (k : A -> outcome B) : outcome B :=
  match m with
  | Return a => k a
  | Raise e => Raise e
  end.

(** [try: body  except Exception as e: handler e] *)
Definition try_except {A : Type} (body : outcome A) (handler : exn -> outcome A)
  : outcome A :=
  match body with
  | Return a => Return a
  | Raise e => handler e
  end.

Declare Scope outcome_scope.
Delimit Scope outcome_scope with outcome.
Notation "x <- m ;; k" := (bind m (fun x => k))
  (at level 100, m at next level, right associativity) : outcome_scope.
Local Open Scope outcome_scope.

(** ** Age bands: [get_age_appropriate_tone] *)

Definition tone_kid : string :=
  "friendly, simple, and encouraging like talking to a curious kid".
Definition tone_teenager : string :=
  "engaging and supportive like talking to a teenager".
Definition tone_young_adult : string :=
  "enthusiastic and relatable like talking to a young adult".
Definition tone_adult : string :=
  "professional but approachable like talking to an adult professional".

Definition get_age_appropriate_tone (age : Z) : string :=
  if age <? 13 then tone_kid
  else if age <? 18 then tone_teenager
  else if age <? 25 then tone_young_adult
  else tone_adult.

(** ** The chat backend

    The three generators build an f-string prompt and pass it to
    [openai.ChatCompletion.create].  A prompt is kept as the template it
    comes from together with the values put in its holes. *)

Inductive prompt : Type :=
  | LessonPrompt (topic : string) (age : Z) (tone : string)
  | QuizPrompt (topic : string) (age : Z) (tone : string)
  | AnswerPrompt (question lesson_topic : string) (age : Z) (tone : string).

Record chat_request : Type := ChatRequest {
  req_model : string;
  req_user_message : prompt;
  req_max_tokens : Z;
  req_temperature_tenths : Z
}.

Definition lesson_request (topic : string) (age : Z) : chat_request :=
  ChatRequest "gpt-4o-mini"
    (LessonPrompt topic age (get_age_appropriate_tone age)) 2000 7.

Definition quiz_request (topic : string) (age : Z) : chat_request :=
  ChatRequest "gpt-4o-mini"
    (QuizPrompt topic age (get_age_appropriate_tone age)) 2000 7.

Definition answer_request (question lesson_topic : string) (age : Z)
  : chat_request :=
  ChatRequest "gpt-4o-mini"
    (AnswerPrompt question lesson_topic age (get_age_appropriate_tone age)) 500 7.

Section Generators.

(** [chat_completion req] is [response.choices[0].message.content] of the
    call, or the exception the call raised. *)
Variable chat_completion : chat_request -> outcome string.

Definition generate_lesson (topic : string) (age : Z) : outcome string :=
  try_except
    (content <- chat_completion (lesson_request topic age) ;;
     Return content)
    (fun e => Return ("Error generating lesson: " +:+ exn_str e)).

Definition answer_question (question lesson_topic : string) (age : Z)
  : outcome string :=
  try_except
    (content <- chat_completion (answer_request question lesson_topic age) ;;
     Return content)
    (fun e => Return
       ("Sorry, I couldn't process your question right now. Error: "
          +:+ exn_str e)).

End Generators.

(** ** Python string operations used by [generate_quiz] *)

(** [str.isspace] on one character (code points below 256). *)
Definition is_space (c : ascii) : bool :=
  let n := nat_of_ascii c in
  ((9 <=? n) && (n <=? 13) || (28 <=? n) && (n <=? 32)
   || (n =? 133) || (n =? 160))%nat.

Fixpoint py_lstrip (s : string) : string :=
  match s with
  | EmptyString => EmptyString
  | String c r => if is_space c then py_lstrip r else s
  end.

Fixpoint py_rstrip (s : string) : string :=
  match s with
  | EmptyString => EmptyString
  | String c r =>
      match py_rstrip r with
      | EmptyString => if is_space c then EmptyString else String c EmptyString
      | r' => String c r'
      end
  end.

(** [s.strip()] *)
Definition py_strip (s : string) : string := py_rstrip (py_lstrip s).

(** [sub in s] *)
Definition py_in (sub s : string) : bool :=
  match String.index 0 sub s with Some _ => true | None => false end.

(** [s.find(sub, start)], for [start >= 0]: the first position at or after
    [start], or -1. *)
Definition py_find (s sub : string) (start : Z) : Z :=
  match String.index (Z.to_nat start) sub s with
  | Some i => Z.of_nat i
  | None => -1
  end.

(** A slice bound as Python normalises it: a negative bound counts from
    the end, and the result is clamped to [0 .. len]. *)
Definition py_bound (len i : Z) : Z :=
  if i <? 0 then Z.max (i + len) 0 else Z.min i len.

(** [s[a:b]] *)
Definition py_slice (s : string) (a b : Z) : string :=
  let len := Z.of_nat (String.length s) in
  let a' := py_bound len a in
  let b' := py_bound len b in
  if a' <? b' then String.substring (Z.to_nat a') (Z.to_nat (b' - a')) s
  else EmptyString.

Definition fence : string := "```".
Definition fence_json : string := "```json".

(** The text handed to [json.loads]: the stripped reply, or what stands
    between the first fence and the next one. *)
Definition extract_json (content : string) : string :=
  let response_text := py_strip content in
  if py_in fence_json response_text then
    let json_start := py_find response_text fence_json 0 + 7 in
    let json_end := py_find response_text fence json_start in
    py_strip (py_slice response_text json_start json_end)
  else if py_in fence response_text then
    let json_start := py_find response_text fence 0 + 3 in
    let json_end := py_find response_text fence json_start in
    py_strip (py_slice response_text json_start json_end)
  else response_text.

(** ** JSON values, as Python holds them after [json.loads] *)

Inductive json : Type :=
  | JNull
  | JBool (b : bool)
  | JInt (n : Z)
  | JFloat (literal : string)
  | JStr (s : string)
  | JList (items : list json)
  | JDict (members : list (string * json)).

(** [d[k] = v] on a dictionary kept as an association list: a key keeps
    the place of its first insertion and the value of its last. *)
Fixpoint dict_set (k : string) (v : json) (d : list (string * json))
  : list (string * json) :=
  match d with
  | [] => [(k, v)]
  | (k', v') :: d' =>
      if String.eqb k k' then (k, v) :: d' else (k', v') :: dict_set k v d'
  end.

Fixpoint dict_get (k : string) (d : list (string * json)) : option json :=
  match d with
  | [] => None
  | (k', v) :: d' => if String.eqb k k' then Some v else dict_get k d'
  end.

Definition squote (s : string) : string := "'" +:+ s +:+ "'".

(** [v["questions"]] for a decoded document [v]: only a dictionary that
    has the key answers; every other value raises. *)
Definition subscript (v : json) (key : string) : outcome json :=
  match v with
  | JDict d =>
      match dict_get key d with
      | Some x => Return x
      | None => Raise (Exn KeyError (squote key))
      end
  | JList _ =>
      Raise (Exn TypeError "list indices must be integers or slices, not str")
  | JStr _ => Raise (Exn TypeError "string indices must be integers")
  | JNull => Raise (Exn TypeError "'NoneType' object is not subscriptable")
  | JBool _ => Raise (Exn TypeError "'bool' object is not subscriptable")
  | JInt _ => Raise (Exn TypeError "'int' object is not subscriptable")
  | JFloat _ => Raise (Exn TypeError "'float' object is not subscriptable")
  end.

(** ** A JSON decoder

    [generate_quiz] below takes the decoder as an argument, and what is
    proved of it holds for every decoder.  [json_loads] is one to run the
    model with: it reads JSON as [json.loads] does (objects, arrays,
    strings with their escapes, numbers, [true], [false], [null], blanks
    between tokens, nothing after the document) and raises on text that
    leaves the string model ([\u] escapes above 255). *)

Definition dquote : ascii := Eval cbv in ascii_of_nat 34.
Definition backslash : ascii := Eval cbv in ascii_of_nat 92.

Definition is_json_ws (c : ascii) : bool :=
  let n := nat_of_ascii c in
  ((n =? 32) || (n =? 9) || (n =? 10) || (n =? 13))%nat.

Fixpoint skip_ws (s : string) : string :=
  match s with
  | String c r => if is_json_ws c then skip_ws r else s
  | EmptyString => EmptyString
  end.

Definition is_digit (c : ascii) : bool :=
  let n := nat_of_ascii c in ((48 <=? n) && (n <=? 57))%nat.

Definition hex_value (c : ascii) : option nat :=
  let n := nat_of_ascii c in
  if ((48 <=? n) && (n <=? 57))%nat then Some (n - 48)%nat
  else if ((97 <=? n) && (n <=? 102))%nat then Some (n - 87)%nat
  else if ((65 <=? n) && (n <=? 70))%nat then Some (n - 55)%nat
  else None.

(** The character an escape letter stands for. *)
Definition unescape (c : ascii) : option ascii :=
  if Ascii.eqb c dquote then Some dquote
  else if Ascii.eqb c backslash then Some backslash
  else if Ascii.eqb c "/" then Some "/"%char
  else if Ascii.eqb c "b" then Some (ascii_of_nat 8)
  else if Ascii.eqb c "f" then Some (ascii_of_nat 12)
  else if Ascii.eqb c "n" then Some (ascii_of_nat 10)
  else if Ascii.eqb c "r" then Some (ascii_of_nat 13)
  else if Ascii.eqb c "t" then Some (ascii_of_nat 9)
  else None.

(** The rest of a string literal, after its opening quote. *)
Fixpoint scan_string (s : string) : option (string * string) :=
  match s with
  | EmptyString => None
  | String c r =>
      if Ascii.eqb c dquote then Some (EmptyString, r)
      else if Ascii.eqb c backslash then
        match r with
        | String "u" (String h1 (String h2 (String h3 (String h4 r')))) =>
            match hex_value h1, hex_value h2, hex_value h3, hex_value h4 with
            | Some 0%nat, Some 0%nat, Some a, Some b =>
                match scan_string r' with
                | Some (body, rest) =>
                    Some (String (ascii_of_nat (16 * a + b)) body, rest)
                | None => None
                end
            | _, _, _, _ => None
            end
        | String e r' =>
            match unescape e, scan_string r' with
            | Some c', Some (body, rest) => Some (String c' body, rest)
            | _, _ => None
            end
        | EmptyString => None
        end
      else if (nat_of_ascii c <? 32)%nat then None
      else
        match scan_string r with
        | Some (body, rest) => Some (String c body, rest)
        | None => None
        end
  end.

Fixpoint take_digits (s : string) : string * string :=
  match s with
  | String c r =>
      if is_digit c then let '(ds, rest) := take_digits r in (String c ds, rest)
      else (EmptyString, s)
  | EmptyString => (EmptyString, EmptyString)
  end.

Fixpoint digits_value (acc : Z) (ds : string) : Z :=
  match ds with
  | String c r => digits_value (10 * acc + Z.of_nat (nat_of_ascii c - 48)) r
  | EmptyString => acc
  end.

(** [0] or a digit string without a leading zero. *)
Definition scan_int_part (s : string) : option (string * string) :=
  match s with
  | String c r =>
      if Ascii.eqb c "0" then Some ("0", r)
      else if is_digit c then Some (take_digits s)
      else None
  | EmptyString => None
  end.

Definition scan_frac (s : string) : string * string :=
  match s with
  | String "." r =>
      match take_digits r with
      | (EmptyString, _) => (EmptyString, s)
      | (ds, rest) => (String "." ds, rest)
      end
  | _ => (EmptyString, s)
  end.

Definition scan_exp (s : string) : string * string :=
  match s with
  | String e r =>
      if Ascii.eqb e "e" || Ascii.eqb e "E" then
        let '(sign, r1) :=
          match r with
          | String g r' =>
              if Ascii.eqb g "+" || Ascii.eqb g "-"
              then (String g EmptyString, r') else (EmptyString, r)
          | EmptyString => (EmptyString, r)
          end in
        match take_digits r1 with
        | (EmptyString, _) => (EmptyString, s)
        | (ds, rest) => (String e (sign +:+ ds), rest)
        end
      else (EmptyString, s)
  | EmptyString => (EmptyString, s)
  end.

Definition scan_number (s : string) : option (json * string) :=
  let '(neg, s1) :=
    match s with
    | String "-" r => (true, r)
    | _ => (false, s)
    end in
  match scan_int_part s1 with
  | None => None
  | Some (ds, s2) =>
      let '(frac, s3) := scan_frac s2 in
      let '(ex, s4) := scan_exp s3 in
      match frac, ex with
      | EmptyString, EmptyString =>
          let n := digits_value 0 ds in
          Some (JInt (if neg then - n else n), s4)
      | _, _ =>
          Some (JFloat ((if neg then "-" else "") +:+ ds +:+ frac +:+ ex), s4)
      end
  end.

Definition strip_prefix (p s : string) : option string :=
  if String.prefix p s
  then Some (String.substring (String.length p)
               (String.length s - String.length p) s)
  else None.

Inductive scan_mode : Type :=
  | Value
  | Elements (acc : list json)
  | Members (acc : list (string * json)).

(** One fuelled scanner for the three mutually recursive readers:
    a value, the elements of an array up to its bracket, the members of
    an object up to its brace. *)
Fixpoint scan (fuel : nat) (mode : scan_mode) (s : string)
  : option (json * string) :=
  match fuel with
  | O => None
  | S fuel' =>
      match mode with
      | Value =>
          match s with
          | String c r =>
              if Ascii.eqb c dquote then
                match scan_string r with
                | Some (body, rest) => Some (JStr body, rest)
                | None => None
                end
              else if Ascii.eqb c "[" then
                match skip_ws r with
                | String "]" rest => Some (JList [], rest)
                | r' => scan fuel' (Elements []) r'
                end
              else if Ascii.eqb c "{" then
                match skip_ws r with
                | String "}" rest => Some (JDict [], rest)
                | r' => scan fuel' (Members []) r'
                end
              else
                match strip_prefix "null" s, strip_prefix "true" s,
                      strip_prefix "false" s with
                | Some rest, _, _ => Some (JNull, rest)
                | _, Some rest, _ => Some (JBool true, rest)
                | _, _, Some rest => Some (JBool false, rest)
                | _, _, _ =>
                    match strip_prefix "NaN" s, strip_prefix "Infinity" s,
                          strip_prefix "-Infinity" s with
                    | Some rest, _, _ => Some (JFloat "NaN", rest)
                    | _, Some rest, _ => Some (JFloat "Infinity", rest)
                    | _, _, Some rest => Some (JFloat "-Infinity", rest)
                    | _, _, _ => scan_number s
                    end
                end
          | EmptyString => None
          end
      | Elements acc =>
          match scan fuel' Value s with
          | Some (v, rest) =>
              match skip_ws rest with
              | String "]" rest' => Some (JList (acc ++ [v]), rest')
              | String "," rest' =>
                  scan fuel' (Elements (acc ++ [v])) (skip_ws rest')
              | _ => None
              end
          | None => None
          end
      | Members acc =>
          match s with
          | String c r =>
              if Ascii.eqb c dquote then
                match scan_string r with
                | Some (key, rest) =>
                    match skip_ws rest with
                    | String ":" rest1 =>
                        match scan fuel' Value (skip_ws rest1) with
                        | Some (v, rest2) =>
                            match skip_ws rest2 with
                            | String "}" rest3 =>
                                Some (JDict (dict_set key v acc), rest3)
                            | String "," rest3 =>
                                scan fuel' (Members (dict_set key v acc))
                                  (skip_ws rest3)
                            | _ => None
                            end
                        | None => None
                        end
                    | _ => None
                    end
                | None => None
                end
              else None
          | EmptyString => None
          end
      end
  end.

Definition json_loads (s : string) : outcome json :=
  let s0 := skip_ws s in
  match scan (2 * String.length s0 + 2) Value s0 with
  | Some (v, rest) =>
      match skip_ws rest with
      | EmptyString => Return v
      | _ => Raise (Exn JSONDecodeError "Extra data")
      end
  | None => Raise (Exn JSONDecodeError "Expecting value")
  end.

(** ** [generate_quiz] *)

(** What a call leaves behind: the value it returns (or the exception that
    leaves it) and the messages it passed to [st.error], in order. *)
Record quiz_result : Type := QuizResult {
  quiz_returned : outcome json;
  quiz_errors : list string
}.

(** The two [except] clauses.  [response_text] is the local variable of
    that name, [None] while it is not yet assigned. *)
Definition quiz_handlers (e : exn) (response_text : option string)
  : quiz_result :=
  match exn_kind e with
  | JSONDecodeError =>
      let first := "Error parsing quiz JSON: " +:+ exn_str e in
      match response_text with
      | Some text =>
          QuizResult (Return (JList []))
            [first; "Raw response: " +:+ py_slice text 0 200 +:+ "..."]
      | None =>
          QuizResult
            (Raise (Exn UnboundLocalError
               "local variable 'response_text' referenced before assignment"))
            [first]
      end
  | _ =>
      QuizResult (Return (JList []))
        ["Error generating quiz: " +:+ exn_str e]
  end.

Section QuizGenerator.

Variable chat_completion : chat_request -> outcome string.
(** [json.loads] *)
Variable loads : string -> outcome json.

Definition generate_quiz (topic : string) (age : Z) : quiz_result :=
  match chat_completion (quiz_request topic age) with
  | Raise e => quiz_handlers e None
  | Return content =>
      let response_text := extract_json content in
      match (quiz_data <- loads response_text ;;
             subscript quiz_data "questions") with
      | Return questions => QuizResult (Return questions) []
      | Raise e => quiz_handlers e (Some response_text)
      end
  end.

End QuizGenerator.

(** The format the quiz prompt asks for, as a check on a decoded value:
    eight objects, each with a question string, four option strings, a
    correct index from 0 to 3 and an explanation string. *)
Definition is_str (v : json) : bool :=
  match v with JStr _ => true | _ => false end.

Definition is_quiz_item (v : json) : bool :=
  match v with
  | JDict d =>
      match dict_get "question" d, dict_get "options" d,
            dict_get "correct" d, dict_get "explanation" d with
      | Some (JStr _), Some (JList opts), Some (JInt c), Some (JStr _) =>
          (length opts =? 4)%nat && forallb is_str opts
          && (0 <=? c) && (c <=? 3)
      | _, _, _, _ => false
      end
  | _ => false
  end.

Definition is_quiz (v : json) : bool :=
  match v with
  | JList items => (length items =? 8)%nat && forallb is_quiz_item items
  | _ => false
  end.

(** ** The SQLite file [users.db] *)

Record user_row : Type := UserRow {
  user_id : Z;
  user_email : string;
  user_password_hash : string;
  user_age : Z;
  user_created_at : Z;
  user_last_login : option Z
}.

Record progress_row : Type := ProgressRow {
  progress_id : Z;
  progress_user_id : Z;
  progress_topic : string;
  progress_quiz_score : Z;
  progress_completed_at : Z
}.

Record database : Type := Database {
  users : list user_row;
  users_seq : Z;
  user_progress : list progress_row;
  user_progress_seq : Z
}.

(** [init_database] on a file that does not exist yet; on an existing
    file both [CREATE TABLE IF NOT EXISTS] statements change nothing. *)
Definition empty_database : database := Database [] 0 [] 0.

Definition init_database (db : option database) : database :=
  match db with
  | Some d => d
  | None => empty_database
  end.

Definition email_taken (email : string) (db : database) : bool :=
  existsb (fun r => String.eqb (user_email r) email) (users db).

(** The integers a parameter of a statement may be: those of 64 bits. *)
Definition sqlite_integer (n : Z) : bool :=
  (- 2 ^ 63 <=? n) && (n <? 2 ^ 63).

Definition overflow_error : exn :=
  Exn OverflowError "Python int too large to convert to SQLite INTEGER".

(** [INSERT INTO users (email, password_hash, age) VALUES (?, ?, ?)]:
    the parameters are bound first, and an [age] outside the 64-bit
    integers raises there; then the [UNIQUE] constraint on [email] aborts
    the statement; otherwise the row gets the next [AUTOINCREMENT] id and
    the defaults. *)
Definition insert_user (db : database) (now : Z)
    (email hashed_password : string) (age : Z) : outcome (database * Z) :=
  if negb (sqlite_integer age) then Raise overflow_error
  else if email_taken email db then
    Raise (Exn IntegrityError "UNIQUE constraint failed: users.email")
  else
    let lastrowid := users_seq db + 1 in
    Return
      (Database
         (users db ++ [UserRow lastrowid email hashed_password age now None])
         lastrowid (user_progress db) (user_progress_seq db),
       lastrowid).

(** [SELECT id, password_hash, age FROM users WHERE email = ?], then
    [fetchone()]. *)
Definition select_user (db : database) (email : string) : option user_row :=
  List.find (fun r => String.eqb (user_email r) email) (users db).

(** [UPDATE users SET last_login = CURRENT_TIMESTAMP WHERE id = ?] *)
Definition update_last_login (db : database) (now : Z) (id : Z) : database :=
  Database
    (map (fun r =>
            if user_id r =? id
            then UserRow (user_id r) (user_email r) (user_password_hash r)
                   (user_age r) (user_created_at r) (Some now)
            else r)
         (users db))
    (users_seq db) (user_progress db) (user_progress_seq db).

(** [save_user_progress]: one [INSERT INTO user_progress]. *)
Definition save_user_progress (db : database) (now : Z)
    (uid : Z) (topic : string) (score : Z) : database :=
  let rowid := user_progress_seq db + 1 in
  Database (users db) (users_seq db)
    (user_progress db ++ [ProgressRow rowid uid topic score now])
    rowid.

(** The dictionary [authenticate_user] returns and the session keeps. *)
Record user : Type := User { u_id : Z; u_email : string; u_age : Z }.

Section Accounts.

(** [bcrypt.hashpw(password.encode('utf-8'), salt)] and
    [bcrypt.checkpw(password.encode('utf-8'), hashed)]. Both may raise:
    [bcrypt] refuses some passwords, one of more than 72 bytes with a
    [ValueError]. The salt of [bcrypt.gensalt()] is an argument of
    [create_user]. *)
Variable hashpw : string -> string -> outcome string.
Variable checkpw : string -> string -> outcome bool.

Definition hash_password_secure (salt password : string) : outcome string :=
  hashpw password salt.

Definition verify_password (password hashed : string) : outcome bool :=
  checkpw password hashed.

(** The database after the call and the value returned: [Some user_id],
    or [None] for Python's [None]. The hashing stands inside the [try],
    before the [INSERT]; the only [except] clause is the one for
    [sqlite3.IntegrityError], so every other exception leaves the function,
    and the database is as it was. *)
Definition create_user (db : database) (now : Z) (salt : string)
    (email password : string) (age : Z) : outcome (database * option Z) :=
  match (hashed_password <- hash_password_secure salt password ;;
         insert_user db now email hashed_password age) with
  | Return (db', user_id) => Return (db', Some user_id)
  | Raise e =>
      match exn_kind e with
      | IntegrityError => Return (db, None)
      | _ => Raise e
      end
  end.

(** [result and verify_password(password, result[1])]: the password is
    checked only when a row was found. The [try] has a [finally] and no
    [except]: an exception of the check leaves the function, before
    anything is written. *)
Definition authenticate_user (db : database) (now : Z)
    (email password : string) : outcome (database * option user) :=
  match select_user db email with
  | Some result =>
      verified <- verify_password password (user_password_hash result) ;;
      if verified : bool then
        Return (update_last_login db now (user_id result),
                Some (User (user_id result) email (user_age result)))
      else Return (db, None)
  | None => Return (db, None)
  end.

End Accounts.

(** ** [validate_email]

    [re.match] of [^[a-zA-Z0-9._%+-]+@[a-zA-Z0-9.-]+\.[a-zA-Z]{2,}$].
    Neither class holds [@], so the [@] is the first one of the text; the
    last group holds no dot, so its dot is the last one; and [$] also
    matches before a final newline. *)

Definition is_letter (c : ascii) : bool :=
  let n := nat_of_ascii c in
  ((65 <=? n) && (n <=? 90) || (97 <=? n) && (n <=? 122))%nat.

Definition is_local_char (c : ascii) : bool :=
  is_letter c || is_digit c
  || Ascii.eqb c "." || Ascii.eqb c "_" || Ascii.eqb c "%"
  || Ascii.eqb c "+" || Ascii.eqb c "-".

Definition is_domain_char (c : ascii) : bool :=
  is_letter c || is_digit c || Ascii.eqb c "." || Ascii.eqb c "-".

Fixpoint string_forallb (p : ascii -> bool) (s : string) : bool :=
  match s with
  | EmptyString => true
  | String c r => p c && string_forallb p r
  end.

(** The text before and after the first [c]. *)
Fixpoint split_first (c : ascii) (s : string) : option (string * string) :=
  match s with
  | EmptyString => None
  | String x r =>
      if Ascii.eqb x c then Some (EmptyString, r)
      else match split_first c r with
           | Some (before, after) => Some (String x before, after)
           | None => None
           end
  end.

(** The text before and after the last [c]. *)
Fixpoint split_last (c : ascii) (s : string) : option (string * string) :=
  match s with
  | EmptyString => None
  | String x r =>
      match split_last c r with
      | Some (before, after) => Some (String x before, after)
      | None => if Ascii.eqb x c then Some (EmptyString, r) else None
      end
  end.

Definition email_pattern (s : string) : bool :=
  match split_first "@" s with
  | Some (local, rest) =>
      (1 <=? String.length local)%nat && string_forallb is_local_char local
      && match split_last "." rest with
         | Some (domain, tld) =>
             (1 <=? String.length domain)%nat
             && string_forallb is_domain_char domain
             && (2 <=? String.length tld)%nat
             && string_forallb is_letter tld
         | None => false
         end
  | None => false
  end.

Definition newline : ascii := Eval cbv in ascii_of_nat 10.

Definition validate_email (email : string) : bool :=
  email_pattern email
  || match split_last newline email with
     | Some (before, EmptyString) => email_pattern before
     | _ => false
     end.

(** ** [st.session_state] and the quiz items *)

(** One entry of [quiz_questions], with the fields [display_quiz] reads. *)
Record QuizItem : Type := MkQuizItem {
  question : string;
  options : list string;
  correct : Z;
  explanation : string
}.

Record session_state : Type := SessionState {
  logged_in : bool;
  user_data : option user;
  current_lesson : option string;
  quiz_questions : list QuizItem;
  quiz_answers : gmap nat string;
  quiz_submitted : bool;
  lesson_topic : string
}.

(** The state the script sets up when a session starts. *)
Definition initial_session : session_state :=
  SessionState false None None [] ∅ false "".

(** ** The login and registration forms of [login_page] *)

(** [st.error] and [st.success], with the text shown (emoji left out). *)
Inductive message : Type :=
  | StError (text : string)
  | StSuccess (text : string).

Record form_result : Type := FormResult {
  form_state : session_state;
  form_db : database;
  form_messages : list message;
  form_rerun : bool
}.

Definition is_empty (s : string) : bool :=
  match s with EmptyString => true | _ => false end.

Section LoginPage.

Variable hashpw : string -> string -> outcome string.
Variable checkpw : string -> string -> outcome bool.

(** No [try] stands around either form: an exception of
    [authenticate_user] or [create_user] ends the run. *)
Definition login_submit (st : session_state) (db : database) (now : Z)
    (email password : string) : outcome form_result :=
  if is_empty email || is_empty password then
    Return (FormResult st db [StError "Please fill in all fields!"] false)
  else if negb (validate_email email) then
    Return (FormResult st db
              [StError "Please enter a valid email address!"] false)
  else
    authenticated <- authenticate_user checkpw db now email password ;;
    match authenticated with
    | (db', Some user) =>
        Return (FormResult
          (SessionState true (Some user) (current_lesson st)
             (quiz_questions st) (quiz_answers st) (quiz_submitted st)
             (lesson_topic st))
          db' [StSuccess "Login successful!"] true)
    | (db', None) =>
        Return (FormResult st db'
                  [StError "Invalid email or password!"] false)
    end.

Definition register_submit (st : session_state) (db : database) (now : Z)
    (salt : string) (reg_email reg_password confirm_password : string)
    (age : Z) : outcome form_result :=
  if is_empty reg_email || is_empty reg_password || is_empty confirm_password
  then Return (FormResult st db [StError "Please fill in all fields!"] false)
  else if negb (validate_email reg_email) then
    Return (FormResult st db
              [StError "Please enter a valid email address!"] false)
  else if (String.length reg_password <? 6)%nat then
    Return (FormResult st db
              [StError "Password must be at least 6 characters long!"] false)
  else if negb (String.eqb reg_password confirm_password) then
    Return (FormResult st db [StError "Passwords don't match!"] false)
  else
    created <- create_user hashpw db now salt reg_email reg_password age ;;
    match created with
    | (db', Some user_id) =>
        if user_id =? 0 then
          Return (FormResult st db'
            [StError "Email already exists! Please use a different email."]
            false)
        else
          Return (FormResult st db'
            [StSuccess "Account created successfully! Please login."] false)
    | (db', None) =>
        Return (FormResult st db'
          [StError "Email already exists! Please use a different email."]
          false)
    end.

End LoginPage.

(** ** [display_quiz] *)

(** [l[i]] on a Python list: a negative index counts from the end. *)
Definition py_index {A : Type} (l : list A) (i : Z) : outcome A :=
  let len := Z.of_nat (length l) in
  let j := if i <? 0 then i + len else i in
  if (0 <=? j) && (j <? len) then
    match l !! Z.to_nat j with
    | Some x => Return x
    | None => Raise (Exn IndexError "list index out of range")
    end
  else Raise (Exn IndexError "list index out of range").

(** What a run draws, one constructor per template. *)
Inductive element : Type :=
  | QuizHeader
  | QuestionLine (number : Z) (text : string)
  | Radio (number : Z) (choices : list string)
  | SubmitButton
  | CorrectLine (user_answer : string)
  | WrongLine (user_answer : string)
  | CorrectAnswerLine (correct_option : string)
  | ExplanationLine (text : string)
  | SuccessBox (score : Z)
  | WarningBox (score : Z)
  | RetakeButton
  | NewTopicButton.

(** The button the browser reports as pressed in this run, if any. *)
Inductive click : Type :=
  | NoClick
  | SubmitQuiz
  | RetakeQuiz
  | NewTopic.

(** [pressed]: the button; [radio i]: what [st.radio] returns for the
    widget with key [q_i]. *)
Record widgets : Type := Widgets {
  pressed : click;
  radio : nat -> string
}.

Record page : Type := Page {
  page_state : session_state;
  page_db : database;
  page_elements : list element;
  page_rerun : bool
}.

(** The loop of the quiz form, from index [i] on: draws each question and
    stores the widget's value under its index. *)
Fixpoint form_loop (w : widgets) (i : nat) (qs : list QuizItem)
    (answers : gmap nat string) : gmap nat string * list element :=
  match qs with
  | [] => (answers, [])
  | q :: rest =>
      let answer := radio w i in
      let '(answers', drawn) := form_loop w (S i) rest (<[i := answer]> answers) in
      (answers',
       QuestionLine (Z.of_nat i + 1) (question q)
         :: Radio (Z.of_nat i + 1) (options q) :: drawn)
  end.

(** The loop of the results view, from index [i] on, with the count so
    far. *)
Fixpoint results_loop (i : nat) (qs : list QuizItem)
    (answers : gmap nat string) (correct_count : Z)
  : outcome (Z * list element) :=
  match qs with
  | [] => Return (correct_count, [])
  | q :: rest =>
      let user_answer := default "" (answers !! i) in
      correct_option <- py_index (options q) (correct q) ;;
      let header := QuestionLine (Z.of_nat i + 1) (question q) in
      let '(correct_count', verdict) :=
        if String.eqb user_answer correct_option
        then (correct_count + 1, [CorrectLine user_answer])
        else (correct_count,
              [WrongLine user_answer; CorrectAnswerLine correct_option]) in
      r <- results_loop (S i) rest answers correct_count' ;;
      Return (fst r,
              header :: verdict ++ ExplanationLine (explanation q) :: snd r)
  end.

Definition final_result (correct_count : Z) : element :=
  if 5 <=? correct_count then SuccessBox correct_count
  else WarningBox correct_count.

Definition display_quiz (w : widgets) (now : Z) (st : session_state)
    (db : database) : outcome page :=
  if negb (quiz_submitted st) then
    let '(answers, form) :=
      form_loop w 0 (quiz_questions st) (quiz_answers st) in
    let drawn := QuizHeader :: form ++ [SubmitButton] in
    match pressed w with
    | SubmitQuiz =>
        Return (Page
          (SessionState (logged_in st) (user_data st) (current_lesson st)
             (quiz_questions st) answers true (lesson_topic st))
          db drawn true)
    | _ =>
        Return (Page
          (SessionState (logged_in st) (user_data st) (current_lesson st)
             (quiz_questions st) answers false (lesson_topic st))
          db drawn false)
    end
  else
    r <- results_loop 0 (quiz_questions st) (quiz_answers st) 0 ;;
    let correct_count := fst r in
    let db' :=
      match user_data st with
      | Some u => save_user_progress db now (u_id u) (lesson_topic st)
                    correct_count
      | None => db
      end in
    let drawn := QuizHeader :: snd r ++ [final_result correct_count] in
    match pressed w with
    | RetakeQuiz =>
        Return (Page
          (SessionState (logged_in st) (user_data st) (current_lesson st)
             (quiz_questions st) ∅ false (lesson_topic st))
          db' (drawn ++ [RetakeButton]) true)
    | NewTopic =>
        Return (Page
          (SessionState (logged_in st) (user_data st) None [] ∅ false "")
          db' (drawn ++ [RetakeButton; NewTopicButton]) true)
    | _ =>
        Return (Page st db' (drawn ++ [RetakeButton; NewTopicButton]) false)
    end.

(** ** Notions used to state the properties *)

(** [options[correct]] does not raise. *)
Definition index_in_range (q : QuizItem) : bool :=
  let len := Z.of_nat (length (options q)) in
  (- len <=? correct q) && (correct q <? len).

(** A quiz item as the prompt asks for it: four options, index 0 to 3. *)
Definition four_options (q : QuizItem) : bool :=
  (length (options q) =? 4)%nat && (0 <=? correct q) && (correct q <=? 3).

(** The answer the results view reads for index [i]. *)
Definition answer_read (answers : gmap nat string) (i : nat) : string :=
  default "" (answers !! i).

(** At index [i] the answer read equals, as a string, the option at the
    item's correct index. *)
Definition matches_at (qs : list QuizItem) (answers : gmap nat string)
    (i : nat) : bool :=
  match qs !! i with
  | Some q =>
      match py_index (options q) (correct q) with
      | Return correct_option => String.eqb (answer_read answers i) correct_option
      | Raise _ => false
      end
  | None => false
  end.

(** At index [i] an answer is recorded and equals the correct option. *)
Definition recorded_matches_at (qs : list QuizItem)
    (answers : gmap nat string) (i : nat) : bool :=
  match qs !! i, answers !! i with
  | Some q, Some answer =>
      match py_index (options q) (correct q) with
      | Return correct_option => String.eqb answer correct_option
      | Raise _ => false
      end
  | _, _ => false
  end.

Definition count_indices (p : nat -> bool) (n : nat) : Z :=
  Z.of_nat (length (List.filter p (seq 0 n))).

Definition matching_count (qs : list QuizItem) (answers : gmap nat string)
  : Z :=
  count_indices (matches_at qs answers) (length qs).

Definition recorded_matching_count (qs : list QuizItem)
    (answers : gmap nat string) : Z :=
  count_indices (recorded_matches_at qs answers) (length qs).

(** The option string located at the item's correct index, read off the
    list of options itself: position [correct] counted from the first
    option, or, for a negative index, position [- correct] counted back
    from the last one. There is none when the index points outside the
    list. *)
Definition option_at_correct_index (q : QuizItem) : option string :=
  if 0 <=? correct q then options q !! Z.to_nat (correct q)
  else rev (options q) !! Z.to_nat (- correct q - 1).

(** At index [i] the answer read is, character for character, the option
    string located at the item's correct index. *)
Definition string_match_at (qs : list QuizItem) (answers : gmap nat string)
    (i : nat) : bool :=
  match qs !! i with
  | Some q =>
      match option_at_correct_index q with
      | Some located => String.eqb (answer_read answers i) located
      | None => false
      end
  | None => false
  end.

Definition string_match_count (qs : list QuizItem)
    (answers : gmap nat string) : Z :=
  count_indices (string_match_at qs answers) (length qs).

(** The correct option of every item is a non-empty string. *)
Definition correct_option_nonempty (q : QuizItem) : bool :=
  match py_index (options q) (correct q) with
  | Return correct_option => negb (is_empty correct_option)
  | Raise _ => true
  end.

Definition is_box (e : element) : bool :=
  match e with
  | SuccessBox _ | WarningBox _ => true
  | _ => false
  end.

Definition no_click : widgets := Widgets NoClick (fun _ => "").

(** The results view drawn again and again, once for each time stamp of
    [times], with no button pressed. *)
Fixpoint rerender (times : list Z) (st : session_state) (db : database)
  : outcome (session_state * database) :=
  match times with
  | [] => Return (st, db)
  | now :: later =>
      p <- display_quiz no_click now st db ;;
      rerender later (page_state p) (page_db p)
  end.

(** The rows [n] successive [save_user_progress] calls add. *)
Fixpoint progress_rows (seq0 : Z) (uid : Z) (topic : string) (score : Z)
    (times : list Z) : list progress_row :=
  match times with
  | [] => []
  | now :: later =>
      ProgressRow (seq0 + 1) uid topic score now
        :: progress_rows (seq0 + 1) uid topic score later
  end.

(** The counter is not negative and every stored account id lies in
    [1 .. users_seq]: what holds of the empty file and is kept by every
    statement the program issues. *)
Definition ids_in_sequence (db : database) : bool :=
  (0 <=? users_seq db)
  && forallb (fun r => (1 <=? user_id r) && (user_id r <=? users_seq db))
       (users db).

(** ** Sample data *)

Definition dq : string := String dquote EmptyString.

(** ["text"] as it appears in a JSON document. *)
Definition quoted (text : string) : string := dq +:+ text +:+ dq.

(** A reply holding a single well-formed question. *)
Definition one_question_reply : string :=
  "{" +:+ quoted "questions" +:+ ": [{"
  +:+ quoted "question" +:+ ": " +:+ quoted "What does a loop do?" +:+ ", "
  +:+ quoted "options" +:+ ": ["
  +:+ quoted "A) Repeats code" +:+ ", " +:+ quoted "B) Stores data" +:+ ", "
  +:+ quoted "C) Prints text" +:+ ", " +:+ quoted "D) Ends a program" +:+ "], "
  +:+ quoted "correct" +:+ ": 0, "
  +:+ quoted "explanation" +:+ ": " +:+ quoted "A loop repeats its body."
  +:+ "}]}".

Definition one_question : json :=
  JList
    [JDict
       [("question", JStr "What does a loop do?");
        ("options",
         JList [JStr "A) Repeats code"; JStr "B) Stores data";
                JStr "C) Prints text"; JStr "D) Ends a program"]);
        ("correct", JInt 0);
        ("explanation", JStr "A loop repeats its body.")]].

(** The same document inside a fenced block, with a sentence around it. *)
Definition fenced_reply : string :=
  "Here is your quiz:
```json
" +:+ one_question_reply +:+ "
```
Good luck!".

(** A document whose list of questions is empty. *)
Definition no_questions_reply : string :=
  "{" +:+ quoted "questions" +:+ ": []}".

Definition replying (content : string) (req : chat_request) : outcome string :=
  Return content.

Definition failing (text : string) (req : chat_request) : outcome string :=
  Raise (Exn RemoteError text).

Definition loop_item (correct_index : Z) : QuizItem :=
  MkQuizItem "What does a loop do?"
    ["A) Repeats code"; "B) Stores data"; "C) Prints text"; "D) Ends a program"]
    correct_index "A loop repeats its body.".

(** Eight items with the correct indices 0,0,0,0,1,1,1,1. *)
Definition loops_quiz : list QuizItem :=
  [loop_item 0; loop_item 0; loop_item 0; loop_item 0;
   loop_item 1; loop_item 1; loop_item 1; loop_item 1].

(** The user keeps the first option selected in every question. *)
Definition first_options : widgets :=
  Widgets NoClick (fun _ => "A) Repeats code").

(** The number of bytes of [s.encode('utf-8')]: one for a code point
    below 128, two for the others a [string] holds. *)
Fixpoint utf8_length (s : string) : nat :=
  match s with
  | EmptyString => 0
  | String c rest =>
      ((if (nat_of_ascii c <? 128)%nat then 1 else 2) + utf8_length rest)%nat
  end.

Definition password_too_long : exn :=
  Exn ValueError
    "password cannot be longer than 72 bytes, truncate manually if necessary (e.g. my_password[:72])".

(** A stand-in for [bcrypt] to run the model with. Like [bcrypt] it
    refuses a password of more than 72 bytes; unlike [bcrypt] its hash is
    the salt and the password, readable. *)
Definition sample_hash (password salt : string) : string :=
  salt +:+ "$" +:+ password.

Definition sample_hashpw (password salt : string) : outcome string :=
  if (72 <? utf8_length password)%nat then Raise password_too_long
  else Return (sample_hash password salt).

Definition sample_checkpw (password hashed : string) : outcome bool :=
  if (72 <? utf8_length password)%nat then Raise password_too_long
  else
    Return match split_first "$" hashed with
           | Some (_, p) => String.eqb p password
           | None => false
           end.

(** A pass phrase of 73 characters: the forms let it through, [bcrypt]
    does not. *)
Definition long_password : string :=
  "correct horse battery staple, correct horse battery staple, correct horse".

Definition alice_row : user_row :=
  UserRow 1 "alice@example.com" (sample_hash "Secret1" "salt") 16 100 None.

Definition alice_db : database := Database [alice_row] 1 [] 0.

Definition alice : user := User 1 "alice@example.com" 16.

(** Alice, logged in, with the quiz on loops loaded and nothing answered. *)
Definition loops_ready : session_state :=
  SessionState true (Some alice) (Some "A lesson on loops.") loops_quiz ∅
    false "Loops".

(** The same session once the form was submitted with [first_options]. *)
Definition loops_graded : session_state :=
  SessionState true (Some alice) (Some "A lesson on loops.") loops_quiz
    (fst (form_loop first_options 0 loops_quiz ∅)) true "Loops".

(** An item whose correct option is the empty string. *)
Definition blank_item : QuizItem :=
  MkQuizItem "Which option is blank?" [""; "B) 2"; "C) 3"; "D) 4"] 0
    "The first option is blank.".

Definition blank_quiz : list QuizItem := replicate 8 blank_item.

(** ** The progress history: [get_user_progress], [display_user_progress] *)

(** [ORDER BY completed_at DESC]: rows with the later time first. SQLite
    leaves the order of rows with equal times open; the insertion below
    keeps them in table order, and nothing proved of the result depends on
    that choice. *)
Fixpoint insert_newest (r : progress_row) (sorted : list progress_row)
  : list progress_row :=
  match sorted with
  | [] => [r]
  | x :: rest =>
      if progress_completed_at x <=? progress_completed_at r
      then r :: sorted
      else x :: insert_newest r rest
  end.

Definition order_by_completed_at_desc (rows : list progress_row)
  : list progress_row :=
  fold_right insert_newest [] rows.

(** [WHERE user_id = ?] *)
Definition progress_of (db : database) (uid : Z) : list progress_row :=
  List.filter (fun r => progress_user_id r =? uid) (user_progress db).

(** The columns selected: [(topic, quiz_score, completed_at)]. *)
Definition entry_of (r : progress_row) : string * Z * Z :=
  (progress_topic r, progress_quiz_score r, progress_completed_at r).

(** The tuples of [fetchall()]. *)
Definition get_user_progress (db : database) (uid : Z)
  : list (string * Z * Z) :=
  map entry_of (order_by_completed_at_desc (progress_of db uid)).

(** [a] may stand before [b] in the history: it is not older. *)
Definition newer_first (a b : progress_row) : Prop :=
  progress_completed_at b <= progress_completed_at a.

(** One line of the progress box: the green mark ([true]) or the yellow
    one, the topic, the score out of 8 and the time. *)
Record progress_line : Type := ProgressLine {
  line_green : bool;
  line_topic : string;
  line_score : Z;
  line_completed_at : Z
}.

(** The lines of the progress box; the box and its heading are drawn only
    when there is a line. *)
Definition display_user_progress (st : session_state) (db : database)
  : list progress_line :=
  match user_data st with
  | Some u =>
      map (fun '(topic, score, completed_at) =>
             ProgressLine (5 <=? score) topic score completed_at)
        (take 5 (get_user_progress db (u_id u)))
  | None => []
  end.

(** ** The pages: [main], [login_page], [topic_selection_page],
    [start_lesson], [lesson_page] *)

(** The value [generate_quiz] returned, read as the items the session
    record keeps: a list of objects whose [question] and [explanation] are
    strings, whose [options] is a list of strings and whose [correct] is
    an integer. A value of another shape has no reading: the script
    stores it all the same, and [quiz_section] below reports it as
    stored. *)
Definition text_of_json (v : json) : option string :=
  match v with JStr s => Some s | _ => None end.

Definition quiz_item_of_json (v : json) : option QuizItem :=
  match v with
  | JDict d =>
      match dict_get "question" d, dict_get "options" d,
            dict_get "correct" d, dict_get "explanation" d with
      | Some (JStr q), Some (JList opts), Some (JInt c), Some (JStr e) =>
          match mapM text_of_json opts with
          | Some texts => Some (MkQuizItem q texts c e)
          | None => None
          end
      | _, _, _, _ => None
      end
  | _ => None
  end.

Definition quiz_items_of_json (v : json) : option (list QuizItem) :=
  match v with
  | JList items => mapM quiz_item_of_json items
  | _ => None
  end.

(** What the browser sends with a run: nothing, a submitted form with its
    fields, or the button pressed. *)
Inductive event : Type :=
  | NoEvent
  | LoginForm (email password : string)
  | RegisterForm (reg_email reg_password confirm_password : string) (age : Z)
  | TopicButton (label : string)
  | CustomLesson (custom_topic : string)
  | QuestionForm (user_question : string)
  | TakeQuizButton
  | QuizButton (pressed_button : click)
  | ChooseNewTopicButton
  | LogoutButton.

(** All a run takes from outside: the event, the values of the radio
    widgets, the backend as it answers during this run, the clock, the
    salt [bcrypt.gensalt()] would draw, and the clock of the run that
    follows at once when this one ends in [st.rerun()]. *)
Record environment : Type := Environment {
  env_event : event;
  env_radio : nat -> string;
  env_chat : chat_request -> outcome string;
  env_now : Z;
  env_salt : string;
  env_rerun_now : Z
}.

(** What a run draws, as far as the pages below are concerned. *)
Inductive shown : Type :=
  | ShownMessage (m : message)
  | ShownProgress (lines : list progress_line)
  | ShownLesson (topic lesson : string)
  | ShownAnswer (answer : string)
  | ShownError (text : string)
  | ShownTakeQuizButton
  | ShownQuiz (drawn : list element).

(** The end of a run: the session and the database it leaves, the
    exception that stopped it if one did, whether it asked for a rerun,
    and what it drew. *)
Record run : Type := Run {
  run_state : session_state;
  run_db : database;
  run_raised : option exn;
  run_rerun : bool;
  run_shown : list shown
}.

(** How a run of the script ends. [Finished r]: as [r] tells.
    [QuizStored st db v drawn]: [generate_quiz] returned [v], a value that
    is not a list of typed items; the run assigned it to
    [st.session_state.quiz_questions] and called [st.rerun()]. It raised
    nothing, drew [drawn], left the database [db] and left every field of
    the session but [quiz_questions] as in [st]. The record
    [session_state] has no place for such a value: what the script does
    with it in the runs that follow depends on Python's typing at run time
    and is not modelled. *)
Inductive run_end : Type :=
  | Finished (r : run)
  | QuizStored (st : session_state) (db : database) (v : json)
      (drawn : list shown).

Definition languages : list string :=
  ["Python Basics"; "JavaScript Fundamentals"; "Java Essentials";
   "C++ Programming"; "HTML & CSS"; "SQL Database Queries";
   "React Framework"; "Node.js Backend"; "Python Data Science"].

Definition roles : list string :=
  ["Web Developer Skills"; "Data Scientist Path"; "DevOps Engineer";
   "Cybersecurity Analyst"; "Mobile App Developer"; "Cloud Engineer AWS";
   "Machine Learning Engineer"; "Full Stack Developer";
   "Database Administrator"].

(** [if st.session_state.current_lesson]: neither [None] nor [""]. *)
Definition lesson_present (st : session_state) : bool :=
  match current_lesson st with
  | Some lesson => negb (is_empty lesson)
  | None => false
  end.

Definition key_error_age : exn := Exn KeyError "'age'".

Definition start_lesson (env : environment) (topic : string)
    (st : session_state) (db : database) (drawn : list shown) : run :=
  let st1 :=
    SessionState (logged_in st) (user_data st) None [] ∅ false topic in
  match user_data st with
  | None => Run st1 db (Some key_error_age) false drawn
  | Some u =>
      match generate_lesson (env_chat env) topic (u_age u) with
      | Return lesson_content =>
          Run (SessionState (logged_in st) (user_data st)
                 (Some lesson_content) [] ∅ false topic)
            db None true drawn
      | Raise e => Run st1 db (Some e) false drawn
      end
  end.

Definition topic_selection_page (env : environment) (st : session_state)
    (db : database) : run :=
  let drawn := [ShownProgress (display_user_progress st db)] in
  match env_event env with
  | TopicButton label =>
      if existsb (String.eqb label) (languages ++ roles)
      then start_lesson env label st db drawn
      else Run st db None false drawn
  | CustomLesson custom_topic =>
      if is_empty custom_topic then Run st db None false drawn
      else start_lesson env custom_topic st db drawn
  | _ => Run st db None false drawn
  end.

(** The two buttons at the foot of the lesson page. *)
Definition navigation (env : environment) (st : session_state)
    (db : database) (drawn : list shown) : run :=
  match env_event env with
  | ChooseNewTopicButton =>
      Run (SessionState (logged_in st) (user_data st) None
             (quiz_questions st) (quiz_answers st) (quiz_submitted st) "")
        db None true drawn
  | LogoutButton =>
      Run (SessionState false None (current_lesson st) (quiz_questions st)
             (quiz_answers st) (quiz_submitted st) (lesson_topic st))
        db None true drawn
  | _ => Run st db None false drawn
  end.

Definition button_of (ev : event) : click :=
  match ev with
  | QuizButton c => c
  | _ => NoClick
  end.

Section Pages.

Variable loads : string -> outcome json.
Variable hashpw : string -> string -> outcome string.
Variable checkpw : string -> string -> outcome bool.

Definition run_of_form (f : form_result) : run :=
  Run (form_state f) (form_db f) None (form_rerun f)
    (map ShownMessage (form_messages f)).

(** A form that raises ends the run there: nothing was assigned to the
    session or written to the database before, and no message is drawn. *)
Definition login_page (env : environment) (st : session_state)
    (db : database) : run :=
  match env_event env with
  | LoginForm email password =>
      match login_submit checkpw st db (env_now env) email password with
      | Return f => run_of_form f
      | Raise e => Run st db (Some e) false []
      end
  | RegisterForm reg_email reg_password confirm_password age =>
      match register_submit hashpw st db (env_now env) (env_salt env)
              reg_email reg_password confirm_password age with
      | Return f => run_of_form f
      | Raise e => Run st db (Some e) false []
      end
  | _ => Run st db None false []
  end.

(** The quiz part of the lesson page and what follows it. Whatever
    [generate_quiz] returns is stored and the run ends in [st.rerun()]: a
    list of typed items goes to the session record, another value is
    reported with [QuizStored]. *)
Definition quiz_section (env : environment) (st : session_state)
    (db : database) (drawn : list shown) : run_end :=
  match quiz_questions st with
  | [] =>
      match env_event env with
      | TakeQuizButton =>
          match user_data st with
          | None =>
              Finished (Run st db (Some key_error_age) false
                          (drawn ++ [ShownTakeQuizButton]))
          | Some u =>
              let r := generate_quiz (env_chat env) loads (lesson_topic st)
                         (u_age u) in
              let drawn' :=
                drawn ++ ShownTakeQuizButton
                  :: map ShownError (quiz_errors r) in
              match quiz_returned r with
              | Raise e => Finished (Run st db (Some e) false drawn')
              | Return v =>
                  match quiz_items_of_json v with
                  | Some items =>
                      Finished (Run
                        (SessionState (logged_in st) (user_data st)
                           (current_lesson st) items (quiz_answers st)
                           (quiz_submitted st) (lesson_topic st))
                        db None true drawn')
                  | None => QuizStored st db v drawn'
                  end
              end
          end
      | _ => Finished (navigation env st db (drawn ++ [ShownTakeQuizButton]))
      end
  | _ :: _ =>
      match display_quiz (Widgets (button_of (env_event env)) (env_radio env))
              (env_now env) st db with
      | Raise e => Finished (Run st db (Some e) false drawn)
      | Return p =>
          let drawn' := drawn ++ [ShownQuiz (page_elements p)] in
          if page_rerun p
          then Finished (Run (page_state p) (page_db p) None true drawn')
          else Finished (navigation env (page_state p) (page_db p) drawn')
      end
  end.

Definition lesson_page (env : environment) (st : session_state)
    (db : database) : run_end :=
  if negb (lesson_present st) then Finished (topic_selection_page env st db)
  else
    let lesson :=
      ShownLesson (lesson_topic st) (default "" (current_lesson st)) in
    match env_event env with
    | QuestionForm user_question =>
        if is_empty user_question then quiz_section env st db [lesson]
        else
          match user_data st with
          | None => Finished (Run st db (Some key_error_age) false [lesson])
          | Some u =>
              match answer_question (env_chat env) user_question
                      (lesson_topic st) (u_age u) with
              | Return answer =>
                  quiz_section env st db [lesson; ShownAnswer answer]
              | Raise e => Finished (Run st db (Some e) false [lesson])
              end
          end
    | _ => quiz_section env st db [lesson]
    end.

Definition main (env : environment) (st : session_state) (db : database)
  : run_end :=
  let db := init_database (Some db) in
  if negb (logged_in st) then Finished (login_page env st db)
  else lesson_page env st db.

(** The session a run leaves and the database it leaves; after
    [QuizStored] the session is meant up to its [quiz_questions]. *)
Definition end_state (e : run_end) : session_state :=
  match e with
  | Finished r => run_state r
  | QuizStored st _ _ _ => st
  end.

Definition end_db (e : run_end) : database :=
  match e with
  | Finished r => run_db r
  | QuizStored _ db _ _ => db
  end.

(** The run that follows [st.rerun()]: no event, the same widgets. *)
Definition after_rerun (env : environment) : environment :=
  Environment NoEvent (env_radio env) (env_chat env) (env_rerun_now env)
    (env_salt env) (env_rerun_now env).

(** One action of the user: the run it starts and, when that run ends in
    [st.rerun()], the run that follows. After a run that stored a value
    which is not a list of typed items there is no modelled run to follow
    with, and the action is reported as that run. *)
Definition interact (env : environment) (st : session_state) (db : database)
  : run_end :=
  match main env st db with
  | Finished r =>
      if run_rerun r then main (after_rerun env) (run_state r) (run_db r)
      else Finished r
  | QuizStored st' db' v drawn => QuizStored st' db' v drawn
  end.

(** Where a sequence of actions leaves the session and the database, as
    far as it is modelled: after the last action ([None]), or at the run
    that stored a value which is not a list of typed items ([Some v],
    with the session that run found and the database it left); the
    actions after that run are not played. *)
Fixpoint play (envs : list environment) (st : session_state) (db : database)
  : session_state * database * option json :=
  match envs with
  | [] => (st, db, None)
  | env :: later =>
      match interact env st db with
      | Finished r => play later (run_state r) (run_db r)
      | QuizStored st' db' v _ => (st', db', Some v)
      end
  end.

End Pages.

(** ** Sequences of store calls *)

(** A call of one of the three functions that write to the database. *)
Inductive store_call : Type :=
  | CreateUser (now : Z) (salt email password : string) (age : Z)
  | AuthenticateUser (now : Z) (email password : string)
  | SaveUserProgress (now uid : Z) (topic : string) (score : Z).

Section StoreCalls.

Variable hashpw : string -> string -> outcome string.
Variable checkpw : string -> string -> outcome bool.

(** The database after one call; a call that raises wrote nothing. *)
Definition store_step (db : database) (c : store_call) : database :=
  match c with
  | CreateUser now salt email password age =>
      match create_user hashpw db now salt email password age with
      | Return (db', _) => db'
      | Raise _ => db
      end
  | AuthenticateUser now email password =>
      match authenticate_user checkpw db now email password with
      | Return (db', _) => db'
      | Raise _ => db
      end
  | SaveUserProgress now uid topic score =>
      save_user_progress db now uid topic score
  end.

(** The database after [init_database] on a new file and then the calls. *)
Definition store_calls (calls : list store_call) : database :=
  fold_left store_step calls (init_database None).

End StoreCalls.

(** What every sequence of store calls keeps: no two accounts share an
    email or an id, no two progress rows share an id, and the ids follow
    the two counters. *)
Definition store_invariant (db : database) : Prop :=
  NoDup (map user_email (users db))
  /\ NoDup (map user_id (users db))
  /\ ids_in_sequence db = true
  /\ NoDup (map progress_id (user_progress db))
  /\ 0 <= user_progress_seq db
  /\ Forall (fun r => 1 <= progress_id r <= user_progress_seq db)
       (user_progress db).

(** No character of [s] is [c]. *)
Definition lacks (c : ascii) (s : string) : Prop :=
  string_forallb (fun x => negb (Ascii.eqb x c)) s = true.

(** At index [i] the value of the radio widget equals the option at the
    item's correct index. *)
Definition chosen_matches_at (qs : list QuizItem) (chosen : nat -> string)
    (i : nat) : bool :=
  match qs !! i with
  | Some q =>
      match py_index (options q) (correct q) with
      | Return correct_option => String.eqb (chosen i) correct_option
      | Raise _ => false
      end
  | None => false
  end.

Definition index_error : exn := Exn IndexError "list index out of range".

(** The question of [one_question], decoded, eight times over. *)
Definition eight_questions : json :=
  match one_question with
  | JList [item] => JList (replicate 8 item)
  | other => other
  end.

(** A session on the results view whose second item points past its
    four options. *)
Definition broken_graded : session_state :=
  SessionState true (Some alice) (Some "A lesson on loops.")
    [loop_item 0; loop_item 4] ∅ true "Loops".

(** ** Notions used to state the properties of the pages *)

(** The account of the session is a stored one, and the login flag is set
    exactly when there is an account. *)
Definition session_consistent (st : session_state) (db : database) : Prop :=
  (logged_in st = true <-> user_data st <> None)
  /\ (forall u, user_data st = Some u ->
        exists row,
          In row (users db)
          /\ user_id row = u_id u /\ user_email row = u_email u
          /\ user_age row = u_age u).

(** Every progress row belongs to a stored account. *)
Definition progress_owned (db : database) : Prop :=
  forall r, In r (user_progress db) ->
    exists row, In row (users db) /\ user_id row = progress_user_id r.

(** The topic an event on the topic selection page starts a lesson on. *)
Definition topic_chosen (ev : event) : option string :=
  match ev with
  | TopicButton label =>
      if existsb (String.eqb label) (languages ++ roles) then Some label
      else None
  | CustomLesson custom_topic =>
      if is_empty custom_topic then None else Some custom_topic
  | _ => None
  end.

(** The session is on the results view of a lesson: an account, a lesson,
    items, and the submitted flag. *)
Definition on_results_view (st : session_state) : Prop :=
  logged_in st = true
  /\ lesson_present st = true
  /\ quiz_questions st <> []
  /\ quiz_submitted st = true
  /\ forallb index_in_range (quiz_questions st) = true.

(** The session [st] with another login flag and account. *)
Definition with_account (st : session_state) (flag : bool)
    (account : option user) : session_state :=
  SessionState flag account (current_lesson st) (quiz_questions st)
    (quiz_answers st) (quiz_submitted st) (lesson_topic st).

(** ** Sample runs *)

(** A backend that answers a quiz prompt with [one_question_reply] and
    every other prompt with a sentence. *)
Definition tutor_backend (req : chat_request) : outcome string :=
  match req_user_message req with
  | QuizPrompt _ _ _ => Return one_question_reply
  | _ => Return "Loops repeat a block of code."
  end.

Definition action (ev : event) (now : Z) : environment :=
  Environment ev (radio first_options) tutor_backend now "pepper" (now + 1).

(** Bob registers and logs in, starts the lesson on Python, asks a
    question, takes the quiz, submits it, looks at the results, retakes,
    and logs out. *)
Definition bob_session : list environment :=
  [action (RegisterForm "bob@example.com" "Secret2" "Secret2" 30) 200;
   action (LoginForm "bob@example.com" "Secret2") 210;
   action (TopicButton "Python Basics") 220;
   action (QuestionForm "What is a loop?") 230;
   action TakeQuizButton 240;
   action (QuizButton SubmitQuiz) 250;
   action NoEvent 260;
   action (QuizButton RetakeQuiz) 270;
   action LogoutButton 280].

Definition bob_session_end : session_state * database * option json :=
  play json_loads sample_hashpw sample_checkpw bob_session initial_session
    (init_database None).

Definition bob_row : user_row :=
  UserRow 2 "bob@example.com" (sample_hash "Secret2" "pepper") 30 200 None.

(** Alice and Bob both registered. *)
Definition two_accounts_db : database := Database [alice_row; bob_row] 2 [] 0.

(** Every account of [db] is in [db'] with its id, email and age. *)
Definition accounts_kept (db db' : database) : Prop :=
  forall row, In row (users db) ->
    exists row',
      In row' (users db')
      /\ user_id row' = user_id row /\ user_email row' = user_email row
      /\ user_age row' = user_age row.

(** What every action of a user keeps. *)
Definition app_invariant (st : session_state) (db : database) : Prop :=
  session_consistent st db /\ store_invariant db /\ progress_owned db.

(** Alice logged in, on the topic selection page. *)
Definition alice_topics : session_state :=
  SessionState true (Some alice) None [] ∅ false "".

(** Alice on the lesson page, with no quiz yet. *)
Definition alice_lesson : session_state :=
  SessionState true (Some alice) (Some "Loops repeat a block of code.") [] ∅
    false "Python Basics".

(** A reply whose questions are a list holding the number 1. *)
Definition number_reply : string :=
  "{" +:+ quoted "questions" +:+ ": [1]}".

(** Bob registers, logs in, starts a lesson and asks for the quiz; the
    backend answers the quiz prompt with [number_reply]. *)
Definition bob_number_session : list environment :=
  [action (RegisterForm "bob@example.com" "Secret2" "Secret2" 30) 200;
   action (LoginForm "bob@example.com" "Secret2") 210;
   action (TopicButton "Python Basics") 220;
   Environment TakeQuizButton (radio first_options) (replying number_reply)
     240 "pepper" 241;
   action LogoutButton 250].

Definition bob_number_session_end : session_state * database * option json :=
  play json_loads sample_hashpw sample_checkpw bob_number_session
    initial_session (init_database None).

(** The quiz button pressed while the backend is down. *)
Definition take_quiz_offline : environment :=
  Environment TakeQuizButton (radio first_options) (failing "timed out") 240
    "pepper" 241.

(** A complete document after an opening fence that is never closed. *)
Definition unclosed_body : string :=
  "
{" +:+ quoted "questions" +:+ ": []".

Definition unclosed_reply : string :=
  fence_json +:+ unclosed_body +:+ "}".

(** * Properties *)

(** ** Age bands *)

(** C8. The tone is a function of the age alone, and every age lies in
    exactly one of the four bands under 13, 13 to 17, 18 to 24, 25 and
    over, each with its own fixed tone text; the ages 12, 13, 17, 18, 24
    and 25 fall where the bands say. *)
Theorem tone_bands (age : Z) :
  (age < 13 /\ get_age_appropriate_tone age = tone_kid
   \/ 13 <= age <= 17 /\ get_age_appropriate_tone age = tone_teenager
   \/ 18 <= age <= 24 /\ get_age_appropriate_tone age = tone_young_adult
   \/ 25 <= age /\ get_age_appropriate_tone age = tone_adult)
  /\ (get_age_appropriate_tone 12 = tone_kid
      /\ get_age_appropriate_tone 13 = tone_teenager
      /\ get_age_appropriate_tone 17 = tone_teenager
      /\ get_age_appropriate_tone 18 = tone_young_adult
      /\ get_age_appropriate_tone 24 = tone_young_adult
      /\ get_age_appropriate_tone 25 = tone_adult)
  /\ NoDup [tone_kid; tone_teenager; tone_young_adult; tone_adult].
Proof.
  split; [| split].
  - unfold get_age_appropriate_tone.
    destruct (Z.ltb_spec age 13) as [H13 | H13]; [left; split; [lia | reflexivity] |].
    destruct (Z.ltb_spec age 18) as [H18 | H18];
      [right; left; split; [lia | reflexivity] |].
    destruct (Z.ltb_spec age 25) as [H25 | H25];
      [right; right; left; split; [lia | reflexivity] |].
    right; right; right. split; [lia | reflexivity].
  - repeat split; reflexivity.
  - apply (bool_decide_unpack _). vm_compute. exact I.
Qed.

(** ** Lessons and answers *)

(** C9. Whatever the backend does, [generate_lesson] and
    [answer_question] return a text and raise nothing: the content of the
    reply when there is one, and otherwise their error sentence followed
    by the text of the exception. *)
Theorem generators_always_return_text
    (chat_completion : chat_request -> outcome string)
    (topic question : string) (age : Z) :
  (exists text,
      generate_lesson chat_completion topic age = Return text
      /\ text = match chat_completion (lesson_request topic age) with
                | Return content => content
                | Raise e => "Error generating lesson: " +:+ exn_str e
                end)
  /\ (exists text,
        answer_question chat_completion question topic age = Return text
        /\ text = match chat_completion (answer_request question topic age) with
                  | Return content => content
                  | Raise e =>
                      "Sorry, I couldn't process your question right now. Error: "
                        +:+ exn_str e
                  end).
Proof.
  split.
  - eexists. split; [| reflexivity].
    unfold generate_lesson.
    destruct (chat_completion (lesson_request topic age)); reflexivity.
  - eexists. split; [| reflexivity].
    unfold answer_question.
    destruct (chat_completion (answer_request question topic age)); reflexivity.
Qed.

(** ** Quiz generation *)

Lemma quiz_handlers_other (e : exn) (response_text : option string) :
  exn_kind e <> JSONDecodeError ->
  quiz_handlers e response_text
  = QuizResult (Return (JList [])) ["Error generating quiz: " +:+ exn_str e].
Proof.
  intros Hkind. unfold quiz_handlers.
  destruct (exn_kind e); try reflexivity. contradiction.
Qed.

Lemma quiz_handlers_assigned (e : exn) (text : string) :
  quiz_returned (quiz_handlers e (Some text)) = Return (JList [])
  /\ quiz_errors (quiz_handlers e (Some text)) <> [].
Proof.
  unfold quiz_handlers. destruct (exn_kind e); split; simpl; congruence.
Qed.

(** C2, as the code has it. When the backend call does not itself raise a
    JSON decoding error, [generate_quiz] returns either the value found
    under the key [questions] of the decoded reply, as it is and with no
    error reported, or the empty list with at least one error reported. *)
Theorem generate_quiz_shapes
    (chat_completion : chat_request -> outcome string)
    (loads : string -> outcome json) (topic : string) (age : Z)
    (Hcall : forall e, chat_completion (quiz_request topic age) = Raise e ->
                       exn_kind e <> JSONDecodeError) :
  (exists content quiz_data questions,
      chat_completion (quiz_request topic age) = Return content
      /\ loads (extract_json content) = Return quiz_data
      /\ subscript quiz_data "questions" = Return questions
      /\ generate_quiz chat_completion loads topic age
         = QuizResult (Return questions) [])
  \/ (quiz_returned (generate_quiz chat_completion loads topic age)
        = Return (JList [])
      /\ quiz_errors (generate_quiz chat_completion loads topic age) <> []).
Proof.
  unfold generate_quiz.
  destruct (chat_completion (quiz_request topic age)) as [content | e] eqn:Hchat.
  - destruct (loads (extract_json content)) as [quiz_data | e] eqn:Hloads.
    + simpl.
      destruct (subscript quiz_data "questions") as [questions | e] eqn:Hsub.
      * left. exists content, quiz_data, questions. repeat split; assumption.
      * right. apply quiz_handlers_assigned.
    + simpl. right. apply quiz_handlers_assigned.
  - right. rewrite (quiz_handlers_other e None (Hcall e eq_refl)).
    split; simpl; congruence.
Qed.

(** C2, a reply the stated shape does not cover: the backend answers with
    a document that holds one question. [generate_quiz] returns that
    one-item list and reports no error; it is neither a quiz of eight
    items nor the empty list with an error. *)
Lemma generate_quiz_one_question :
  let r := generate_quiz (replying one_question_reply) json_loads "Loops" 16 in
  quiz_returned r = Return one_question
  /\ quiz_errors r = []
  /\ ~ ((exists v, quiz_returned r = Return v /\ is_quiz v = true)
        \/ (quiz_returned r = Return (JList []) /\ quiz_errors r <> [])).
Proof.
  assert (Hrun : generate_quiz (replying one_question_reply) json_loads "Loops" 16
                 = QuizResult (Return one_question) []) by (vm_compute; reflexivity).
  cbv zeta. rewrite Hrun. simpl. split; [reflexivity | split; [reflexivity |]].
  intros [[v [Hv Hquiz]] | [Hempty _]].
  - injection Hv as <-. vm_compute in Hquiz. discriminate Hquiz.
  - discriminate Hempty.
Qed.

Lemma generate_quiz_shapes_witness :
  (forall e, replying one_question_reply (quiz_request "Loops" 16) = Raise e ->
             exn_kind e <> JSONDecodeError)
  /\ ((exists content quiz_data questions,
          replying one_question_reply (quiz_request "Loops" 16) = Return content
          /\ json_loads (extract_json content) = Return quiz_data
          /\ subscript quiz_data "questions" = Return questions
          /\ generate_quiz (replying one_question_reply) json_loads "Loops" 16
             = QuizResult (Return questions) [])
      \/ (quiz_returned
            (generate_quiz (replying one_question_reply) json_loads "Loops" 16)
          = Return (JList [])
          /\ quiz_errors
               (generate_quiz (replying one_question_reply) json_loads "Loops" 16)
             <> [])).
Proof.
  split.
  - intros e H. discriminate H.
  - apply (generate_quiz_shapes (replying one_question_reply) json_loads "Loops" 16).
    intros e H. discriminate H.
Defined.

(** The fences around a reply are dropped before decoding. *)
Lemma generate_quiz_fenced :
  extract_json fenced_reply = one_question_reply
  /\ generate_quiz (replying fenced_reply) json_loads "Loops" 16
     = QuizResult (Return one_question) [].
Proof. split; vm_compute; reflexivity. Qed.

(** An empty list of questions comes back as it is, with no error. *)
Lemma generate_quiz_no_questions :
  generate_quiz (replying no_questions_reply) json_loads "Loops" 16
  = QuizResult (Return (JList [])) [].
Proof. vm_compute. reflexivity. Qed.

(** A reply that is no JSON: two messages, the second with the start of
    the text. *)
Lemma generate_quiz_unparsable :
  generate_quiz (replying "I cannot help with that.") json_loads "Loops" 16
  = QuizResult (Return (JList []))
      ["Error parsing quiz JSON: Expecting value";
       "Raw response: I cannot help with that...."].
Proof. vm_compute. reflexivity. Qed.

(** A document without the key, and a backend that fails. *)
Lemma generate_quiz_failures :
  generate_quiz (replying "{}") json_loads "Loops" 16
  = QuizResult (Return (JList [])) ["Error generating quiz: 'questions'"]
  /\ generate_quiz (failing "timed out") json_loads "Loops" 16
     = QuizResult (Return (JList [])) ["Error generating quiz: timed out"].
Proof. split; vm_compute; reflexivity. Qed.

(** ** Accounts *)

Lemma email_taken_iff (email : string) (db : database) :
  email_taken email db = true
  <-> exists r, In r (users db) /\ user_email r = email.
Proof.
  unfold email_taken. rewrite existsb_exists. split.
  - intros [r [Hin Heq]]. exists r. split; [exact Hin |].
    apply String.eqb_eq. exact Heq.
  - intros [r [Hin Heq]]. exists r. split; [exact Hin |].
    apply String.eqb_eq. exact Heq.
Qed.

Lemma email_free_iff (email : string) (db : database) :
  email_taken email db = false
  <-> forall r, In r (users db) -> user_email r <> email.
Proof.
  split.
  - intros Hfree r Hin Heq.
    assert (Htaken : email_taken email db = true)
      by (apply email_taken_iff; exists r; split; assumption).
    congruence.
  - intros Hall. destruct (email_taken email db) eqn:Htaken; [| reflexivity].
    apply email_taken_iff in Htaken as [r [Hin Heq]].
    exfalso. exact (Hall r Hin Heq).
Qed.

Lemma ids_below_sequence (db : database) (r : user_row) :
  ids_in_sequence db = true -> In r (users db) ->
  1 <= user_id r <= users_seq db.
Proof.
  unfold ids_in_sequence. intros Hall Hin.
  apply andb_prop in Hall as [_ Hall].
  rewrite forallb_forall in Hall. specialize (Hall r Hin).
  apply andb_prop in Hall as [Hlo Hhi].
  apply Z.leb_le in Hlo. apply Z.leb_le in Hhi. lia.
Qed.

Lemma sequence_nonnegative (db : database) :
  ids_in_sequence db = true -> 0 <= users_seq db.
Proof.
  unfold ids_in_sequence. intros Hall.
  apply andb_prop in Hall as [Hseq _]. apply Z.leb_le. exact Hseq.
Qed.

Lemma ids_in_sequence_insert (db : database) (r : user_row) :
  ids_in_sequence db = true -> user_id r = users_seq db + 1 ->
  ids_in_sequence
    (Database (users db ++ [r]) (users_seq db + 1) (user_progress db)
       (user_progress_seq db)) = true.
Proof.
  intros Hok Hid. pose proof (sequence_nonnegative db Hok) as Hseq.
  unfold ids_in_sequence. simpl.
  apply andb_true_intro. split; [apply Z.leb_le; lia |].
  apply forallb_forall. intros x Hin.
  apply in_app_or in Hin as [Hold | [<- | []]].
  - pose proof (ids_below_sequence db x Hok Hold) as Hx.
    apply andb_true_intro. split; apply Z.leb_le; lia.
  - apply andb_true_intro. split; apply Z.leb_le; lia.
Qed.

Lemma ids_in_sequence_empty : ids_in_sequence (init_database None) = true.
Proof. reflexivity. Qed.

Lemma ids_in_sequence_save (db : database) (now uid : Z) (topic : string)
    (score : Z) :
  ids_in_sequence (save_user_progress db now uid topic score)
  = ids_in_sequence db.
Proof. reflexivity. Qed.

Lemma ids_in_sequence_login (db : database) (now uid : Z) :
  ids_in_sequence (update_last_login db now uid) = ids_in_sequence db.
Proof.
  unfold ids_in_sequence, update_last_login. cbn [users users_seq].
  f_equal. induction (users db) as [| r rs IH]; [reflexivity |].
  cbn [map forallb]. rewrite IH.
  destruct (user_id r =? uid); reflexivity.
Qed.

Lemma create_user_hashed
    (hashpw : string -> string -> outcome string) (db : database) (now : Z)
    (salt email password hashed : string) (age : Z) :
  hashpw password salt = Return hashed ->
  create_user hashpw db now salt email password age
  = if negb (sqlite_integer age) then Raise overflow_error
    else if email_taken email db then Return (db, None)
    else
      Return
        (Database
           (users db
            ++ [UserRow (users_seq db + 1) email hashed age now None])
           (users_seq db + 1) (user_progress db) (user_progress_seq db),
         Some (users_seq db + 1)).
Proof.
  intros Hhash. unfold create_user, hash_password_secure, insert_user.
  rewrite Hhash. cbn [bind].
  destruct (sqlite_integer age); cbn [negb]; [| reflexivity].
  destruct (email_taken email db); reflexivity.
Qed.

Lemma create_user_refused
    (hashpw : string -> string -> outcome string) (db : database) (now : Z)
    (salt email password : string) (age : Z) (e : exn) :
  hashpw password salt = Raise e ->
  create_user hashpw db now salt email password age
  = match exn_kind e with
    | IntegrityError => Return (db, None)
    | _ => Raise e
    end.
Proof.
  intros Hhash. unfold create_user, hash_password_secure.
  rewrite Hhash. reflexivity.
Qed.

(** What a call of [create_user] that returns has done: nothing, or one
    row added at the end of the table under the next id. *)
Lemma create_user_returned
    (hashpw : string -> string -> outcome string) (db db' : database) (now : Z)
    (salt email password : string) (age : Z) (created : option Z) :
  create_user hashpw db now salt email password age = Return (db', created) ->
  (db' = db /\ created = None)
  \/ (exists hashed,
        hashpw password salt = Return hashed
        /\ sqlite_integer age = true
        /\ email_taken email db = false
        /\ created = Some (users_seq db + 1)
        /\ db' = Database
                   (users db
                    ++ [UserRow (users_seq db + 1) email hashed age now None])
                   (users_seq db + 1) (user_progress db)
                   (user_progress_seq db)).
Proof.
  destruct (hashpw password salt) as [hashed | e] eqn:Hhash.
  - rewrite (create_user_hashed hashpw db now salt email password hashed age
               Hhash).
    destruct (sqlite_integer age) eqn:Hage; cbn [negb]; [| discriminate].
    destruct (email_taken email db) eqn:Htaken; intros H; injection H as <- <-.
    + left. split; reflexivity.
    + right. exists hashed. repeat split; reflexivity.
  - rewrite (create_user_refused hashpw db now salt email password age e Hhash).
    destruct (exn_kind e); try discriminate.
    intros H; injection H as <- <-. left. split; reflexivity.
Qed.

(** C5. On a store whose ids follow its counter, and for a password
    [bcrypt] hashes and an age SQLite takes: [create_user] with an email
    some stored account already has returns [None] and leaves the database
    as it was; with an email no stored account has it returns a new id,
    different from every stored one and not zero, and the table holds one
    more row, the new account's. When [bcrypt] refuses the password the
    call ends in that exception, and when the age is no 64-bit integer in
    an [OverflowError], for a stored email and a new one alike. *)
Theorem create_user_unique_email
    (hashpw : string -> string -> outcome string) (db : database) (now : Z)
    (salt email password : string) (age : Z)
    (Hids : ids_in_sequence db = true) :
  (forall hashed,
      hashpw password salt = Return hashed ->
      sqlite_integer age = true ->
      ((exists r, In r (users db) /\ user_email r = email) ->
       create_user hashpw db now salt email password age = Return (db, None))
      /\ ((forall r, In r (users db) -> user_email r <> email) ->
          exists new_id db',
            create_user hashpw db now salt email password age
            = Return (db', Some new_id)
            /\ users db'
               = (users db
                  ++ [UserRow new_id email hashed age now None])%list
            /\ user_progress db' = user_progress db
            /\ (forall r, In r (users db) -> user_id r <> new_id)
            /\ new_id <> 0
            /\ ids_in_sequence db' = true))
  /\ (forall e,
        hashpw password salt = Raise e ->
        exn_kind e <> IntegrityError ->
        create_user hashpw db now salt email password age = Raise e)
  /\ (forall hashed,
        hashpw password salt = Return hashed ->
        sqlite_integer age = false ->
        create_user hashpw db now salt email password age
        = Raise overflow_error).
Proof.
  split; [| split].
  - intros hashed Hhash Hage.
    rewrite (create_user_hashed hashpw db now salt email password hashed age
               Hhash), Hage.
    cbn [negb]. split.
    + intros Htaken. apply email_taken_iff in Htaken.
      rewrite Htaken. reflexivity.
    + intros Hfree. apply email_free_iff in Hfree. rewrite Hfree.
      eexists. eexists. split; [reflexivity |].
      pose proof (sequence_nonnegative db Hids) as Hseq.
      simpl. repeat split.
      * intros r Hin. pose proof (ids_below_sequence db r Hids Hin). lia.
      * lia.
      * apply ids_in_sequence_insert; [exact Hids | reflexivity].
  - intros e Hhash Hkind.
    rewrite (create_user_refused hashpw db now salt email password age e Hhash).
    destruct (exn_kind e); try reflexivity. contradiction.
  - intros hashed Hhash Hage.
    rewrite (create_user_hashed hashpw db now salt email password hashed age
               Hhash), Hage.
    reflexivity.
Qed.

Lemma create_user_unique_email_witness :
  ids_in_sequence alice_db = true
  /\ create_user sample_hashpw alice_db 200 "pepper" "alice@example.com"
       "Secret2" 30 = Return (alice_db, None)
  /\ (exists new_id db',
        create_user sample_hashpw alice_db 200 "pepper" "bob@example.com"
          "Secret2" 30 = Return (db', Some new_id)
        /\ users db'
           = (users alice_db
              ++ [UserRow new_id "bob@example.com"
                    (sample_hash "Secret2" "pepper") 30 200 None])%list
        /\ user_progress db' = user_progress alice_db
        /\ (forall r, In r (users alice_db) -> user_id r <> new_id)
        /\ new_id <> 0
        /\ ids_in_sequence db' = true)
  /\ create_user sample_hashpw alice_db 200 "pepper" "bob@example.com"
       long_password 30 = Raise password_too_long
  /\ create_user sample_hashpw alice_db 200 "pepper" "bob@example.com"
       "Secret2" (2 ^ 63) = Raise overflow_error.
Proof.
  split; [reflexivity |].
  split.
  { apply (proj1 (create_user_unique_email sample_hashpw alice_db 200 "pepper"
                    "alice@example.com" "Secret2" 30 eq_refl)
             (sample_hash "Secret2" "pepper") eq_refl eq_refl).
    exists alice_row. split; [left; reflexivity | reflexivity]. }
  split.
  { apply (proj1 (create_user_unique_email sample_hashpw alice_db 200 "pepper"
                    "bob@example.com" "Secret2" 30 eq_refl)
             (sample_hash "Secret2" "pepper") eq_refl eq_refl).
    intros r [<- | []]. discriminate. }
  split.
  { apply (proj2 (create_user_unique_email sample_hashpw alice_db 200 "pepper"
                    "bob@example.com" long_password 30 eq_refl)).
    - reflexivity.
    - discriminate. }
  apply (proj2 (create_user_unique_email sample_hashpw alice_db 200 "pepper"
                  "bob@example.com" "Secret2" (2 ^ 63) eq_refl))
    with (hashed := sample_hash "Secret2" "pepper"); reflexivity.
Defined.

(** A registration with a pass phrase of 73 characters: [bcrypt] refuses
    to hash it, the exception is not the one [create_user] catches, and
    the call ends in it, with Alice's stored email as with Bob's new one:
    neither [None] nor a new id comes back. An age of [2 ^ 63] does the
    same with an [OverflowError]. *)
Lemma long_password_registration_raises :
  (exists r, In r (users alice_db) /\ user_email r = "alice@example.com")
  /\ create_user sample_hashpw alice_db 200 "pepper" "alice@example.com"
       long_password 30 = Raise password_too_long
  /\ create_user sample_hashpw alice_db 200 "pepper" "alice@example.com"
       long_password 30 <> Return (alice_db, None)
  /\ (forall r, In r (users alice_db) -> user_email r <> "bob@example.com")
  /\ create_user sample_hashpw alice_db 200 "pepper" "bob@example.com"
       long_password 30 = Raise password_too_long
  /\ ~ (exists new_id db',
          create_user sample_hashpw alice_db 200 "pepper" "bob@example.com"
            long_password 30 = Return (db', Some new_id))
  /\ create_user sample_hashpw alice_db 200 "pepper" "alice@example.com"
       "Secret2" (2 ^ 63) = Raise overflow_error
  /\ create_user sample_hashpw alice_db 200 "pepper" "bob@example.com"
       "Secret2" (2 ^ 63) = Raise overflow_error.
Proof.
  assert (Hold : create_user sample_hashpw alice_db 200 "pepper"
                   "alice@example.com" long_password 30
                 = Raise password_too_long) by reflexivity.
  assert (Hnew : create_user sample_hashpw alice_db 200 "pepper"
                   "bob@example.com" long_password 30
                 = Raise password_too_long) by reflexivity.
  split; [exists alice_row; split; [left; reflexivity | reflexivity] |].
  split; [exact Hold |].
  split; [rewrite Hold; discriminate |].
  split; [intros r [<- | []]; discriminate |].
  split; [exact Hnew |].
  split; [| split; reflexivity].
  intros (new_id & db' & Hreturn). rewrite Hnew in Hreturn. discriminate.
Qed.

(** The same pass phrase through the registration form: every check of
    the form passes and the run ends in the exception. *)
Lemma register_submit_long_password :
  register_submit sample_hashpw initial_session alice_db 200 "pepper"
    "bob@example.com" long_password long_password 30
  = Raise password_too_long.
Proof. vm_compute. reflexivity. Qed.

(** A second registration with Alice's email, through the form: the
    message is the one for a taken email and nothing is stored. *)
Lemma register_submit_taken_email :
  register_submit sample_hashpw initial_session alice_db 200 "pepper"
    "alice@example.com" "Secret2" "Secret2" 30
  = Return (FormResult initial_session alice_db
      [StError "Email already exists! Please use a different email."] false).
Proof. vm_compute. reflexivity. Qed.

(** A registration with a new email, through the form. *)
Lemma register_submit_new_email :
  exists db',
    register_submit sample_hashpw initial_session alice_db 200 "pepper"
      "bob@example.com" "Secret2" "Secret2" 30
    = Return (FormResult initial_session db'
        [StSuccess "Account created successfully! Please login."] false)
    /\ map user_id (users db') = [1; 2].
Proof. eexists. split; vm_compute; reflexivity. Qed.

Lemma authenticate_unknown_email
    (checkpw : string -> string -> outcome bool) (db : database) (now : Z)
    (email password : string) :
  select_user db email = None ->
  authenticate_user checkpw db now email password = Return (db, None).
Proof. intros Hnone. unfold authenticate_user. rewrite Hnone. reflexivity. Qed.

Lemma authenticate_wrong_password
    (checkpw : string -> string -> outcome bool) (db : database) (now : Z)
    (email password : string) (row : user_row) :
  select_user db email = Some row ->
  checkpw password (user_password_hash row) = Return false ->
  authenticate_user checkpw db now email password = Return (db, None).
Proof.
  intros Hrow Hwrong. unfold authenticate_user, verify_password.
  rewrite Hrow, Hwrong. reflexivity.
Qed.

Lemma authenticate_right_password
    (checkpw : string -> string -> outcome bool) (db : database) (now : Z)
    (email password : string) (row : user_row) :
  select_user db email = Some row ->
  checkpw password (user_password_hash row) = Return true ->
  authenticate_user checkpw db now email password
  = Return (update_last_login db now (user_id row),
            Some (User (user_id row) email (user_age row))).
Proof.
  intros Hrow Hright. unfold authenticate_user, verify_password.
  rewrite Hrow, Hright. reflexivity.
Qed.

Lemma authenticate_refused_password
    (checkpw : string -> string -> outcome bool) (db : database) (now : Z)
    (email password : string) (row : user_row) (e : exn) :
  select_user db email = Some row ->
  checkpw password (user_password_hash row) = Raise e ->
  authenticate_user checkpw db now email password = Raise e.
Proof.
  intros Hrow Hrefused. unfold authenticate_user, verify_password.
  rewrite Hrow, Hrefused. reflexivity.
Qed.

Lemma login_submit_checked
    (checkpw : string -> string -> outcome bool) (st : session_state)
    (db : database) (now : Z) (email password : string) :
  is_empty email || is_empty password = false ->
  validate_email email = true ->
  login_submit checkpw st db now email password
  = (authenticated <- authenticate_user checkpw db now email password ;;
     match authenticated with
     | (db', Some user) =>
         Return (FormResult
           (SessionState true (Some user) (current_lesson st)
              (quiz_questions st) (quiz_answers st) (quiz_submitted st)
              (lesson_topic st))
           db' [StSuccess "Login successful!"] true)
     | (db', None) =>
         Return (FormResult st db'
                   [StError "Invalid email or password!"] false)
     end).
Proof.
  intros Hfilled Hvalid. unfold login_submit.
  rewrite Hfilled, Hvalid. reflexivity.
Qed.

Lemma login_submit_rejected
    (checkpw : string -> string -> outcome bool) (st : session_state)
    (db : database) (now : Z) (email password : string) :
  is_empty email || is_empty password = false ->
  validate_email email = true ->
  authenticate_user checkpw db now email password = Return (db, None) ->
  login_submit checkpw st db now email password
  = Return (FormResult st db [StError "Invalid email or password!"] false).
Proof.
  intros Hfilled Hvalid Hauth.
  rewrite (login_submit_checked checkpw st db now email password Hfilled
             Hvalid), Hauth.
  reflexivity.
Qed.

(** C6. An attempt with an email no account has and an attempt for a
    stored account with a password that [bcrypt] finds not to match end
    alike: [authenticate_user] returns [None] and leaves the database
    untouched in both, and the login form, for attempts that pass its
    field checks, shows the same single message and leaves the session as
    it was. A password [bcrypt] refuses to check is told apart: the
    attempt with the unknown email still returns [None], the attempt for
    the stored account ends in the exception, in the function and in the
    form. *)
Theorem authenticate_failures_alike
    (checkpw : string -> string -> outcome bool) (db : database) (now : Z)
    (email1 password1 email2 password2 : string) (row : user_row)
    (Hunknown : select_user db email1 = None)
    (Hknown : select_user db email2 = Some row) :
  authenticate_user checkpw db now email1 password1 = Return (db, None)
  /\ (checkpw password2 (user_password_hash row) = Return false ->
      authenticate_user checkpw db now email2 password2 = Return (db, None))
  /\ (forall e,
        checkpw password2 (user_password_hash row) = Raise e ->
        authenticate_user checkpw db now email2 password2 = Raise e)
  /\ (forall st,
        is_empty email1 || is_empty password1 = false ->
        validate_email email1 = true ->
        login_submit checkpw st db now email1 password1
        = Return (FormResult st db
                    [StError "Invalid email or password!"] false))
  /\ (forall st,
        is_empty email2 || is_empty password2 = false ->
        validate_email email2 = true ->
        checkpw password2 (user_password_hash row) = Return false ->
        login_submit checkpw st db now email2 password2
        = Return (FormResult st db
                    [StError "Invalid email or password!"] false))
  /\ (forall st e,
        is_empty email2 || is_empty password2 = false ->
        validate_email email2 = true ->
        checkpw password2 (user_password_hash row) = Raise e ->
        login_submit checkpw st db now email2 password2 = Raise e).
Proof.
  pose proof (authenticate_unknown_email checkpw db now email1 password1
                Hunknown) as H1.
  split; [exact H1 |].
  split; [exact (authenticate_wrong_password checkpw db now email2 password2
                   row Hknown) |].
  split; [intros e; exact (authenticate_refused_password checkpw db now email2
                             password2 row e Hknown) |].
  split; [| split].
  - intros st Hfilled Hvalid.
    exact (login_submit_rejected checkpw st db now email1 password1 Hfilled
             Hvalid H1).
  - intros st Hfilled Hvalid Hwrong.
    exact (login_submit_rejected checkpw st db now email2 password2 Hfilled
             Hvalid
             (authenticate_wrong_password checkpw db now email2 password2 row
                Hknown Hwrong)).
  - intros st e Hfilled Hvalid Hrefused.
    rewrite (login_submit_checked checkpw st db now email2 password2 Hfilled
               Hvalid).
    rewrite (authenticate_refused_password checkpw db now email2 password2 row
               e Hknown Hrefused).
    reflexivity.
Qed.

Lemma authenticate_failures_alike_witness :
  select_user alice_db "bob@example.com" = None
  /\ select_user alice_db "alice@example.com" = Some alice_row
  /\ authenticate_user sample_checkpw alice_db 300 "bob@example.com" "Secret1"
     = Return (alice_db, None)
  /\ authenticate_user sample_checkpw alice_db 300 "alice@example.com"
       "Secret2" = Return (alice_db, None)
  /\ login_submit sample_checkpw initial_session alice_db 300
       "bob@example.com" "Secret1"
     = Return (FormResult initial_session alice_db
                 [StError "Invalid email or password!"] false)
  /\ login_submit sample_checkpw initial_session alice_db 300
       "alice@example.com" "Secret2"
     = Return (FormResult initial_session alice_db
                 [StError "Invalid email or password!"] false)
  /\ authenticate_user sample_checkpw alice_db 300 "alice@example.com"
       long_password = Raise password_too_long
  /\ login_submit sample_checkpw initial_session alice_db 300
       "alice@example.com" long_password = Raise password_too_long.
Proof.
  pose proof (authenticate_failures_alike sample_checkpw alice_db 300
                "bob@example.com" "Secret1" "alice@example.com" "Secret2"
                alice_row eq_refl eq_refl)
    as (Hnone & Hwrong & _ & Hform1 & Hform2 & _).
  pose proof (authenticate_failures_alike sample_checkpw alice_db 300
                "bob@example.com" "Secret1" "alice@example.com" long_password
                alice_row eq_refl eq_refl)
    as (_ & _ & Hrefused & _ & _ & Hform3).
  split; [reflexivity | split; [reflexivity |]].
  split; [exact Hnone |].
  split; [exact (Hwrong eq_refl) |].
  split; [exact (Hform1 initial_session eq_refl eq_refl) |].
  split; [exact (Hform2 initial_session eq_refl eq_refl eq_refl) |].
  split; [exact (Hrefused password_too_long eq_refl) |].
  exact (Hform3 initial_session password_too_long eq_refl eq_refl eq_refl).
Defined.

(** A wrong password of 73 characters tells a stored email from an
    unknown one: for Bob's email, which no account has, the function
    returns [None] and the form shows its message; for Alice's, the check
    raises and neither happens. *)
Lemma long_password_tells_accounts_apart :
  select_user alice_db "bob@example.com" = None
  /\ select_user alice_db "alice@example.com" = Some alice_row
  /\ authenticate_user sample_checkpw alice_db 300 "bob@example.com"
       long_password = Return (alice_db, None)
  /\ authenticate_user sample_checkpw alice_db 300 "alice@example.com"
       long_password = Raise password_too_long
  /\ authenticate_user sample_checkpw alice_db 300 "alice@example.com"
       long_password
     <> authenticate_user sample_checkpw alice_db 300 "bob@example.com"
          long_password
  /\ login_submit sample_checkpw initial_session alice_db 300
       "bob@example.com" long_password
     = Return (FormResult initial_session alice_db
                 [StError "Invalid email or password!"] false)
  /\ login_submit sample_checkpw initial_session alice_db 300
       "alice@example.com" long_password = Raise password_too_long.
Proof.
  assert (Hbob : authenticate_user sample_checkpw alice_db 300
                   "bob@example.com" long_password
                 = Return (alice_db, None)) by reflexivity.
  assert (Halice : authenticate_user sample_checkpw alice_db 300
                     "alice@example.com" long_password
                   = Raise password_too_long) by reflexivity.
  split; [reflexivity | split; [reflexivity |]].
  split; [exact Hbob | split; [exact Halice |]].
  split; [rewrite Hbob, Halice; discriminate |].
  split; vm_compute; reflexivity.
Qed.

(** With the right password the same account is let in. *)
Lemma authenticate_alice :
  authenticate_user sample_checkpw alice_db 300 "alice@example.com" "Secret1"
  = Return (update_last_login alice_db 300 1, Some alice).
Proof. vm_compute. reflexivity. Qed.

(** ** Grading *)

Lemma py_index_in_range (q : QuizItem) :
  index_in_range q = true ->
  exists correct_option, py_index (options q) (correct q) = Return correct_option.
Proof.
  unfold index_in_range, py_index. intros Hrange.
  apply andb_prop in Hrange as [Hlo Hhi].
  apply Z.leb_le in Hlo. apply Z.ltb_lt in Hhi.
  set (len := Z.of_nat (length (options q))) in *.
  set (j := if correct q <? 0 then correct q + len else correct q).
  assert (Hj : 0 <= j < len).
  { subst j. destruct (Z.ltb_spec (correct q) 0); lia. }
  replace ((0 <=? j) && (j <? len)) with true
    by (symmetry; apply andb_true_intro; split;
        [apply Z.leb_le | apply Z.ltb_lt]; lia).
  destruct (options q !! Z.to_nat j) as [x |] eqn:Hlook.
  - exists x. reflexivity.
  - apply lookup_ge_None in Hlook. subst len. lia.
Qed.

Lemma matches_at_here (pre rest : list QuizItem) (q : QuizItem)
    (answers : gmap nat string) (correct_option : string) :
  py_index (options q) (correct q) = Return correct_option ->
  matches_at (pre ++ q :: rest) answers (length pre)
  = String.eqb (answer_read answers (length pre)) correct_option.
Proof.
  intros Hopt. unfold matches_at.
  rewrite list_lookup_middle by reflexivity. rewrite Hopt. reflexivity.
Qed.

(** The loop invariant of the results view: from index [length pre] on,
    the count grows by the number of matching indices, and no box is
    drawn. *)
Lemma results_loop_invariant (rest pre : list QuizItem)
    (answers : gmap nat string) (correct_count : Z) :
  forallb index_in_range rest = true ->
  exists lines,
    results_loop (length pre) rest answers correct_count
    = Return
        (correct_count
         + Z.of_nat
             (length
                (List.filter (matches_at (pre ++ rest) answers)
                   (seq (length pre) (length rest)))),
         lines)
    /\ List.filter is_box lines = [].
Proof.
  revert pre correct_count.
  induction rest as [| q rest IH]; intros pre correct_count Hrange.
  - exists []. simpl. split; [f_equal; f_equal; lia | reflexivity].
  - simpl in Hrange. apply andb_prop in Hrange as [Hq Hrest].
    destruct (py_index_in_range q Hq) as [correct_option Hopt].
    cbn [results_loop]. rewrite Hopt. cbn [bind].
    cbn [length seq List.filter].
    rewrite (matches_at_here pre rest q answers correct_option Hopt).
    fold (answer_read answers (length pre)).
    specialize (IH (pre ++ [q])).
    rewrite length_app in IH. cbn [length] in IH.
    replace (length pre + 1)%nat with (S (length pre)) in IH by lia.
    rewrite <- app_assoc in IH. cbn [app] in IH.
    destruct (String.eqb (answer_read answers (length pre)) correct_option).
    + destruct (IH (correct_count + 1) Hrest) as [lines [Hloop Hbox]].
      rewrite Hloop. cbn [bind fst snd].
      eexists. split.
      * f_equal. f_equal. cbn [length]. lia.
      * cbn. exact Hbox.
    + destruct (IH correct_count Hrest) as [lines [Hloop Hbox]].
      rewrite Hloop. cbn [bind fst snd].
      eexists. split.
      * reflexivity.
      * cbn. exact Hbox.
Qed.

Lemma results_loop_matching (qs : list QuizItem) (answers : gmap nat string) :
  forallb index_in_range qs = true ->
  exists lines,
    results_loop 0 qs answers 0 = Return (matching_count qs answers, lines)
    /\ List.filter is_box lines = [].
Proof.
  intros Hrange.
  destruct (results_loop_invariant qs [] answers 0 Hrange) as [lines [Hloop Hbox]].
  exists lines. split; [| exact Hbox].
  simpl in Hloop. rewrite Hloop. reflexivity.
Qed.

Lemma final_result_is_box (correct_count : Z) :
  is_box (final_result correct_count) = true.
Proof. unfold final_result. destruct (5 <=? correct_count); reflexivity. Qed.

(** The session after a run of the results view. *)
Lemma display_quiz_submitted (w : widgets) (now : Z) (st : session_state)
    (db : database) :
  quiz_submitted st = true ->
  forallb index_in_range (quiz_questions st) = true ->
  exists p,
    display_quiz w now st db = Return p
    /\ page_db p
       = match user_data st with
         | Some u =>
             save_user_progress db now (u_id u) (lesson_topic st)
               (matching_count (quiz_questions st) (quiz_answers st))
         | None => db
         end
    /\ List.filter is_box (page_elements p)
       = [final_result (matching_count (quiz_questions st) (quiz_answers st))]
    /\ page_state p
       = match pressed w with
         | RetakeQuiz =>
             SessionState (logged_in st) (user_data st) (current_lesson st)
               (quiz_questions st) ∅ false (lesson_topic st)
         | NewTopic =>
             SessionState (logged_in st) (user_data st) None [] ∅ false ""
         | _ => st
         end
    /\ page_rerun p
       = match pressed w with
         | RetakeQuiz | NewTopic => true
         | _ => false
         end.
Proof.
  intros Hsub Hrange.
  destruct (results_loop_matching (quiz_questions st) (quiz_answers st) Hrange)
    as [lines [Hloop Hbox]].
  unfold display_quiz. rewrite Hsub. cbn [negb].
  rewrite Hloop. cbn [bind fst snd].
  assert (Hdrawn : forall buttons,
             List.filter is_box buttons = [] ->
             List.filter is_box
               ((QuizHeader
                   :: lines
                      ++ [final_result
                            (matching_count (quiz_questions st)
                               (quiz_answers st))])
                  ++ buttons)
             = [final_result
                  (matching_count (quiz_questions st) (quiz_answers st))]).
  { intros buttons Hbuttons.
    rewrite List.filter_app, Hbuttons, app_nil_r.
    cbn [List.filter is_box]. rewrite List.filter_app, Hbox.
    cbn [List.filter app]. rewrite final_result_is_box. reflexivity. }
  destruct (pressed w); eexists;
    (split; [reflexivity |]); cbn [page_db page_elements page_state page_rerun];
    repeat split; apply Hdrawn; reflexivity.
Qed.

(** What [py_index] returns for an index in range is the option located
    at that index, counted from the first option or back from the last. *)
Lemma py_index_located (q : QuizItem) :
  index_in_range q = true ->
  exists located,
    option_at_correct_index q = Some located
    /\ py_index (options q) (correct q) = Return located.
Proof.
  unfold index_in_range, option_at_correct_index, py_index. intros Hrange.
  apply andb_prop in Hrange as [Hlo Hhi].
  apply Z.leb_le in Hlo. apply Z.ltb_lt in Hhi.
  set (len := Z.of_nat (length (options q))) in *.
  destruct (Z.ltb_spec (correct q) 0) as [Hneg | Hpos].
  - replace (0 <=? correct q) with false by (symmetry; apply Z.leb_gt; lia).
    replace ((0 <=? correct q + len) && (correct q + len <? len)) with true
      by (symmetry; apply andb_true_intro; split;
          [apply Z.leb_le | apply Z.ltb_lt]; lia).
    rewrite rev_alt. fold (reverse (options q)).
    rewrite reverse_lookup by (subst len; lia).
    replace (length (options q) - S (Z.to_nat (- correct q - 1)))%nat
      with (Z.to_nat (correct q + len)) by (subst len; lia).
    destruct (options q !! Z.to_nat (correct q + len)) as [x |] eqn:Hlook.
    + exists x. split; reflexivity.
    + apply lookup_ge_None in Hlook. subst len. lia.
  - replace ((0 <=? correct q) && (correct q <? len)) with true
      by (symmetry; apply andb_true_intro; split;
          [apply Z.leb_le | apply Z.ltb_lt]; lia).
    replace (0 <=? correct q) with true by (symmetry; apply Z.leb_le; lia).
    destruct (options q !! Z.to_nat (correct q)) as [x |] eqn:Hlook.
    + exists x. split; reflexivity.
    + apply lookup_ge_None in Hlook. subst len. lia.
Qed.

Lemma string_match_at_loop (qs : list QuizItem) (answers : gmap nat string)
    (i : nat) :
  forallb index_in_range qs = true ->
  string_match_at qs answers i = matches_at qs answers i.
Proof.
  intros Hrange. unfold string_match_at, matches_at.
  destruct (qs !! i) as [q |] eqn:Hq; [| reflexivity].
  rewrite forallb_forall in Hrange.
  assert (Hin : In q qs)
    by (apply list_elem_of_In; exact (list_elem_of_lookup_2 qs i q Hq)).
  destruct (py_index_located q (Hrange q Hin)) as (located & -> & ->).
  reflexivity.
Qed.

Lemma string_match_count_loop (qs : list QuizItem)
    (answers : gmap nat string) :
  forallb index_in_range qs = true ->
  string_match_count qs answers = matching_count qs answers.
Proof.
  intros Hrange. unfold string_match_count, matching_count, count_indices.
  f_equal. f_equal. apply List.filter_ext. intros i.
  exact (string_match_at_loop qs answers i Hrange).
Qed.

(** C3. For items whose correct index lies within their options, the
    results view counts the indices at which the answer read from the
    answer mapping equals, as a string, the option string located at the
    item's correct index, the place being counted on the list of options
    itself. The number depends on the items and the answers alone: every
    run of the view over them, whatever the click, the time and the
    database, shows that same count in its result box. *)
Theorem grading_counts_string_matches
    (qs : list QuizItem) (answers : gmap nat string)
    (Hrange : forallb index_in_range qs = true) :
  (exists lines,
      results_loop 0 qs answers 0
      = Return (string_match_count qs answers, lines))
  /\ (forall w now st db,
         quiz_questions st = qs -> quiz_answers st = answers ->
         quiz_submitted st = true ->
         exists p,
           display_quiz w now st db = Return p
           /\ List.filter is_box (page_elements p)
              = [final_result (string_match_count qs answers)]).
Proof.
  rewrite (string_match_count_loop qs answers Hrange).
  split.
  - destruct (results_loop_matching qs answers Hrange) as [lines [Hloop _]].
    exists lines. exact Hloop.
  - intros w now st db Hqs Hanswers Hsub. subst qs answers.
    destruct (display_quiz_submitted w now st db Hsub Hrange)
      as [p [Hrun [_ [Hbox _]]]].
    exists p. split; assumption.
Qed.

Lemma grading_counts_string_matches_witness :
  forallb index_in_range loops_quiz = true
  /\ string_match_count loops_quiz (quiz_answers loops_graded) = 4
  /\ ((exists lines,
          results_loop 0 loops_quiz (quiz_answers loops_graded) 0
          = Return (string_match_count loops_quiz (quiz_answers loops_graded),
                    lines))
      /\ (forall w now st db,
             quiz_questions st = loops_quiz ->
             quiz_answers st = quiz_answers loops_graded ->
             quiz_submitted st = true ->
             exists p,
               display_quiz w now st db = Return p
               /\ List.filter is_box (page_elements p)
                  = [final_result
                       (string_match_count loops_quiz
                          (quiz_answers loops_graded))])).
Proof.
  split; [reflexivity |].
  split; [vm_compute; reflexivity |].
  apply (grading_counts_string_matches loops_quiz (quiz_answers loops_graded)).
  reflexivity.
Defined.

(** The option is located by the index kept with the item: in the sample
    session the last four items keep index 1, the answers all hold the
    first option, and those four do not count. With a negative index the
    place is counted back from the last option. *)
Lemma located_by_the_index :
  option_at_correct_index (loop_item 1) = Some "B) Stores data"
  /\ option_at_correct_index (loop_item (-1)) = Some "D) Ends a program"
  /\ option_at_correct_index (loop_item 4) = None
  /\ option_at_correct_index (loop_item (-5)) = None
  /\ map (string_match_at loops_quiz (quiz_answers loops_graded)) (seq 0 8)
     = [true; true; true; true; false; false; false; false]
  /\ (exists lines,
        results_loop 0 [loop_item (-1)] {[ 0%nat := "D) Ends a program" ]} 0
        = Return (1, lines)).
Proof.
  do 4 (split; [reflexivity |]).
  split; [vm_compute; reflexivity |].
  eexists. vm_compute. reflexivity.
Qed.

(** The sample session: four of the eight answers match. *)
Lemma loops_graded_count :
  matching_count loops_quiz (quiz_answers loops_graded) = 4.
Proof. vm_compute. reflexivity. Qed.

(** The comparison is on the text: with two options of the same text, the
    answer counts although the index kept as correct is the other one. *)
Lemma same_text_counts :
  exists lines,
    results_loop 0 [MkQuizItem "Pick one" ["same"; "same"; "x"; "y"] 1 "why"]
      {[ 0%nat := "same" ]} 0
    = Return (1, lines).
Proof. eexists. vm_compute. reflexivity. Qed.

(** C4. A run of the results view draws exactly one result box, for the
    count of the session: the success box when the count is 5 or more and
    the warning box otherwise; 5 gives the success box and 4 the warning
    box. *)
Theorem mastered_from_five
    (w : widgets) (now : Z) (st : session_state) (db : database)
    (Hsub : quiz_submitted st = true)
    (Hrange : forallb index_in_range (quiz_questions st) = true) :
  exists p correct_count,
    display_quiz w now st db = Return p
    /\ correct_count = matching_count (quiz_questions st) (quiz_answers st)
    /\ List.filter is_box (page_elements p) = [final_result correct_count]
    /\ (final_result correct_count = SuccessBox correct_count
        <-> 5 <= correct_count)
    /\ (final_result correct_count = WarningBox correct_count
        <-> correct_count < 5)
    /\ final_result 5 = SuccessBox 5
    /\ final_result 4 = WarningBox 4.
Proof.
  destruct (display_quiz_submitted w now st db Hsub Hrange)
    as [p [Hrun [_ [Hbox _]]]].
  exists p, (matching_count (quiz_questions st) (quiz_answers st)).
  split; [exact Hrun | split; [reflexivity | split; [exact Hbox |]]].
  set (c := matching_count (quiz_questions st) (quiz_answers st)).
  unfold final_result.
  repeat split; try reflexivity;
    destruct (Z.leb_spec 5 c); intros; try congruence; try lia.
Qed.

Lemma mastered_from_five_witness :
  quiz_submitted loops_graded = true
  /\ forallb index_in_range (quiz_questions loops_graded) = true
  /\ exists p correct_count,
       display_quiz no_click 11 loops_graded alice_db = Return p
       /\ correct_count
          = matching_count (quiz_questions loops_graded)
              (quiz_answers loops_graded)
       /\ List.filter is_box (page_elements p) = [final_result correct_count]
       /\ (final_result correct_count = SuccessBox correct_count
           <-> 5 <= correct_count)
       /\ (final_result correct_count = WarningBox correct_count
           <-> correct_count < 5)
       /\ final_result 5 = SuccessBox 5
       /\ final_result 4 = WarningBox 4.
Proof.
  split; [reflexivity | split; [reflexivity |]].
  apply (mastered_from_five no_click 11 loops_graded alice_db); reflexivity.
Defined.

(** C7. From the results view, the retake button empties the answer
    mapping and clears the submitted flag and changes no other field, so
    the same items stay loaded; the new-topic button clears the lesson,
    the topic, the items, the answers and the flag. Both ask for a rerun,
    and the login fields are untouched by either. *)
Theorem retake_keeps_items_new_topic_discards
    (values : nat -> string) (now : Z) (st : session_state) (db : database)
    (Hsub : quiz_submitted st = true)
    (Hrange : forallb index_in_range (quiz_questions st) = true) :
  (exists p,
      display_quiz (Widgets RetakeQuiz values) now st db = Return p
      /\ page_state p
         = SessionState (logged_in st) (user_data st) (current_lesson st)
             (quiz_questions st) ∅ false (lesson_topic st)
      /\ page_rerun p = true)
  /\ (exists p,
        display_quiz (Widgets NewTopic values) now st db = Return p
        /\ page_state p
           = SessionState (logged_in st) (user_data st) None [] ∅ false ""
        /\ page_rerun p = true).
Proof.
  split.
  - destruct (display_quiz_submitted (Widgets RetakeQuiz values) now st db
                Hsub Hrange) as [p [Hrun [_ [_ [Hstate Hrerun]]]]].
    exists p. repeat split; assumption.
  - destruct (display_quiz_submitted (Widgets NewTopic values) now st db
                Hsub Hrange) as [p [Hrun [_ [_ [Hstate Hrerun]]]]].
    exists p. repeat split; assumption.
Qed.

Lemma retake_keeps_items_new_topic_discards_witness :
  quiz_submitted loops_graded = true
  /\ forallb index_in_range (quiz_questions loops_graded) = true
  /\ ((exists p,
          display_quiz (Widgets RetakeQuiz (radio first_options)) 12
            loops_graded alice_db = Return p
          /\ page_state p
             = SessionState (logged_in loops_graded) (user_data loops_graded)
                 (current_lesson loops_graded) (quiz_questions loops_graded)
                 ∅ false (lesson_topic loops_graded)
          /\ page_rerun p = true)
      /\ (exists p,
            display_quiz (Widgets NewTopic (radio first_options)) 12
              loops_graded alice_db = Return p
            /\ page_state p
               = SessionState (logged_in loops_graded)
                   (user_data loops_graded) None [] ∅ false ""
            /\ page_rerun p = true)).
Proof.
  split; [reflexivity | split; [reflexivity |]].
  apply (retake_keeps_items_new_topic_discards (radio first_options) 12
           loops_graded alice_db); reflexivity.
Defined.

(** After a retake the form shows the items of before: the session is
    the one the quiz started from. *)
Lemma retake_returns_to_ready :
  exists p,
    display_quiz (Widgets RetakeQuiz (radio first_options)) 12 loops_graded
      alice_db = Return p
    /\ page_state p = loops_ready.
Proof. eexists. split; vm_compute; reflexivity. Qed.

(** ** Saving the score *)

Lemma progress_rows_length (seq0 uid : Z) (topic : string) (score : Z)
    (times : list Z) :
  length (progress_rows seq0 uid topic score times) = length times.
Proof.
  revert seq0. induction times as [| now later IH]; intros seq0; simpl.
  - reflexivity.
  - rewrite IH. reflexivity.
Qed.

(** C1, as the code has it. In a session with an account, every run of
    the results view stores one more progress row with the topic of the
    session and its count: drawing the view once stores one row, and
    drawing it [n] times stores [n] rows, alike but for id and time. The
    session and the accounts are left as they were. *)
Theorem results_view_saves_on_every_run
    (times : list Z) (st : session_state) (db : database) (u : user)
    (Hsub : quiz_submitted st = true)
    (Hrange : forallb index_in_range (quiz_questions st) = true)
    (Huser : user_data st = Some u) :
  exists db',
    rerender times st db = Return (st, db')
    /\ user_progress db'
       = user_progress db
         ++ progress_rows (user_progress_seq db) (u_id u) (lesson_topic st)
              (matching_count (quiz_questions st) (quiz_answers st)) times
    /\ length (user_progress db')
       = (length (user_progress db) + length times)%nat
    /\ users db' = users db.
Proof.
  revert db. induction times as [| now later IH]; intros db.
  - exists db. cbn [rerender progress_rows length].
    rewrite app_nil_r, Nat.add_0_r. repeat split; reflexivity.
  - destruct (display_quiz_submitted no_click now st db Hsub Hrange)
      as [p [Hrun [Hdb [_ [Hstate _]]]]].
    cbn [pressed no_click] in Hstate.
    rewrite Huser in Hdb.
    destruct (IH (page_db p)) as [db' [Hlater [Hrows [Hlen Husers]]]].
    exists db'. cbn [rerender]. rewrite Hrun. cbn [bind]. rewrite Hstate.
    split; [exact Hlater |].
    rewrite Hdb in Hrows, Hlen, Husers. cbn in Hrows, Hlen, Husers.
    split; [| split].
    + rewrite Hrows. rewrite <- app_assoc. reflexivity.
    + rewrite Hlen. rewrite length_app. cbn [length]. lia.
    + exact Husers.
Qed.

Lemma results_view_saves_on_every_run_witness :
  quiz_submitted loops_graded = true
  /\ forallb index_in_range (quiz_questions loops_graded) = true
  /\ user_data loops_graded = Some alice
  /\ exists db',
       rerender [11; 12; 13] loops_graded alice_db = Return (loops_graded, db')
       /\ user_progress db'
          = user_progress alice_db
            ++ progress_rows (user_progress_seq alice_db) (u_id alice)
                 (lesson_topic loops_graded)
                 (matching_count (quiz_questions loops_graded)
                    (quiz_answers loops_graded))
                 [11; 12; 13]
       /\ length (user_progress db')
          = (length (user_progress alice_db) + length [11; 12; 13])%nat
       /\ users db' = users alice_db.
Proof.
  split; [reflexivity | split; [reflexivity | split; [reflexivity |]]].
  apply (results_view_saves_on_every_run [11; 12; 13] loops_graded alice_db
           alice); reflexivity.
Defined.

(** C1, one submission stored twice. Alice submits the quiz on loops; the
    rerun draws the results view and stores her score of 4; the view is
    drawn once more and the same score is stored again. So it does not
    hold that the runs after a submission add one row in all. *)
Lemma results_view_saves_twice :
  (exists drawn,
      display_quiz (Widgets SubmitQuiz (radio first_options)) 10 loops_ready
        alice_db
      = Return (Page loops_graded alice_db drawn true))
  /\ (exists db2,
        rerender [11; 12] loops_graded alice_db = Return (loops_graded, db2)
        /\ user_progress db2
           = [ProgressRow 1 1 "Loops" 4 11; ProgressRow 2 1 "Loops" 4 12])
  /\ ~ (forall times st db st' db',
           quiz_submitted st = true ->
           user_data st <> None ->
           times <> [] ->
           rerender times st db = Return (st', db') ->
           length (user_progress db') = S (length (user_progress db))).
Proof.
  assert (Hrun : exists db2,
             rerender [11; 12] loops_graded alice_db = Return (loops_graded, db2)
             /\ user_progress db2
                = [ProgressRow 1 1 "Loops" 4 11; ProgressRow 2 1 "Loops" 4 12]).
  { eexists. split; vm_compute; reflexivity. }
  split; [| split].
  - eexists. vm_compute. reflexivity.
  - exact Hrun.
  - intros Honce. destruct Hrun as [db2 [Hrender Hrows]].
    specialize (Honce [11; 12] loops_graded alice_db loops_graded db2).
    rewrite Hrows in Honce. cbn in Honce.
    assert (Hlen : 2%nat = 1%nat).
    { apply Honce; [reflexivity | discriminate | discriminate | exact Hrender]. }
    discriminate Hlen.
Qed.

(** The press of the retake button is itself such a run: the score is
    stored once more before the session is reset. *)
Lemma retake_saves_again :
  exists p1 p2,
    display_quiz no_click 11 loops_graded alice_db = Return p1
    /\ display_quiz (Widgets RetakeQuiz (radio first_options)) 12
         (page_state p1) (page_db p1) = Return p2
    /\ user_progress (page_db p2)
       = [ProgressRow 1 1 "Loops" 4 11; ProgressRow 2 1 "Loops" 4 12].
Proof.
  destruct (display_quiz_submitted no_click 11 loops_graded alice_db
              eq_refl eq_refl) as (p1 & Hrun1 & Hdb1 & _ & Hstate1 & _).
  cbn [pressed no_click] in Hstate1.
  destruct (display_quiz_submitted (Widgets RetakeQuiz (radio first_options))
              12 loops_graded (page_db p1) eq_refl eq_refl)
    as (p2 & Hrun2 & Hdb2 & _).
  exists p1, p2. rewrite Hstate1.
  split; [exact Hrun1 | split; [exact Hrun2 |]].
  rewrite Hdb2, Hdb1.
  change (quiz_questions loops_graded) with loops_quiz.
  rewrite loops_graded_count. reflexivity.
Qed.

(** ** Answers that are missing *)

Lemma nonempty_differs_from_empty (s : string) :
  negb (is_empty s) = true -> String.eqb "" s = false.
Proof. destruct s; simpl; [discriminate | reflexivity]. Qed.

Lemma matches_recorded (qs : list QuizItem) (answers : gmap nat string)
    (i : nat) :
  forallb correct_option_nonempty qs = true ->
  matches_at qs answers i = recorded_matches_at qs answers i.
Proof.
  intros Hnonempty. unfold matches_at, recorded_matches_at, answer_read.
  destruct (qs !! i) as [q |] eqn:Hq; [| reflexivity].
  destruct (py_index (options q) (correct q)) as [o | e] eqn:Hopt.
  - destruct (answers !! i) as [a |]; [reflexivity |]. cbn [default].
    apply nonempty_differs_from_empty.
    rewrite forallb_forall in Hnonempty.
    apply list_elem_of_lookup_2, list_elem_of_In in Hq.
    specialize (Hnonempty q Hq).
    unfold correct_option_nonempty in Hnonempty. rewrite Hopt in Hnonempty.
    exact Hnonempty.
  - destruct (answers !! i); reflexivity.
Qed.

(** C10, as the code has it. For items whose correct index lies within
    their options and for every answer mapping, complete or not, grading
    returns a count and raises nothing. An index without a recorded
    answer is read as the empty string, and the count is the number of
    indices at which the answer so read equals the correct option. When
    no correct option is the empty string, that is the number of indices
    whose recorded answer equals the correct option. *)
Theorem grading_total_missing_read_as_empty
    (qs : list QuizItem) (answers : gmap nat string)
    (Hrange : forallb index_in_range qs = true) :
  (exists lines,
      results_loop 0 qs answers 0 = Return (matching_count qs answers, lines))
  /\ (forall i, answers !! i = None -> answer_read answers i = "")
  /\ (forall i a, answers !! i = Some a -> answer_read answers i = a)
  /\ (forallb correct_option_nonempty qs = true ->
      matching_count qs answers = recorded_matching_count qs answers).
Proof.
  split; [| split; [| split]].
  - destruct (results_loop_matching qs answers Hrange) as [lines [Hloop _]].
    exists lines. exact Hloop.
  - intros i Hnone. unfold answer_read. rewrite Hnone. reflexivity.
  - intros i a Hsome. unfold answer_read. rewrite Hsome. reflexivity.
  - intros Hnonempty. unfold matching_count, recorded_matching_count, count_indices.
    f_equal. f_equal. apply filter_ext_in. intros i _.
    apply matches_recorded. exact Hnonempty.
Qed.

Lemma grading_total_missing_read_as_empty_witness :
  forallb index_in_range loops_quiz = true
  /\ ((exists lines,
          results_loop 0 loops_quiz {[ 0%nat := "A) Repeats code" ]} 0
          = Return
              (matching_count loops_quiz {[ 0%nat := "A) Repeats code" ]},
               lines))
      /\ (forall i, ({[ 0%nat := "A) Repeats code" ]} : gmap nat string) !! i = None ->
                    answer_read {[ 0%nat := "A) Repeats code" ]} i = "")
      /\ (forall i a,
             ({[ 0%nat := "A) Repeats code" ]} : gmap nat string) !! i = Some a ->
             answer_read {[ 0%nat := "A) Repeats code" ]} i = a)
      /\ (forallb correct_option_nonempty loops_quiz = true ->
          matching_count loops_quiz {[ 0%nat := "A) Repeats code" ]}
          = recorded_matching_count loops_quiz
              {[ 0%nat := "A) Repeats code" ]})).
Proof.
  split.
  - reflexivity.
  - apply (grading_total_missing_read_as_empty loops_quiz
             {[ 0%nat := "A) Repeats code" ]}).
    reflexivity.
Defined.

(** C10, a quiz the stated count fails on: eight items of four options
    whose correct option is the empty string, and an answer mapping with
    no entry. Grading counts all eight as correct, while no index has a
    recorded answer equal to its correct option. *)
Lemma blank_option_counts_when_unanswered :
  forallb four_options blank_quiz = true
  /\ (exists lines, results_loop 0 blank_quiz ∅ 0 = Return (8, lines))
  /\ recorded_matching_count blank_quiz ∅ = 0
  /\ ~ (forall qs answers,
           forallb four_options qs = true ->
           exists lines,
             results_loop 0 qs answers 0
             = Return (recorded_matching_count qs answers, lines)).
Proof.
  assert (Hrun : exists lines, results_loop 0 blank_quiz ∅ 0 = Return (8, lines))
    by (eexists; vm_compute; reflexivity).
  split; [reflexivity | split; [exact Hrun | split; [reflexivity |]]].
  intros Hclaim. destruct Hrun as [lines Hrun].
  destruct (Hclaim blank_quiz ∅ eq_refl) as [lines' Hclaimed].
  rewrite Hrun in Hclaimed.
  assert (Hcount : 8 = recorded_matching_count blank_quiz ∅) by congruence.
  vm_compute in Hcount. discriminate Hcount.
Qed.

(** ** The store under any sequence of calls *)

Lemma update_last_login_emails (db : database) (now uid : Z) :
  map user_email (users (update_last_login db now uid))
  = map user_email (users db).
Proof.
  unfold update_last_login. cbn [users].
  induction (users db) as [| r rs IH]; [reflexivity |].
  cbn [map]. rewrite IH. destruct (user_id r =? uid); reflexivity.
Qed.

Lemma update_last_login_ids (db : database) (now uid : Z) :
  map user_id (users (update_last_login db now uid))
  = map user_id (users db).
Proof.
  unfold update_last_login. cbn [users].
  induction (users db) as [| r rs IH]; [reflexivity |].
  cbn [map]. rewrite IH. destruct (user_id r =? uid); reflexivity.
Qed.

Lemma authenticate_user_database
    (checkpw : string -> string -> outcome bool) (db db' : database) (now : Z)
    (email password : string) (account : option user) :
  authenticate_user checkpw db now email password = Return (db', account) ->
  db' = db \/ exists uid, db' = update_last_login db now uid.
Proof.
  unfold authenticate_user.
  destruct (select_user db email) as [row |];
    [| intros H; injection H as <- _; left; reflexivity].
  destruct (verify_password checkpw password (user_password_hash row))
    as [[|] | e]; cbn [bind]; [| | discriminate];
    intros H; injection H as <- _.
  - right. exists (user_id row). reflexivity.
  - left. reflexivity.
Qed.

Lemma store_invariant_empty : store_invariant (init_database None).
Proof.
  unfold store_invariant. cbn.
  repeat split; try constructor; lia.
Qed.

Lemma store_invariant_login (db : database) (now uid : Z) :
  store_invariant db -> store_invariant (update_last_login db now uid).
Proof.
  intros (Hemails & Hids & Hseq & Hpids & Hnonneg & Hprange).
  unfold store_invariant.
  rewrite update_last_login_emails, update_last_login_ids, ids_in_sequence_login.
  repeat split; assumption.
Qed.

Lemma store_invariant_save (db : database) (now uid : Z) (topic : string)
    (score : Z) :
  store_invariant db ->
  store_invariant (save_user_progress db now uid topic score).
Proof.
  intros (Hemails & Hids & Hseq & Hpids & Hnonneg & Hprange).
  unfold store_invariant, save_user_progress. cbn [users user_progress user_progress_seq].
  split; [exact Hemails | split; [exact Hids | split; [exact Hseq |]]].
  rewrite Forall_forall in Hprange.
  split; [| split; [lia |]].
  - rewrite map_app. cbn [map progress_id].
    apply NoDup_app. split; [exact Hpids | split; [| apply NoDup_singleton]].
    intros x Hx Hnew. apply list_elem_of_singleton in Hnew. subst x.
    apply list_elem_of_In, in_map_iff in Hx as [r [Hid Hin]].
    apply list_elem_of_In in Hin.
    specialize (Hprange r Hin). lia.
  - apply Forall_forall. intros r Hin.
    apply list_elem_of_In, in_app_or in Hin as [Hold | [<- | []]].
    + apply list_elem_of_In in Hold. specialize (Hprange r Hold). lia.
    + cbn [progress_id]. lia.
Qed.

Lemma store_invariant_create
    (hashpw : string -> string -> outcome string) (db db' : database) (now : Z)
    (salt email password : string) (age : Z) (created : option Z) :
  store_invariant db ->
  create_user hashpw db now salt email password age = Return (db', created) ->
  store_invariant db'.
Proof.
  intros Hinv Hcreate.
  destruct (create_user_returned hashpw db db' now salt email password age
              created Hcreate)
    as [[-> _] | (hashed & _ & _ & Htaken & _ & ->)].
  - exact Hinv.
  - destruct Hinv as (Hemails & Hids & Hseq & Hpids & Hnonneg & Hprange).
    unfold store_invariant. cbn [users user_progress user_progress_seq].
    pose proof (proj1 (email_free_iff email db) Htaken) as Hfree.
    split; [| split; [| split; [| repeat split; assumption]]].
    + rewrite map_app. cbn [map user_email].
      apply NoDup_app. split; [exact Hemails | split; [| apply NoDup_singleton]].
      intros x Hx Hnew. apply list_elem_of_singleton in Hnew. subst x.
      apply list_elem_of_In, in_map_iff in Hx as [r [Hmail Hin]].
      exact (Hfree r Hin Hmail).
    + rewrite map_app. cbn [map user_id].
      apply NoDup_app. split; [exact Hids | split; [| apply NoDup_singleton]].
      intros x Hx Hnew. apply list_elem_of_singleton in Hnew. subst x.
      apply list_elem_of_In, in_map_iff in Hx as [r [Hid Hin]].
      pose proof (ids_below_sequence db r Hseq Hin). lia.
    + apply ids_in_sequence_insert; [exact Hseq | reflexivity].
Qed.

Lemma store_invariant_step
    (hashpw : string -> string -> outcome string)
    (checkpw : string -> string -> outcome bool)
    (db : database) (c : store_call) :
  store_invariant db -> store_invariant (store_step hashpw checkpw db c).
Proof.
  intros Hinv. destruct c as [now salt email password age
                             | now email password | now uid topic score];
    cbn [store_step].
  - destruct (create_user hashpw db now salt email password age)
      as [[db' created] | e] eqn:Hcreate; [| exact Hinv].
    exact (store_invariant_create hashpw db db' now salt email password age
             created Hinv Hcreate).
  - destruct (authenticate_user checkpw db now email password)
      as [[db' account] | e] eqn:Hauth; [| exact Hinv].
    destruct (authenticate_user_database checkpw db db' now email password
                account Hauth) as [-> | [uid ->]]; [exact Hinv |].
    apply store_invariant_login. exact Hinv.
  - apply store_invariant_save. exact Hinv.
Qed.

(** X1. Whatever calls of [create_user], [authenticate_user] and
    [save_user_progress] a new database receives, in whatever order and
    with whatever arguments, no two stored accounts share an email or an
    id, every account id lies between 1 and the counter, and no two
    progress rows share an id. *)
Theorem store_keeps_accounts_distinct
    (hashpw : string -> string -> outcome string)
    (checkpw : string -> string -> outcome bool)
    (calls : list store_call) :
  NoDup (map user_email (users (store_calls hashpw checkpw calls)))
  /\ NoDup (map user_id (users (store_calls hashpw checkpw calls)))
  /\ ids_in_sequence (store_calls hashpw checkpw calls) = true
  /\ NoDup (map progress_id (user_progress (store_calls hashpw checkpw calls))).
Proof.
  assert (Hall : forall db, store_invariant db ->
                   store_invariant (fold_left (store_step hashpw checkpw) calls db)).
  { induction calls as [| c calls IH]; intros db Hinv; [exact Hinv |].
    cbn [fold_left]. apply IH. apply store_invariant_step. exact Hinv. }
  destruct (Hall (init_database None) store_invariant_empty)
    as (Hemails & Hids & Hseq & Hpids & _).
  unfold store_calls. repeat split; assumption.
Qed.

(** ** Registering, then logging in *)

Lemma find_app_none {A : Type} (f : A -> bool) (l k : list A) :
  List.find f l = None -> List.find f (l ++ k) = List.find f k.
Proof.
  induction l as [| x l IH]; intros Hnone; [reflexivity |].
  cbn [List.find app] in *. destruct (f x); [discriminate |]. exact (IH Hnone).
Qed.

Lemma select_user_free (db : database) (email : string) :
  email_taken email db = false -> select_user db email = None.
Proof.
  intros Hfree. unfold select_user.
  destruct (List.find _ (users db)) as [r |] eqn:Hfind; [| reflexivity].
  apply find_some in Hfind as [Hin Heq].
  assert (Htaken : email_taken email db = true).
  { unfold email_taken. apply existsb_exists. exists r. split; assumption. }
  congruence.
Qed.

(** X2. An account created with a new email can be logged into at once:
    [authenticate_user] with the same email and password, on the database
    [create_user] left, returns the new id, the email and the age given at
    registration, and stamps the login time on that account. The
    hypotheses on [bcrypt] are that it hashes the password and that the
    password checks against that hash; the age is one SQLite takes. *)
Theorem register_then_login
    (hashpw : string -> string -> outcome string)
    (checkpw : string -> string -> outcome bool)
    (db : database) (now later : Z) (salt email password hashed : string)
    (age : Z)
    (Hfree : email_taken email db = false)
    (Hhash : hashpw password salt = Return hashed)
    (Hage : sqlite_integer age = true)
    (Hbcrypt : checkpw password hashed = Return true) :
  exists db' new_id,
    create_user hashpw db now salt email password age
    = Return (db', Some new_id)
    /\ select_user db' email
       = Some (UserRow new_id email hashed age now None)
    /\ authenticate_user checkpw db' later email password
       = Return (update_last_login db' later new_id,
                 Some (User new_id email age)).
Proof.
  rewrite (create_user_hashed hashpw db now salt email password hashed age
             Hhash), Hage, Hfree.
  cbn [negb].
  eexists. eexists. split; [reflexivity |].
  assert (Hsel : select_user
                   (Database
                      (users db
                       ++ [UserRow (users_seq db + 1) email hashed age now
                             None])
                      (users_seq db + 1) (user_progress db)
                      (user_progress_seq db)) email
                 = Some (UserRow (users_seq db + 1) email hashed age now None)).
  { unfold select_user. cbn [users].
    rewrite find_app_none by (apply (select_user_free db email Hfree)).
    cbn [List.find user_email]. rewrite String.eqb_refl. reflexivity. }
  split; [exact Hsel |].
  unfold authenticate_user. rewrite Hsel.
  unfold verify_password. cbn [user_password_hash user_id user_age].
  rewrite Hbcrypt. reflexivity.
Qed.

Lemma register_then_login_witness :
  email_taken "bob@example.com" alice_db = false
  /\ sample_hashpw "Secret2" "pepper" = Return (sample_hash "Secret2" "pepper")
  /\ sqlite_integer 30 = true
  /\ sample_checkpw "Secret2" (sample_hash "Secret2" "pepper") = Return true
  /\ exists db' new_id,
       create_user sample_hashpw alice_db 200 "pepper" "bob@example.com"
         "Secret2" 30 = Return (db', Some new_id)
       /\ select_user db' "bob@example.com"
          = Some (UserRow new_id "bob@example.com"
                    (sample_hash "Secret2" "pepper") 30 200 None)
       /\ authenticate_user sample_checkpw db' 300 "bob@example.com" "Secret2"
          = Return (update_last_login db' 300 new_id,
                    Some (User new_id "bob@example.com" 30)).
Proof.
  do 4 (split; [reflexivity |]).
  apply (register_then_login sample_hashpw sample_checkpw alice_db 200 300
           "pepper" "bob@example.com" "Secret2"
           (sample_hash "Secret2" "pepper") 30); reflexivity.
Defined.




(** ** The progress history *)

Lemma insert_newest_permutation (r : progress_row) (l : list progress_row) :
  Permutation (insert_newest r l) (r :: l).
Proof.
  induction l as [| x l IH]; cbn [insert_newest]; [reflexivity |].
  destruct (progress_completed_at x <=? progress_completed_at r);
    [reflexivity |].
  rewrite IH. apply perm_swap.
Qed.

Lemma order_by_permutation (rows : list progress_row) :
  Permutation (order_by_completed_at_desc rows) rows.
Proof.
  unfold order_by_completed_at_desc.
  induction rows as [| r rows IH]; cbn [fold_right]; [reflexivity |].
  rewrite insert_newest_permutation. apply perm_skip. exact IH.
Qed.

Lemma insert_newest_sorted (r : progress_row) (l : list progress_row) :
  StronglySorted newer_first l -> StronglySorted newer_first (insert_newest r l).
Proof.
  induction l as [| x l IH]; intros Hsorted; cbn [insert_newest].
  - repeat constructor.
  - apply StronglySorted_inv in Hsorted as [Hl Hx].
    destruct (Z.leb_spec (progress_completed_at x) (progress_completed_at r))
      as [Hle | Hgt].
    + constructor; [constructor; assumption |].
      constructor; [exact Hle |].
      rewrite Forall_forall in Hx |- *. intros y Hy.
      specialize (Hx y Hy). unfold newer_first in *. lia.
    + constructor; [exact (IH Hl) |].
      rewrite Forall_forall in Hx |- *. intros y Hy.
      apply list_elem_of_In in Hy.
      apply (Permutation_in _ (insert_newest_permutation r l)) in Hy.
      destruct Hy as [<- | Hy].
      * unfold newer_first. lia.
      * apply Hx. apply list_elem_of_In. exact Hy.
Qed.

Lemma order_by_sorted (rows : list progress_row) :
  StronglySorted newer_first (order_by_completed_at_desc rows).
Proof.
  unfold order_by_completed_at_desc.
  induction rows as [| r rows IH]; cbn [fold_right]; [constructor |].
  apply insert_newest_sorted. exact IH.
Qed.

Lemma progress_of_in (db : database) (uid : Z) (r : progress_row) :
  In r (progress_of db uid)
  <-> In r (user_progress db) /\ progress_user_id r = uid.
Proof.
  unfold progress_of. rewrite filter_In. rewrite Z.eqb_eq. reflexivity.
Qed.

(** X4. The history of an account holds that account's progress rows, all
    of them and each once, and no row of another account; it is ordered by
    completion time, no row standing before a later one. *)
Theorem history_is_own_rows_newest_first (db : database) (uid : Z) :
  exists rows,
    get_user_progress db uid = map entry_of rows
    /\ Permutation rows (progress_of db uid)
    /\ StronglySorted newer_first rows
    /\ (forall r, In r rows
                  <-> In r (user_progress db) /\ progress_user_id r = uid)
    /\ length (get_user_progress db uid) = length (progress_of db uid).
Proof.
  exists (order_by_completed_at_desc (progress_of db uid)).
  split; [reflexivity |].
  split; [apply order_by_permutation |].
  split; [apply order_by_sorted |].
  split.
  - intros r. rewrite <- progress_of_in. split; intros Hin.
    + exact (Permutation_in _ (order_by_permutation _) Hin).
    + exact (Permutation_in _ (Permutation_sym (order_by_permutation _)) Hin).
  - unfold get_user_progress. rewrite length_map.
    apply Permutation_length, order_by_permutation.
Qed.

Lemma progress_of_save_same (db : database) (now uid : Z) (topic : string)
    (score : Z) :
  progress_of (save_user_progress db now uid topic score) uid
  = progress_of db uid
    ++ [ProgressRow (user_progress_seq db + 1) uid topic score now].
Proof.
  unfold progress_of, save_user_progress. cbn [user_progress].
  rewrite List.filter_app. cbn [List.filter progress_user_id].
  rewrite Z.eqb_refl. reflexivity.
Qed.

Lemma progress_of_save_other (db : database) (now uid other : Z)
    (topic : string) (score : Z) :
  other <> uid ->
  progress_of (save_user_progress db now uid topic score) other
  = progress_of db other.
Proof.
  intros Hother. unfold progress_of, save_user_progress. cbn [user_progress].
  rewrite List.filter_app. cbn [List.filter progress_user_id].
  replace (uid =? other) with false by (symmetry; apply Z.eqb_neq; congruence).
  apply app_nil_r.
Qed.

(** X5. A saved attempt is in the history of its account, which grows by
    that one entry; the histories of all other accounts stay as they
    were. *)
Theorem saved_attempt_in_history
    (db : database) (now uid : Z) (topic : string) (score : Z) :
  In (topic, score, now)
    (get_user_progress (save_user_progress db now uid topic score) uid)
  /\ length (get_user_progress (save_user_progress db now uid topic score) uid)
     = S (length (get_user_progress db uid))
  /\ (forall other,
         other <> uid ->
         get_user_progress (save_user_progress db now uid topic score) other
         = get_user_progress db other).
Proof.
  split; [| split].
  - unfold get_user_progress. rewrite progress_of_save_same.
    apply in_map_iff.
    exists (ProgressRow (user_progress_seq db + 1) uid topic score now).
    split; [reflexivity |].
    apply (Permutation_in _ (Permutation_sym (order_by_permutation _))).
    apply in_or_app. right. left. reflexivity.
  - unfold get_user_progress. rewrite !length_map.
    rewrite (Permutation_length (order_by_permutation _)).
    rewrite (Permutation_length (order_by_permutation (progress_of db uid))).
    rewrite progress_of_save_same, length_app. cbn [length]. lia.
  - intros other Hother. unfold get_user_progress.
    rewrite progress_of_save_other by exact Hother. reflexivity.
Qed.

Lemma order_by_newest_last (rows : list progress_row) (r : progress_row) :
  (forall x, In x rows -> progress_completed_at x < progress_completed_at r) ->
  order_by_completed_at_desc (rows ++ [r])
  = r :: order_by_completed_at_desc rows.
Proof.
  unfold order_by_completed_at_desc.
  induction rows as [| x rows IH]; intros Holder; [reflexivity |].
  cbn [app fold_right]. rewrite IH by (intros y Hy; apply Holder; right; exact Hy).
  cbn [insert_newest].
  replace (progress_completed_at r <=? progress_completed_at x) with false;
    [reflexivity |].
  symmetry. apply Z.leb_gt. apply Holder. left. reflexivity.
Qed.

(** X6. When the clock has moved past every attempt the account has
    stored, the attempt saved now heads the history, with the older
    entries behind it in the order they had. *)
Theorem saved_attempt_heads_history
    (db : database) (now uid : Z) (topic : string) (score : Z)
    (Hclock : forall r, In r (user_progress db) -> progress_user_id r = uid ->
                        progress_completed_at r < now) :
  get_user_progress (save_user_progress db now uid topic score) uid
  = (topic, score, now) :: get_user_progress db uid.
Proof.
  unfold get_user_progress. rewrite progress_of_save_same.
  rewrite order_by_newest_last; [reflexivity |].
  intros x Hx. apply progress_of_in in Hx as [Hin Huid].
  cbn [progress_completed_at]. exact (Hclock x Hin Huid).
Qed.

Lemma saved_attempt_heads_history_witness :
  (forall r, In r (user_progress (save_user_progress alice_db 11 1 "Loops" 4)) ->
             progress_user_id r = 1 -> progress_completed_at r < 12)
  /\ get_user_progress
       (save_user_progress (save_user_progress alice_db 11 1 "Loops" 4)
          12 1 "Recursion" 6) 1
     = ("Recursion", 6, 12)
         :: get_user_progress (save_user_progress alice_db 11 1 "Loops" 4) 1.
Proof.
  assert (Hclock : forall r,
             In r (user_progress (save_user_progress alice_db 11 1 "Loops" 4)) ->
             progress_user_id r = 1 -> progress_completed_at r < 12).
  { intros r [<- | []] _. cbn. lia. }
  split; [exact Hclock |].
  apply (saved_attempt_heads_history
           (save_user_progress alice_db 11 1 "Loops" 4) 12 1 "Recursion" 6).
  exact Hclock.
Defined.



(** ** Email addresses *)

Lemma append_cons (x : ascii) (a b : string) :
  String x a +:+ b = String x (a +:+ b).
Proof. reflexivity. Qed.

Lemma append_empty_l (b : string) : "" +:+ b = b.
Proof. reflexivity. Qed.

Lemma append_assoc (a b c : string) : (a +:+ b) +:+ c = a +:+ (b +:+ c).
Proof.
  induction a as [| x a IH]; [reflexivity |].
  rewrite !append_cons, IH. reflexivity.
Qed.

Lemma append_empty_r (a : string) : a +:+ "" = a.
Proof.
  induction a as [| x a IH]; [reflexivity |].
  rewrite append_cons, IH. reflexivity.
Qed.

Lemma string_forallb_append (p : ascii -> bool) (a b : string) :
  string_forallb p (a +:+ b) = string_forallb p a && string_forallb p b.
Proof.
  induction a as [| x a IH]; [reflexivity |].
  rewrite append_cons. cbn [string_forallb]. rewrite IH. apply andb_assoc.
Qed.

Lemma string_forallb_impl (p q : ascii -> bool) (s : string) :
  (forall x, p x = true -> q x = true) ->
  string_forallb p s = true -> string_forallb q s = true.
Proof.
  intros Hpq. induction s as [| x s IH]; cbn; [reflexivity |].
  intros Hp. apply andb_prop in Hp as [Hx Hs].
  rewrite (Hpq x Hx), (IH Hs). reflexivity.
Qed.

Lemma split_first_sound (c : ascii) (s a b : string) :
  split_first c s = Some (a, b) -> s = a +:+ String c b /\ lacks c a.
Proof.
  revert a. induction s as [| x s IH]; intros a; cbn [split_first];
    [discriminate |].
  destruct (Ascii.eqb_spec x c) as [-> | Hne].
  - intros H. injection H as <- <-. split; reflexivity.
  - destruct (split_first c s) as [[a' b'] |]; [| discriminate].
    intros H. injection H as <- <-.
    destruct (IH a' eq_refl) as [-> Hlacks]. split; [reflexivity |].
    unfold lacks. cbn [string_forallb].
    apply Ascii.eqb_neq in Hne. rewrite Hne. exact Hlacks.
Qed.

Lemma split_first_complete (c : ascii) (a b : string) :
  lacks c a -> split_first c (a +:+ String c b) = Some (a, b).
Proof.
  unfold lacks. induction a as [| x a IH]; intros Hlacks.
  - rewrite append_empty_l. cbn [split_first].
    rewrite Ascii.eqb_refl. reflexivity.
  - cbn [string_forallb] in Hlacks. apply andb_prop in Hlacks as [Hx Ha].
    apply negb_true_iff in Hx.
    rewrite append_cons. cbn [split_first]. rewrite Hx, (IH Ha). reflexivity.
Qed.

Lemma split_last_none (c : ascii) (b : string) :
  lacks c b -> split_last c b = None.
Proof.
  unfold lacks. induction b as [| x b IH]; cbn; intros Hlacks; [reflexivity |].
  apply andb_prop in Hlacks as [Hx Hb].
  apply negb_true_iff in Hx. rewrite (IH Hb), Hx. reflexivity.
Qed.

Lemma split_last_sound (c : ascii) (s a b : string) :
  split_last c s = Some (a, b) -> s = a +:+ String c b /\ lacks c b.
Proof.
  revert a. induction s as [| x s IH]; intros a; cbn [split_last];
    [discriminate |].
  destruct (split_last c s) as [[a' b'] |] eqn:Hrest.
  - intros H. injection H as <- <-.
    destruct (IH a' eq_refl) as [-> Hlacks]. split; [reflexivity | exact Hlacks].
  - destruct (Ascii.eqb_spec x c) as [-> | Hne]; [| discriminate].
    intros H. injection H as <- <-. split; [reflexivity |].
    clear IH. unfold lacks.
    induction s as [| y s IHs]; cbn; [reflexivity |].
    cbn [split_last] in Hrest.
    destruct (split_last c s) as [[a' b'] |]; [discriminate |].
    destruct (Ascii.eqb y c); [discriminate |].
    cbn. apply IHs. reflexivity.
Qed.

Lemma split_last_complete (c : ascii) (a b : string) :
  lacks c b -> split_last c (a +:+ String c b) = Some (a, b).
Proof.
  intros Hlacks. induction a as [| x a IH].
  - rewrite append_empty_l. cbn [split_last].
    rewrite (split_last_none c b Hlacks), Ascii.eqb_refl. reflexivity.
  - rewrite append_cons. cbn [split_last]. rewrite IH. reflexivity.
Qed.

Lemma length_positive (s : string) :
  (1 <=? String.length s)%nat = true <-> s <> "".
Proof.
  destruct s; cbn; split; congruence.
Qed.

Lemma local_chars_lack_at (s : string) :
  string_forallb is_local_char s = true -> lacks "@" s.
Proof.
  apply string_forallb_impl. intros x Hx.
  destruct (Ascii.eqb_spec x "@") as [-> | _]; [discriminate Hx | reflexivity].
Qed.

Lemma letters_lack_dot (s : string) :
  string_forallb is_letter s = true -> lacks "." s.
Proof.
  apply string_forallb_impl. intros x Hx.
  destruct (Ascii.eqb_spec x ".") as [-> | _]; [discriminate Hx | reflexivity].
Qed.

Lemma email_pattern_shape (s : string) :
  email_pattern s = true
  <-> exists local domain tld,
        s = local +:+ "@" +:+ domain +:+ "." +:+ tld
        /\ local <> "" /\ string_forallb is_local_char local = true
        /\ domain <> "" /\ string_forallb is_domain_char domain = true
        /\ (2 <= String.length tld)%nat
        /\ string_forallb is_letter tld = true.
Proof.
  unfold email_pattern. split.
  - destruct (split_first "@" s) as [[local rest] |] eqn:Hfirst; [| discriminate].
    destruct (split_last "." rest) as [[domain tld] |] eqn:Hlast;
      [| rewrite andb_false_r; discriminate].
    intros H.
    apply andb_prop in H as [H Hparts]. apply andb_prop in H as [Hlocal Hlchars].
    apply andb_prop in Hparts as [Hparts Htchars].
    apply andb_prop in Hparts as [Hparts Htld].
    apply andb_prop in Hparts as [Hdomain Hdchars].
    apply split_first_sound in Hfirst as [-> _].
    apply split_last_sound in Hlast as [-> _].
    exists local, domain, tld.
    split; [reflexivity |].
    split; [apply length_positive; exact Hlocal |].
    split; [exact Hlchars |].
    split; [apply length_positive; exact Hdomain |].
    split; [exact Hdchars |].
    split; [apply Nat.leb_le; exact Htld | exact Htchars].
  - intros (local & domain & tld & -> & Hlocal & Hlchars & Hdomain & Hdchars
            & Htld & Htchars).
    change (local +:+ "@" +:+ domain +:+ "." +:+ tld)
      with (local +:+ String "@" (domain +:+ String "." tld)).
    rewrite (split_first_complete "@" local _ (local_chars_lack_at local Hlchars)).
    rewrite (split_last_complete "." domain tld (letters_lack_dot tld Htchars)).
    rewrite Hlchars, Hdchars, Htchars.
    rewrite (proj2 (length_positive local) Hlocal).
    rewrite (proj2 (length_positive domain) Hdomain).
    rewrite (proj2 (Nat.leb_le 2 (String.length tld)) Htld).
    reflexivity.
Qed.

(** X8. [validate_email] accepts exactly the texts of the form
    local@domain.tld, optionally followed by one newline, where local is
    a non-empty run of letters, digits and [._%+-], domain a non-empty
    run of letters, digits, dots and hyphens, and tld at least two
    letters: the language of the pattern, with the final newline that
    [$] lets through. *)
Theorem validate_email_accepts (s : string) :
  validate_email s = true
  <-> exists local domain tld tail,
        s = local +:+ "@" +:+ domain +:+ "." +:+ tld +:+ tail
        /\ (tail = "" \/ tail = String newline "")
        /\ local <> "" /\ string_forallb is_local_char local = true
        /\ domain <> "" /\ string_forallb is_domain_char domain = true
        /\ (2 <= String.length tld)%nat
        /\ string_forallb is_letter tld = true.
Proof.
  unfold validate_email. split.
  - intros H. apply orb_prop in H as [H | H].
    + apply email_pattern_shape in H
        as (local & domain & tld & -> & Hrest).
      exists local, domain, tld, "". rewrite append_empty_r.
      split; [reflexivity | split; [left; reflexivity | exact Hrest]].
    + destruct (split_last newline s) as [[before after] |] eqn:Hlast;
        [| discriminate].
      destruct after; [| discriminate].
      apply split_last_sound in Hlast as [-> _].
      apply email_pattern_shape in H
        as (local & domain & tld & -> & Hrest).
      exists local, domain, tld, (String newline "").
      split; [| split; [right; reflexivity | exact Hrest]].
      rewrite !append_assoc. reflexivity.
  - intros (local & domain & tld & tail & -> & [-> | ->] & Hrest).
    + rewrite append_empty_r.
      rewrite (proj2 (email_pattern_shape _)); [reflexivity |].
      exists local, domain, tld. split; [reflexivity | exact Hrest].
    + apply orb_true_intro. right.
      replace (local +:+ "@" +:+ domain +:+ "." +:+ tld +:+ String newline "")
        with ((local +:+ "@" +:+ domain +:+ "." +:+ tld) +:+ String newline "")
        by (rewrite !append_assoc; reflexivity).
      rewrite (split_last_complete newline _ "" eq_refl).
      apply email_pattern_shape.
      exists local, domain, tld. split; [reflexivity | exact Hrest].
Qed.

(** ** The two forms *)

(** How the registration form ends, check by check. *)
Lemma register_submit_cases
    (hashpw : string -> string -> outcome string) (st : session_state)
    (db : database) (now : Z)
    (salt reg_email reg_password confirm_password : string) (age : Z) :
  (exists text,
      register_submit hashpw st db now salt reg_email reg_password
        confirm_password age
      = Return (FormResult st db [StError text] false))
  \/ (validate_email reg_email = true
      /\ (6 <= String.length reg_password)%nat
      /\ reg_password = confirm_password
      /\ ((exists hashed,
              hashpw reg_password salt = Return hashed
              /\ sqlite_integer age = true
              /\ email_taken reg_email db = false
              /\ register_submit hashpw st db now salt reg_email reg_password
                   confirm_password age
                 = Return
                     (FormResult st
                        (Database
                           (users db
                            ++ [UserRow (users_seq db + 1) reg_email hashed
                                  age now None])
                           (users_seq db + 1) (user_progress db)
                           (user_progress_seq db))
                        [if users_seq db + 1 =? 0
                         then StError
                                "Email already exists! Please use a different email."
                         else StSuccess
                                "Account created successfully! Please login."]
                        false))
          \/ (exists e,
                hashpw reg_password salt = Raise e
                /\ exn_kind e <> IntegrityError
                /\ register_submit hashpw st db now salt reg_email
                     reg_password confirm_password age = Raise e)
          \/ ((exists hashed, hashpw reg_password salt = Return hashed)
              /\ sqlite_integer age = false
              /\ register_submit hashpw st db now salt reg_email reg_password
                   confirm_password age = Raise overflow_error))).
Proof.
  unfold register_submit.
  destruct (is_empty reg_email || is_empty reg_password
            || is_empty confirm_password); [left; eauto |].
  destruct (validate_email reg_email) eqn:Hvalid; cbn [negb]; [| left; eauto].
  destruct (Nat.ltb_spec (String.length reg_password) 6) as [Hshort | Hlong];
    [left; eauto |].
  destruct (String.eqb_spec reg_password confirm_password) as [Hsame | Hdiff];
    cbn [negb]; [| left; eauto].
  destruct (hashpw reg_password salt) as [hashed | e] eqn:Hhash.
  - rewrite (create_user_hashed hashpw db now salt reg_email reg_password
               hashed age Hhash).
    destruct (sqlite_integer age) eqn:Hage; cbn [negb bind].
    + destruct (email_taken reg_email db) eqn:Htaken; cbn [bind];
        [left; eauto |].
      right. do 3 (split; [first [assumption | reflexivity] |]). left. exists hashed.
      do 3 (split; [reflexivity |]).
      destruct (users_seq db + 1 =? 0); reflexivity.
    + right. do 3 (split; [first [assumption | reflexivity] |]). right. right.
      split; [exists hashed; reflexivity | split; reflexivity].
  - rewrite (create_user_refused hashpw db now salt reg_email reg_password age
               e Hhash).
    destruct (exn_kind e) eqn:Hkind; cbn [bind];
      try (right; do 3 (split; [first [assumption | reflexivity] |]); right; left; exists e;
           split; [reflexivity | split; [congruence | reflexivity]]).
    left. eauto.
Qed.

(** X9. The registration form never touches the session and never asks
    for a rerun. On a store whose ids follow its counter it ends in one
    of three ways. It leaves the database as it was and shows one error.
    Or it shows the success message after storing one new account: only
    for a valid email no account has yet, a password of six characters or
    more that equals its confirmation and that [bcrypt] hashed, and an
    age SQLite takes; the row stored holds that email, that hash, the age
    and the time. Or it raises, showing and storing nothing: only after
    all its checks passed, with the exception [bcrypt] raised on the
    password or with an [OverflowError] for the age. *)
Theorem registration_stores_only_checked
    (hashpw : string -> string -> outcome string) (st : session_state)
    (db : database) (now : Z)
    (salt reg_email reg_password confirm_password : string)
    (age : Z) (Hids : ids_in_sequence db = true) :
  (exists f,
      register_submit hashpw st db now salt reg_email reg_password
        confirm_password age = Return f
      /\ form_state f = st
      /\ form_rerun f = false
      /\ ((form_db f = db /\ exists text, form_messages f = [StError text])
          \/ (form_messages f
                = [StSuccess "Account created successfully! Please login."]
              /\ validate_email reg_email = true
              /\ (6 <= String.length reg_password)%nat
              /\ reg_password = confirm_password
              /\ email_taken reg_email db = false
              /\ sqlite_integer age = true
              /\ exists new_id hashed,
                   hashpw reg_password salt = Return hashed
                   /\ users (form_db f)
                      = users db
                        ++ [UserRow new_id reg_email hashed age now None]
                   /\ user_progress (form_db f) = user_progress db)))
  \/ (exists e,
        register_submit hashpw st db now salt reg_email reg_password
          confirm_password age = Raise e
        /\ validate_email reg_email = true
        /\ (6 <= String.length reg_password)%nat
        /\ reg_password = confirm_password
        /\ (hashpw reg_password salt = Raise e
            \/ ((exists hashed, hashpw reg_password salt = Return hashed)
                /\ sqlite_integer age = false
                /\ e = overflow_error))).
Proof.
  destruct (register_submit_cases hashpw st db now salt reg_email reg_password
              confirm_password age)
    as [[text ->]
       | (Hvalid & Hlong & Hsame
          & [(hashed & Hhash & Hage & Hfree & ->)
            | [(e & Hhash & _ & ->) | (Hhash & Hage & ->)]])].
  - left. eexists. split; [reflexivity |]. cbn.
    split; [reflexivity | split; [reflexivity |]]. left. eauto.
  - left. eexists. split; [reflexivity |].
    pose proof (sequence_nonnegative db Hids) as Hseq.
    replace (users_seq db + 1 =? 0) with false
      by (symmetry; apply Z.eqb_neq; lia).
    cbn. split; [reflexivity | split; [reflexivity |]]. right.
    do 6 (split; [first [assumption | reflexivity] |]).
    exists (users_seq db + 1), hashed.
    split; [exact Hhash | split; reflexivity].
  - right. exists e. split; [reflexivity |].
    do 3 (split; [first [assumption | reflexivity] |]). left. exact Hhash.
  - right. exists overflow_error. split; [reflexivity |].
    do 3 (split; [first [assumption | reflexivity] |]). right.
    split; [exact Hhash | split; [exact Hage | reflexivity]].
Qed.

Lemma registration_stores_only_checked_witness :
  ids_in_sequence alice_db = true
  /\ (exists f,
        register_submit sample_hashpw initial_session alice_db 200 "pepper"
          "bob@example.com" "Secret2" "Secret2" 30 = Return f
        /\ form_state f = initial_session
        /\ form_rerun f = false
        /\ form_messages f
           = [StSuccess "Account created successfully! Please login."]
        /\ users (form_db f)
           = users alice_db
             ++ [UserRow 2 "bob@example.com" (sample_hash "Secret2" "pepper")
                   30 200 None])
  /\ register_submit sample_hashpw initial_session alice_db 200 "pepper"
       "bob@example.com" long_password long_password 30
     = Raise password_too_long.
Proof.
  split; [reflexivity |].
  split.
  - destruct (registration_stores_only_checked sample_hashpw initial_session
                alice_db 200 "pepper" "bob@example.com" "Secret2" "Secret2"
                30 eq_refl)
      as [(f & Hrun & Hstate & Hrerun & Hend) | (e & Hrun & _)];
      [| discriminate Hrun].
    exists f. injection Hrun as <-.
    repeat split; reflexivity.
  - destruct (registration_stores_only_checked sample_hashpw initial_session
                alice_db 200 "pepper" "bob@example.com" long_password
                long_password 30 eq_refl)
      as [(f & Hrun & _) | (e & Hrun & _ & _ & _ & [Hhash | (_ & Hage & _)])].
    + discriminate Hrun.
    + injection Hhash as <-. exact Hrun.
    + discriminate Hage.
Defined.

Lemma login_submit_cases
    (checkpw : string -> string -> outcome bool) (st : session_state)
    (db : database) (now : Z) (email password : string) :
  (exists text,
      login_submit checkpw st db now email password
      = Return (FormResult st db [StError text] false))
  \/ (exists row,
        select_user db email = Some row
        /\ validate_email email = true
        /\ checkpw password (user_password_hash row) = Return true
        /\ login_submit checkpw st db now email password
           = Return
               (FormResult
                  (SessionState true
                     (Some (User (user_id row) email (user_age row)))
                     (current_lesson st) (quiz_questions st) (quiz_answers st)
                     (quiz_submitted st) (lesson_topic st))
                  (update_last_login db now (user_id row))
                  [StSuccess "Login successful!"] true))
  \/ (exists row e,
        select_user db email = Some row
        /\ validate_email email = true
        /\ checkpw password (user_password_hash row) = Raise e
        /\ login_submit checkpw st db now email password = Raise e).
Proof.
  unfold login_submit.
  destruct (is_empty email || is_empty password); [left; eauto |].
  destruct (validate_email email) eqn:Hvalid; cbn [negb]; [| left; eauto].
  unfold authenticate_user, verify_password.
  destruct (select_user db email) as [row |] eqn:Hrow;
    [| left; cbn [bind]; eauto].
  destruct (checkpw password (user_password_hash row)) as [[|] | e]
    eqn:Hpassword; cbn [bind].
  - right. left. exists row. repeat split; first [reflexivity | assumption].
  - left. eauto.
  - right. right. exists row, e.
    repeat split; first [reflexivity | assumption].
Qed.

(** X10. The login form ends in one of three ways. It shows one error
    and leaves session and database as they were. Or it logs in: only for
    a valid email of a stored account with a password that [bcrypt] finds
    to match the stored hash; it then sets the login flag and the account
    of the session, keeps the lesson and quiz fields as it found them,
    stamps the login time and asks for a rerun. Or it raises: only for a
    valid email of a stored account, with the exception [bcrypt] raised
    when it was given the password to check. *)
Theorem login_form_outcomes
    (checkpw : string -> string -> outcome bool) (st : session_state)
    (db : database) (now : Z) (email password : string) :
  (exists f,
      login_submit checkpw st db now email password = Return f
      /\ form_state f = st
      /\ form_db f = db
      /\ form_rerun f = false
      /\ exists text, form_messages f = [StError text])
  \/ (exists row,
        select_user db email = Some row
        /\ validate_email email = true
        /\ checkpw password (user_password_hash row) = Return true
        /\ login_submit checkpw st db now email password
           = Return
               (FormResult
                  (SessionState true
                     (Some (User (user_id row) email (user_age row)))
                     (current_lesson st) (quiz_questions st) (quiz_answers st)
                     (quiz_submitted st) (lesson_topic st))
                  (update_last_login db now (user_id row))
                  [StSuccess "Login successful!"] true))
  \/ (exists row e,
        select_user db email = Some row
        /\ validate_email email = true
        /\ checkpw password (user_password_hash row) = Raise e
        /\ login_submit checkpw st db now email password = Raise e).
Proof.
  unfold login_submit.
  destruct (is_empty email || is_empty password);
    [left; eexists; split; [reflexivity |]; cbn; repeat split; eauto |].
  destruct (validate_email email) eqn:Hvalid; cbn [negb];
    [| left; eexists; split; [reflexivity |]; cbn; repeat split; eauto].
  unfold authenticate_user, verify_password.
  destruct (select_user db email) as [row |] eqn:Hrow;
    [| left; cbn [bind]; eexists; split; [reflexivity |]; cbn;
       repeat split; eauto].
  destruct (checkpw password (user_password_hash row)) as [[|] | e]
    eqn:Hpassword; cbn [bind].
  - right. left. exists row. repeat split; first [reflexivity | assumption].
  - left. eexists. split; [reflexivity |]. cbn. repeat split; eauto.
  - right. right. exists row, e.
    repeat split; first [reflexivity | assumption].
Qed.

(** The three ways, on Alice's account: a wrong password, the right one,
    and a pass phrase [bcrypt] refuses. *)
Lemma login_form_three_ways :
  login_submit sample_checkpw initial_session alice_db 300 "alice@example.com"
    "Secret2"
  = Return (FormResult initial_session alice_db
              [StError "Invalid email or password!"] false)
  /\ login_submit sample_checkpw initial_session alice_db 300
       "alice@example.com" "Secret1"
     = Return (FormResult
                 (SessionState true (Some alice) None [] ∅ false "")
                 (update_last_login alice_db 300 1)
                 [StSuccess "Login successful!"] true)
  /\ login_submit sample_checkpw initial_session alice_db 300
       "alice@example.com" long_password
     = Raise password_too_long.
Proof. repeat split; vm_compute; reflexivity. Qed.

(** ** The quiz form *)

Lemma form_loop_lookup (w : widgets) (qs : list QuizItem) :
  forall (i : nat) (answers : gmap nat string) (k : nat),
    fst (form_loop w i qs answers) !! k
    = if bool_decide (i <= k < i + length qs)%nat then Some (radio w k)
      else answers !! k.
Proof.
  induction qs as [| q rest IH]; intros i answers k.
  - cbn [form_loop fst length]. rewrite bool_decide_eq_false_2 by lia.
    reflexivity.
  - cbn [form_loop length].
    specialize (IH (S i) (<[i := radio w i]> answers) k).
    destruct (form_loop w (S i) rest (<[i := radio w i]> answers))
      as [answers' drawn]. cbn [fst] in *. rewrite IH.
    destruct (decide (i = k)) as [<- | Hne].
    + rewrite bool_decide_eq_false_2 by lia.
      rewrite bool_decide_eq_true_2 by lia.
      apply lookup_insert_eq.
    + rewrite lookup_insert_ne by exact Hne.
      destruct (decide (S i <= k < S i + length rest)%nat) as [Hin | Hout].
      * rewrite !bool_decide_eq_true_2 by lia. reflexivity.
      * rewrite !bool_decide_eq_false_2 by lia. reflexivity.
Qed.

Lemma display_quiz_form
    (w : widgets) (now : Z) (st : session_state) (db : database)
    (Hform : quiz_submitted st = false) :
  exists p,
    display_quiz w now st db = Return p
    /\ page_db p = db
    /\ (forall k, (k < length (quiz_questions st))%nat ->
                  quiz_answers (page_state p) !! k = Some (radio w k))
    /\ (forall k, (length (quiz_questions st) <= k)%nat ->
                  quiz_answers (page_state p) !! k = quiz_answers st !! k)
    /\ quiz_questions (page_state p) = quiz_questions st
    /\ current_lesson (page_state p) = current_lesson st
    /\ lesson_topic (page_state p) = lesson_topic st
    /\ user_data (page_state p) = user_data st
    /\ logged_in (page_state p) = logged_in st
    /\ quiz_submitted (page_state p)
       = match pressed w with SubmitQuiz => true | _ => false end
    /\ page_rerun p = quiz_submitted (page_state p).
Proof.
  unfold display_quiz. rewrite Hform. cbn [negb].
  pose proof (form_loop_lookup w (quiz_questions st) 0 (quiz_answers st))
    as Hlookup.
  destruct (form_loop w 0 (quiz_questions st) (quiz_answers st))
    as [answers form]. cbn [fst] in Hlookup.
  assert (Hin : forall k, (k < length (quiz_questions st))%nat ->
                          answers !! k = Some (radio w k)).
  { intros k Hk. rewrite Hlookup. rewrite bool_decide_eq_true_2 by lia.
    reflexivity. }
  assert (Hout : forall k, (length (quiz_questions st) <= k)%nat ->
                           answers !! k = quiz_answers st !! k).
  { intros k Hk. rewrite Hlookup. rewrite bool_decide_eq_false_2 by lia.
    reflexivity. }
  destruct (pressed w); eexists; (split; [reflexivity |]);
    cbn; repeat split; assumption.
Qed.

(** X11. A run of the quiz form raises nothing and writes nothing to the
    database. It stores the value of the radio widget under every
    question index, keeps what the answer mapping held at other indices,
    and keeps the items, the lesson and the account; the submit button
    sets the submitted flag and asks for a rerun, and no other click
    does. *)
Theorem form_records_every_answer
    (w : widgets) (now : Z) (st : session_state) (db : database)
    (Hform : quiz_submitted st = false) :
  exists p,
    display_quiz w now st db = Return p
    /\ page_db p = db
    /\ (forall k, (k < length (quiz_questions st))%nat ->
                  quiz_answers (page_state p) !! k = Some (radio w k))
    /\ (forall k, (length (quiz_questions st) <= k)%nat ->
                  quiz_answers (page_state p) !! k = quiz_answers st !! k)
    /\ quiz_questions (page_state p) = quiz_questions st
    /\ current_lesson (page_state p) = current_lesson st
    /\ lesson_topic (page_state p) = lesson_topic st
    /\ user_data (page_state p) = user_data st
    /\ logged_in (page_state p) = logged_in st
    /\ quiz_submitted (page_state p)
       = match pressed w with SubmitQuiz => true | _ => false end
    /\ page_rerun p = quiz_submitted (page_state p).
Proof.
  unfold display_quiz. rewrite Hform. cbn [negb].
  pose proof (form_loop_lookup w (quiz_questions st) 0 (quiz_answers st))
    as Hlookup.
  destruct (form_loop w 0 (quiz_questions st) (quiz_answers st))
    as [answers form]. cbn [fst] in Hlookup.
  assert (Hin : forall k, (k < length (quiz_questions st))%nat ->
                          answers !! k = Some (radio w k)).
  { intros k Hk. rewrite Hlookup. rewrite bool_decide_eq_true_2 by lia.
    reflexivity. }
  assert (Hout : forall k, (length (quiz_questions st) <= k)%nat ->
                           answers !! k = quiz_answers st !! k).
  { intros k Hk. rewrite Hlookup. rewrite bool_decide_eq_false_2 by lia.
    reflexivity. }
  destruct (pressed w); eexists; (split; [reflexivity |]);
    cbn; repeat split; assumption.
Qed.

Lemma form_records_every_answer_witness :
  quiz_submitted loops_ready = false
  /\ exists p,
       display_quiz (Widgets SubmitQuiz (radio first_options)) 10 loops_ready
         alice_db = Return p
       /\ page_db p = alice_db
       /\ (forall k, (k < length (quiz_questions loops_ready))%nat ->
                     quiz_answers (page_state p) !! k
                     = Some (radio (Widgets SubmitQuiz (radio first_options)) k))
       /\ (forall k, (length (quiz_questions loops_ready) <= k)%nat ->
                     quiz_answers (page_state p) !! k
                     = quiz_answers loops_ready !! k)
       /\ quiz_questions (page_state p) = quiz_questions loops_ready
       /\ current_lesson (page_state p) = current_lesson loops_ready
       /\ lesson_topic (page_state p) = lesson_topic loops_ready
       /\ user_data (page_state p) = user_data loops_ready
       /\ logged_in (page_state p) = logged_in loops_ready
       /\ quiz_submitted (page_state p)
          = match pressed (Widgets SubmitQuiz (radio first_options)) with
            | SubmitQuiz => true
            | _ => false
            end
       /\ page_rerun p = quiz_submitted (page_state p).
Proof.
  split; [reflexivity |].
  apply (form_records_every_answer (Widgets SubmitQuiz (radio first_options))
           10 loops_ready alice_db).
  reflexivity.
Defined.

Lemma count_indices_ext (p q : nat -> bool) (n : nat) :
  (forall i, (i < n)%nat -> p i = q i) ->
  count_indices p n = count_indices q n.
Proof.
  intros Hext. unfold count_indices. f_equal. f_equal.
  apply filter_ext_in. intros i Hi. apply in_seq in Hi. apply Hext. lia.
Qed.

(** X12. A quiz submitted through the form is graded on what the radio
    widgets held: the run after the submit draws the result box for the
    number of questions whose widget value equals the correct option.
    Every index then has a recorded answer, so the empty-string default
    for a missing answer plays no part. *)
Theorem submitted_quiz_graded_on_choices
    (chosen : nat -> string) (now later : Z) (st : session_state)
    (db : database)
    (Hform : quiz_submitted st = false)
    (Hrange : forallb index_in_range (quiz_questions st) = true) :
  exists p1 p2,
    display_quiz (Widgets SubmitQuiz chosen) now st db = Return p1
    /\ page_rerun p1 = true
    /\ display_quiz no_click later (page_state p1) (page_db p1) = Return p2
    /\ List.filter is_box (page_elements p2)
       = [final_result
            (count_indices (chosen_matches_at (quiz_questions st) chosen)
               (length (quiz_questions st)))]
    /\ matching_count (quiz_questions st) (quiz_answers (page_state p1))
       = recorded_matching_count (quiz_questions st)
           (quiz_answers (page_state p1)).
Proof.
  destruct (display_quiz_form (Widgets SubmitQuiz chosen) now st db Hform)
    as (p1 & Hrun1 & _ & Hin & _ & Hqs & _ & _ & _ & _ & Hsub & Hrerun).
  cbn [pressed radio] in Hsub, Hin.
  rewrite Hsub in Hrerun.
  assert (Hrange1 : forallb index_in_range (quiz_questions (page_state p1)) = true)
    by (rewrite Hqs; exact Hrange).
  destruct (display_quiz_submitted no_click later (page_state p1) (page_db p1)
              Hsub Hrange1) as (p2 & Hrun2 & _ & Hbox & _).
  exists p1, p2.
  split; [exact Hrun1 | split; [exact Hrerun | split; [exact Hrun2 |]]].
  rewrite Hqs in Hbox.
  assert (Hchosen : matching_count (quiz_questions st)
                      (quiz_answers (page_state p1))
                    = count_indices
                        (chosen_matches_at (quiz_questions st) chosen)
                        (length (quiz_questions st))).
  { apply count_indices_ext. intros i Hi.
    unfold matches_at, chosen_matches_at, answer_read.
    rewrite (Hin i Hi). reflexivity. }
  split.
  - rewrite Hbox, Hchosen. reflexivity.
  - apply count_indices_ext. intros i Hi.
    unfold matches_at, recorded_matches_at, answer_read.
    rewrite (Hin i Hi). reflexivity.
Qed.

Lemma submitted_quiz_graded_on_choices_witness :
  quiz_submitted loops_ready = false
  /\ forallb index_in_range (quiz_questions loops_ready) = true
  /\ exists p1 p2,
       display_quiz (Widgets SubmitQuiz (radio first_options)) 10 loops_ready
         alice_db = Return p1
       /\ page_rerun p1 = true
       /\ display_quiz no_click 11 (page_state p1) (page_db p1) = Return p2
       /\ List.filter is_box (page_elements p2)
          = [final_result
               (count_indices
                  (chosen_matches_at (quiz_questions loops_ready)
                     (radio first_options))
                  (length (quiz_questions loops_ready)))]
       /\ matching_count (quiz_questions loops_ready)
            (quiz_answers (page_state p1))
          = recorded_matching_count (quiz_questions loops_ready)
              (quiz_answers (page_state p1)).
Proof.
  split; [reflexivity | split; [reflexivity |]].
  apply (submitted_quiz_graded_on_choices (radio first_options) 10 11
           loops_ready alice_db); reflexivity.
Defined.

(** ** Items whose index is out of range *)

Lemma py_index_out_of_range (q : QuizItem) :
  index_in_range q = false ->
  py_index (options q) (correct q) = Raise index_error.
Proof.
  unfold index_in_range, py_index. intros Hout.
  set (len := Z.of_nat (length (options q))) in *.
  apply andb_false_iff in Hout.
  assert (Hc : correct q < - len \/ len <= correct q).
  { destruct Hout as [H | H]; [left; apply Z.leb_gt in H | right; apply Z.ltb_ge in H];
      exact H. }
  assert (Hlen : 0 <= len) by (subst len; lia).
  destruct (Z.ltb_spec (correct q) 0) as [Hneg | Hpos].
  - replace ((0 <=? correct q + len) && (correct q + len <? len)) with false;
      [reflexivity |].
    symmetry. apply andb_false_iff. left. apply Z.leb_gt. lia.
  - replace ((0 <=? correct q) && (correct q <? len)) with false;
      [reflexivity |].
    symmetry. apply andb_false_iff. right. apply Z.ltb_ge. lia.
Qed.

Lemma results_loop_out_of_range (qs : list QuizItem)
    (answers : gmap nat string) :
  forallb index_in_range qs = false ->
  forall (i : nat) (correct_count : Z),
    results_loop i qs answers correct_count = Raise index_error.
Proof.
  induction qs as [| q rest IH]; intros Hout i correct_count;
    [discriminate Hout |].
  cbn [forallb] in Hout. cbn [results_loop].
  destruct (index_in_range q) eqn:Hq.
  - destruct (py_index_in_range q Hq) as [correct_option Hopt].
    rewrite Hopt. cbn [bind].
    destruct (String.eqb (default "" (answers !! i)) correct_option);
      rewrite (IH Hout); reflexivity.
  - rewrite (py_index_out_of_range q Hq). reflexivity.
Qed.

(** X13. The results view returns exactly when the correct index of
    every item lies within its options, counting from the end for a
    negative index. With one item out of range the run stops with
    [IndexError] before anything is saved or drawn, whatever button was
    pressed. *)
Theorem results_view_needs_indices_in_range
    (w : widgets) (now : Z) (st : session_state) (db : database)
    (Hsub : quiz_submitted st = true) :
  (forallb index_in_range (quiz_questions st) = true ->
   exists p, display_quiz w now st db = Return p)
  /\ (forallb index_in_range (quiz_questions st) = false ->
      display_quiz w now st db = Raise index_error)
  /\ (forall q, In q (quiz_questions st) ->
        (index_in_range q = true
         <-> - Z.of_nat (length (options q)) <= correct q
             < Z.of_nat (length (options q)))).
Proof.
  split; [| split].
  - intros Hrange.
    destruct (display_quiz_submitted w now st db Hsub Hrange) as [p [Hrun _]].
    exists p. exact Hrun.
  - intros Hout. unfold display_quiz. rewrite Hsub. cbn [negb].
    rewrite (results_loop_out_of_range _ _ Hout). reflexivity.
  - intros q _. unfold index_in_range.
    rewrite andb_true_iff, Z.leb_le, Z.ltb_lt. reflexivity.
Qed.

Lemma results_view_needs_indices_in_range_witness :
  quiz_submitted broken_graded = true
  /\ (forallb index_in_range (quiz_questions broken_graded) = true ->
      exists p, display_quiz no_click 11 broken_graded alice_db = Return p)
  /\ (forallb index_in_range (quiz_questions broken_graded) = false ->
      display_quiz no_click 11 broken_graded alice_db = Raise index_error)
  /\ (forall q, In q (quiz_questions broken_graded) ->
        (index_in_range q = true
         <-> - Z.of_nat (length (options q)) <= correct q
             < Z.of_nat (length (options q)))).
Proof.
  split; [reflexivity |].
  apply (results_view_needs_indices_in_range no_click 11 broken_graded alice_db).
  reflexivity.
Defined.

(** The broken session: the run stops and the database is not reached. *)
Lemma broken_graded_raises :
  display_quiz no_click 11 broken_graded alice_db = Raise index_error.
Proof. vm_compute. reflexivity. Qed.

(** A correct index of -1 is taken from the end: the last option. *)
Lemma negative_index_counts_from_end :
  py_index (options (loop_item (-1))) (correct (loop_item (-1)))
  = Return "D) Ends a program".
Proof. vm_compute. reflexivity. Qed.

(** ** From the decoded reply to the quiz *)

Lemma texts_of_strings (opts : list json) :
  forallb is_str opts = true ->
  exists texts,
    mapM text_of_json opts = Some texts /\ length texts = length opts.
Proof.
  induction opts as [| v opts IH]; intros Hall.
  - exists []. split; reflexivity.
  - cbn [forallb] in Hall. apply andb_prop in Hall as [Hv Hrest].
    destruct (IH Hrest) as [texts [Hmap Hlen]].
    destruct v; try discriminate Hv.
    exists (s :: texts). split.
    + cbn. rewrite Hmap. reflexivity.
    + cbn [length]. rewrite Hlen. reflexivity.
Qed.

Lemma is_quiz_item_read (v : json) :
  is_quiz_item v = true ->
  exists q, quiz_item_of_json v = Some q /\ four_options q = true.
Proof.
  unfold is_quiz_item, quiz_item_of_json.
  destruct v as [| | | | | | d]; try discriminate.
  destruct (dict_get "question" d) as [[| | | | q | |] |]; try discriminate.
  destruct (dict_get "options" d) as [[| | | | | opts |] |]; try discriminate.
  destruct (dict_get "correct" d) as [[| | c | | | |] |]; try discriminate.
  destruct (dict_get "explanation" d) as [[| | | | e | |] |]; try discriminate.
  intros H. apply andb_prop in H as [H Hhi]. apply andb_prop in H as [H Hlo].
  apply andb_prop in H as [Hlen Hstr].
  destruct (texts_of_strings opts Hstr) as [texts [Hmap Htexts]].
  rewrite Hmap. eexists. split; [reflexivity |].
  unfold four_options. cbn [options correct].
  rewrite Htexts, Hlen, Hlo, Hhi. reflexivity.
Qed.

Lemma four_options_in_range (q : QuizItem) :
  four_options q = true -> index_in_range q = true.
Proof.
  unfold four_options, index_in_range. intros H.
  apply andb_prop in H as [H Hhi]. apply andb_prop in H as [Hlen Hlo].
  apply Nat.eqb_eq in Hlen. apply Z.leb_le in Hlo. apply Z.leb_le in Hhi.
  rewrite Hlen. apply andb_true_intro. split; [apply Z.leb_le | apply Z.ltb_lt]; lia.
Qed.

Lemma quiz_items_read (items : list json) :
  forallb is_quiz_item items = true ->
  exists qs,
    mapM quiz_item_of_json items = Some qs
    /\ length qs = length items
    /\ forallb four_options qs = true.
Proof.
  induction items as [| v items IH]; intros Hall.
  - exists []. repeat split.
  - cbn [forallb] in Hall. apply andb_prop in Hall as [Hv Hrest].
    destruct (IH Hrest) as (qs & Hmap & Hlen & Hfour).
    destruct (is_quiz_item_read v Hv) as (q & Hq & Hq4).
    exists (q :: qs). split; [| split].
    + cbn. rewrite Hq. cbn. rewrite Hmap. reflexivity.
    + cbn [length]. rewrite Hlen. reflexivity.
    + cbn [forallb]. rewrite Hq4, Hfour. reflexivity.
Qed.

(** X14. A decoded reply in the format the prompt asks for, eight
    questions with four option strings and a correct index from 0 to 3
    each, reads as eight quiz items, and the results view grades them
    without raising, for every answer mapping. *)
Theorem requested_format_is_gradable
    (v : json) (answers : gmap nat string) (Hformat : is_quiz v = true) :
  exists qs,
    quiz_items_of_json v = Some qs
    /\ length qs = 8%nat
    /\ forallb four_options qs = true
    /\ exists lines,
         results_loop 0 qs answers 0 = Return (matching_count qs answers, lines).
Proof.
  unfold is_quiz in Hformat.
  destruct v as [| | | | | items |]; try discriminate Hformat.
  apply andb_prop in Hformat as [Hlen Hitems]. apply Nat.eqb_eq in Hlen.
  destruct (quiz_items_read items Hitems) as (qs & Hmap & Hqs & Hfour).
  exists qs. split; [exact Hmap |].
  split; [rewrite Hqs; exact Hlen |].
  split; [exact Hfour |].
  assert (Hrange : forallb index_in_range qs = true).
  { apply forallb_forall. intros q Hq.
    rewrite forallb_forall in Hfour.
    apply four_options_in_range. exact (Hfour q Hq). }
  destruct (results_loop_matching qs answers Hrange) as [lines [Hloop _]].
  exists lines. exact Hloop.
Qed.

Lemma requested_format_is_gradable_witness :
  is_quiz eight_questions = true
  /\ exists qs,
       quiz_items_of_json eight_questions = Some qs
       /\ length qs = 8%nat
       /\ forallb four_options qs = true
       /\ exists lines,
            results_loop 0 qs ∅ 0 = Return (matching_count qs ∅, lines).
Proof.
  split; [reflexivity |].
  apply (requested_format_is_gradable eight_questions ∅). reflexivity.
Defined.

(** ** Runs of the script *)

Lemma display_quiz_frame (w : widgets) (now : Z) (st : session_state)
    (db : database) (p : page) :
  display_quiz w now st db = Return p ->
  logged_in (page_state p) = logged_in st
  /\ user_data (page_state p) = user_data st
  /\ (page_db p = db
      \/ exists u c,
           user_data st = Some u
           /\ quiz_submitted st = true
           /\ page_db p
              = save_user_progress db now (u_id u) (lesson_topic st) c).
Proof.
  unfold display_quiz. destruct (quiz_submitted st) eqn:Hsub; cbn [negb].
  - destruct (results_loop 0 (quiz_questions st) (quiz_answers st) 0)
      as [r | e]; cbn [bind]; [| discriminate].
    destruct (user_data st) as [u |] eqn:Hu.
    + destruct (pressed w); intros H; injection H as <-; cbn;
        (split; [reflexivity | split; [assumption || reflexivity |]]);
        right; exists u, (fst r); repeat split; reflexivity.
    + destruct (pressed w); intros H; injection H as <-; cbn;
        (split; [reflexivity | split; [assumption || reflexivity |]]);
        left; reflexivity.
  - destruct (form_loop w 0 (quiz_questions st) (quiz_answers st))
      as [answers form].
    destruct (pressed w); intros H; injection H as <-; cbn;
      repeat split; left; reflexivity.
Qed.

Lemma accounts_kept_refl (db : database) : accounts_kept db db.
Proof. intros row Hin. exists row. repeat split; assumption. Qed.

Lemma accounts_kept_save (db : database) (now uid : Z) (topic : string)
    (score : Z) :
  accounts_kept db (save_user_progress db now uid topic score).
Proof. intros row Hin. exists row. repeat split; assumption. Qed.

Lemma accounts_kept_login (db : database) (now uid : Z) :
  accounts_kept db (update_last_login db now uid).
Proof.
  intros row Hin. unfold update_last_login. cbn [users].
  eexists. split; [apply in_map; exact Hin |].
  destruct (user_id row =? uid); repeat split; reflexivity.
Qed.

Lemma accounts_kept_create
    (hashpw : string -> string -> outcome string) (db db' : database) (now : Z)
    (salt email password : string) (age : Z) (created : option Z) :
  create_user hashpw db now salt email password age = Return (db', created) ->
  accounts_kept db db' /\ user_progress db' = user_progress db.
Proof.
  intros Hcreate.
  destruct (create_user_returned hashpw db db' now salt email password age
              created Hcreate) as [[-> _] | (hashed & _ & _ & _ & _ & ->)].
  - split; [apply accounts_kept_refl | reflexivity].
  - split; [| reflexivity].
    intros row Hin. exists row. cbn [users].
    split; [apply in_or_app; left; exact Hin | repeat split; reflexivity].
Qed.

Lemma session_consistent_kept (st st' : session_state) (db db' : database) :
  session_consistent st db ->
  accounts_kept db db' ->
  logged_in st' = logged_in st -> user_data st' = user_data st ->
  session_consistent st' db'.
Proof.
  intros [Hflag Hrow] Hkept Hlog Hdata. unfold session_consistent.
  rewrite Hlog, Hdata. split; [exact Hflag |].
  intros u Hu. destruct (Hrow u Hu) as (row & Hin & Hid & Hmail & Hage).
  destruct (Hkept row Hin) as (row' & Hin' & Hid' & Hmail' & Hage').
  exists row'. repeat split; congruence.
Qed.

Lemma progress_owned_kept (db db' : database) :
  progress_owned db -> accounts_kept db db' ->
  user_progress db' = user_progress db ->
  progress_owned db'.
Proof.
  intros Howned Hkept Hsame r Hin. rewrite Hsame in Hin.
  destruct (Howned r Hin) as (row & Hrow & Hid).
  destruct (Hkept row Hrow) as (row' & Hin' & Hid' & _).
  exists row'. split; [exact Hin' | congruence].
Qed.

Lemma progress_owned_save (db : database) (now uid : Z) (topic : string)
    (score : Z) :
  progress_owned db ->
  (exists row, In row (users db) /\ user_id row = uid) ->
  progress_owned (save_user_progress db now uid topic score).
Proof.
  intros Howned Hrow r Hin. unfold save_user_progress in Hin |- *.
  cbn [user_progress users] in *.
  apply in_app_or in Hin as [Hold | [<- | []]].
  - exact (Howned r Hold).
  - exact Hrow.
Qed.

Lemma app_invariant_page (w : widgets) (now : Z) (st : session_state)
    (db : database) (p : page) :
  app_invariant st db ->
  display_quiz w now st db = Return p ->
  app_invariant (page_state p) (page_db p).
Proof.
  intros (Hsession & Hstore & Howned) Hrun.
  destruct (display_quiz_frame w now st db p Hrun)
    as (Hlog & Hdata & [-> | (u & c & Hu & _ & ->)]).
  - split; [| split; assumption].
    exact (session_consistent_kept st _ db db Hsession (accounts_kept_refl db)
             Hlog Hdata).
  - split; [| split].
    + exact (session_consistent_kept st _ db _ Hsession
               (accounts_kept_save db now (u_id u) (lesson_topic st) c)
               Hlog Hdata).
    + apply store_invariant_save. exact Hstore.
    + apply progress_owned_save; [exact Howned |].
      destruct Hsession as [_ Hrow].
      destruct (Hrow u Hu) as (row & Hin & Hid & _).
      exists row. split; assumption.
Qed.

Lemma app_invariant_same_account (st st' : session_state) (db : database) :
  app_invariant st db ->
  logged_in st' = logged_in st -> user_data st' = user_data st ->
  app_invariant st' db.
Proof.
  intros (Hsession & Hstore & Howned) Hlog Hdata.
  split; [| split; assumption].
  exact (session_consistent_kept st st' db db Hsession (accounts_kept_refl db)
           Hlog Hdata).
Qed.

Lemma app_invariant_logged_out (st st' : session_state) (db : database) :
  app_invariant st db ->
  logged_in st' = false -> user_data st' = None ->
  app_invariant st' db.
Proof.
  intros (_ & Hstore & Howned) Hlog Hdata.
  split; [| split; assumption].
  unfold session_consistent. rewrite Hlog, Hdata.
  split; [split; [discriminate | congruence] | discriminate].
Qed.

Lemma app_invariant_logged_in (st st' : session_state) (db : database)
    (now : Z) (email : string) (row : user_row) :
  app_invariant st db ->
  select_user db email = Some row ->
  logged_in st' = true ->
  user_data st' = Some (User (user_id row) email (user_age row)) ->
  app_invariant st' (update_last_login db now (user_id row)).
Proof.
  intros (_ & Hstore & Howned) Hrow Hlog Hdata.
  unfold select_user in Hrow. apply find_some in Hrow as [Hin Hmail].
  apply String.eqb_eq in Hmail.
  split; [| split].
  - unfold session_consistent. rewrite Hlog, Hdata.
    split; [split; [discriminate | reflexivity] |].
    intros u Hu. injection Hu as <-.
    destruct (accounts_kept_login db now (user_id row) row Hin)
      as (row' & Hin' & Hid' & Hmail' & Hage').
    exists row'. cbn [u_id u_email u_age]. repeat split; congruence.
  - apply store_invariant_login. exact Hstore.
  - apply (progress_owned_kept db); [exact Howned | apply accounts_kept_login
                                    | reflexivity].
Qed.

Lemma register_submit_database
    (hashpw : string -> string -> outcome string) (st : session_state) (db : database)
    (now : Z) (salt reg_email reg_password confirm_password : string) (age : Z)
    (f : form_result) :
  register_submit hashpw st db now salt reg_email reg_password
    confirm_password age = Return f ->
  form_state f = st
  /\ form_rerun f = false
  /\ (form_db f = db
      \/ exists created,
           create_user hashpw db now salt reg_email reg_password age
           = Return (form_db f, created)).
Proof.
  unfold register_submit.
  destruct (is_empty reg_email || is_empty reg_password
            || is_empty confirm_password);
    [intros H; injection H as <-; cbn; auto |].
  destruct (negb (validate_email reg_email));
    [intros H; injection H as <-; cbn; auto |].
  destruct (String.length reg_password <? 6)%nat;
    [intros H; injection H as <-; cbn; auto |].
  destruct (negb (reg_password =? confirm_password)%string);
    [intros H; injection H as <-; cbn; auto |].
  destruct (create_user hashpw db now salt reg_email reg_password age)
    as [[db' [user_id |]] | e]; cbn [bind]; [| | discriminate].
  - destruct (user_id =? 0); intros H; injection H as <-; cbn;
      repeat split; right; eexists; reflexivity.
  - intros H; injection H as <-; cbn.
    repeat split; right; eexists; reflexivity.
Qed.

Section PageProperties.

Variable loads : string -> outcome json.
Variable hashpw : string -> string -> outcome string.
Variable checkpw : string -> string -> outcome bool.

Lemma app_invariant_navigation (env : environment) (st : session_state)
    (db : database) (drawn : list shown) :
  app_invariant st db ->
  app_invariant (run_state (navigation env st db drawn))
    (run_db (navigation env st db drawn)).
Proof.
  intros Hinv. unfold navigation.
  destruct (env_event env); cbn [run_state run_db];
    first [ exact Hinv
          | apply (app_invariant_same_account st);
            [exact Hinv | reflexivity | reflexivity]
          | apply (app_invariant_logged_out st);
            [exact Hinv | reflexivity | reflexivity] ].
Qed.

Lemma app_invariant_start_lesson (env : environment) (topic : string)
    (st : session_state) (db : database) (drawn : list shown) :
  app_invariant st db ->
  app_invariant (run_state (start_lesson env topic st db drawn))
    (run_db (start_lesson env topic st db drawn)).
Proof.
  intros Hinv. unfold start_lesson.
  destruct (user_data st) as [u |] eqn:Hu.
  - destruct (generate_lesson (env_chat env) topic (u_age u));
      cbn [run_state run_db];
      apply (app_invariant_same_account st);
      try exact Hinv; try reflexivity; cbn; congruence.
  - cbn [run_state run_db].
    apply (app_invariant_same_account st);
      try exact Hinv; try reflexivity; cbn; congruence.
Qed.

Lemma app_invariant_topic_selection (env : environment) (st : session_state)
    (db : database) :
  app_invariant st db ->
  app_invariant (run_state (topic_selection_page env st db))
    (run_db (topic_selection_page env st db)).
Proof.
  intros Hinv. unfold topic_selection_page.
  destruct (env_event env); cbn [run_state run_db]; try exact Hinv.
  - destruct (existsb _ _); [apply app_invariant_start_lesson |]; exact Hinv.
  - destruct (is_empty _); [| apply app_invariant_start_lesson]; exact Hinv.
Qed.

Lemma app_invariant_login_page (env : environment) (st : session_state)
    (db : database) :
  app_invariant st db ->
  app_invariant (run_state (login_page hashpw checkpw env st db))
    (run_db (login_page hashpw checkpw env st db)).
Proof.
  intros Hinv. unfold login_page.
  destruct (env_event env) as [| email password
                               | reg_email reg_password confirm_password age
                               | | | | | | |];
    cbn [run_state run_db]; try exact Hinv.
  - destruct (login_submit_cases checkpw st db (env_now env) email password)
      as [[text ->] | [(row & Hrow & _ & _ & ->) | (row & e & _ & _ & _ & ->)]].
    + exact Hinv.
    + unfold run_of_form. cbn [run_state run_db form_state form_db].
      apply (app_invariant_logged_in st _ db (env_now env) email row);
        [exact Hinv | exact Hrow | reflexivity | reflexivity].
    + exact Hinv.
  - destruct (register_submit hashpw st db (env_now env) (env_salt env)
                reg_email reg_password confirm_password age) as [f | e] eqn:Hf;
      [| exact Hinv].
    unfold run_of_form. cbn [run_state run_db].
    destruct (register_submit_database hashpw st db (env_now env)
                (env_salt env) reg_email reg_password confirm_password age f Hf)
      as (-> & _ & [-> | [created Hcreate]]); [exact Hinv |].
    destruct Hinv as (Hsession & Hstore & Howned).
    destruct (accounts_kept_create hashpw db (form_db f) _ _ _ _ _ created
                Hcreate) as [Hkept Hprogress].
    split; [| split].
    + exact (session_consistent_kept st st db _ Hsession Hkept eq_refl eq_refl).
    + exact (store_invariant_create hashpw db (form_db f) _ _ _ _ _ created
               Hstore Hcreate).
    + exact (progress_owned_kept db _ Howned Hkept Hprogress).
Qed.

Lemma app_invariant_quiz_section (env : environment) (st : session_state)
    (db : database) (drawn : list shown) :
  app_invariant st db ->
  app_invariant (end_state (quiz_section loads env st db drawn))
    (end_db (quiz_section loads env st db drawn)).
Proof.
  intros Hinv. unfold quiz_section.
  destruct (quiz_questions st) as [| q qs] eqn:Hqs.
  - destruct (env_event env); cbn [end_state end_db];
      try (apply app_invariant_navigation; exact Hinv).
    destruct (user_data st) as [u |] eqn:Hu; [| exact Hinv].
    destruct (quiz_returned _) as [v | e]; [| exact Hinv].
    destruct (quiz_items_of_json v) as [items |]; [| exact Hinv].
    cbn [end_state end_db run_state run_db].
    apply (app_invariant_same_account st);
      [exact Hinv | reflexivity | cbn; congruence].
  - destruct (display_quiz _ (env_now env) st db) as [p | e] eqn:Hrun;
      [| exact Hinv].
    pose proof (app_invariant_page _ _ _ _ _ Hinv Hrun) as Hpage.
    cbv zeta. destruct (page_rerun p); cbn [end_state end_db].
    + exact Hpage.
    + apply app_invariant_navigation. exact Hpage.
Qed.

Lemma app_invariant_main (env : environment) (st : session_state)
    (db : database) :
  app_invariant st db ->
  app_invariant (end_state (main loads hashpw checkpw env st db))
    (end_db (main loads hashpw checkpw env st db)).
Proof.
  intros Hinv. unfold main. cbn [init_database].
  destruct (logged_in st); cbn [negb].
  - unfold lesson_page.
    destruct (lesson_present st); cbn [negb];
      [| apply app_invariant_topic_selection; exact Hinv].
    cbv zeta.
    destruct (env_event env);
      try apply (app_invariant_quiz_section env st db _ Hinv).
    destruct (is_empty _);
      [apply (app_invariant_quiz_section env st db _ Hinv) |].
    destruct (user_data st) as [u |]; [| exact Hinv].
    destruct (answer_question _ _ _ _);
      [apply (app_invariant_quiz_section env st db _ Hinv) | exact Hinv].
  - apply app_invariant_login_page. exact Hinv.
Qed.

Lemma app_invariant_interact (env : environment) (st : session_state)
    (db : database) :
  app_invariant st db ->
  app_invariant (end_state (interact loads hashpw checkpw env st db))
    (end_db (interact loads hashpw checkpw env st db)).
Proof.
  intros Hinv. unfold interact.
  pose proof (app_invariant_main env st db Hinv) as Hinv1.
  destruct (main loads hashpw checkpw env st db) as [r1 | st1 db1 v drawn];
    [| exact Hinv1].
  cbn [end_state end_db] in Hinv1.
  destruct (run_rerun r1); [| exact Hinv1].
  apply app_invariant_main. exact Hinv1.
Qed.

Lemma app_invariant_play (envs : list environment) :
  forall (st : session_state) (db : database) (st' : session_state)
         (db' : database) (stored : option json),
    app_invariant st db ->
    play loads hashpw checkpw envs st db = (st', db', stored) ->
    app_invariant st' db'.
Proof.
  induction envs as [| env later IH]; intros st db st' db' stored Hinv;
    cbn [play].
  - intros H; injection H as <- <- _. exact Hinv.
  - pose proof (app_invariant_interact env st db Hinv) as Hstep.
    destruct (interact loads hashpw checkpw env st db)
      as [r | st1 db1 v drawn]; cbn [end_state end_db] in Hstep.
    + apply IH. exact Hstep.
    + intros H; injection H as <- <- _. exact Hstep.
Qed.

End PageProperties.

Lemma app_invariant_initial : app_invariant initial_session (init_database None).
Proof.
  split; [| split].
  - split; [split; [discriminate | intros H; exfalso; apply H; reflexivity]
           | discriminate].
  - apply store_invariant_empty.
  - intros r [].
Qed.

(** X15. Whatever the user does from a new session on a new database,
    whatever [bcrypt] makes of the passwords and whatever the backend
    answers, after every action: the login flag is set exactly when the
    session holds an account; that account is a stored one, with the id,
    email and age of its row; no two stored accounts share an email or an
    id; and every progress row belongs to a stored account. A questions
    value that is not a list of typed items is no exception: the same
    holds at the run that stores it, where the modelled part of the
    session ends. *)
Theorem session_keeps_account_and_store
    (loads : string -> outcome json)
    (hashpw : string -> string -> outcome string)
    (checkpw : string -> string -> outcome bool) (envs : list environment)
    (st : session_state) (db : database) (stored : option json)
    (Hplay : play loads hashpw checkpw envs initial_session
               (init_database None) = (st, db, stored)) :
  (logged_in st = true <-> user_data st <> None)
  /\ (forall u, user_data st = Some u ->
        exists row,
          In row (users db)
          /\ user_id row = u_id u /\ user_email row = u_email u
          /\ user_age row = u_age u)
  /\ NoDup (map user_email (users db))
  /\ NoDup (map user_id (users db))
  /\ (forall r, In r (user_progress db) ->
        exists row, In row (users db) /\ user_id row = progress_user_id r).
Proof.
  destruct (app_invariant_play loads hashpw checkpw envs initial_session
              (init_database None) st db stored app_invariant_initial Hplay)
    as ((Hflag & Hrow) & (Hemails & Hids & _) & Howned).
  repeat split; try assumption; apply Hflag.
Qed.

(** Bob's session played to its end, and the session in which the
    backend answers the quiz prompt with a list holding a number: that
    one is played up to the run that stores the list. *)
Lemma bob_sessions_played :
  (exists st db,
      play json_loads sample_hashpw sample_checkpw bob_session initial_session
        (init_database None) = (st, db, None)
      /\ logged_in st = false
      /\ map user_email (users db) = ["bob@example.com"]
      /\ map progress_quiz_score (user_progress db) = [1; 1; 1])
  /\ (exists st db,
        play json_loads sample_hashpw sample_checkpw bob_number_session
          initial_session (init_database None)
        = (st, db, Some (JList [JInt 1]))
        /\ user_data st = Some (User 1 "bob@example.com" 30)
        /\ map user_email (users db) = ["bob@example.com"]).
Proof.
  split; eexists; eexists; (split; [vm_compute; reflexivity |]);
    repeat split; reflexivity.
Qed.

Lemma session_keeps_account_and_store_witness :
  (play json_loads sample_hashpw sample_checkpw bob_session initial_session
     (init_database None) = bob_session_end
   /\ snd bob_session_end = None
   /\ (logged_in (fst (fst bob_session_end)) = true
       <-> user_data (fst (fst bob_session_end)) <> None)
   /\ (forall u, user_data (fst (fst bob_session_end)) = Some u ->
         exists row,
           In row (users (snd (fst bob_session_end)))
           /\ user_id row = u_id u /\ user_email row = u_email u
           /\ user_age row = u_age u)
   /\ NoDup (map user_email (users (snd (fst bob_session_end))))
   /\ NoDup (map user_id (users (snd (fst bob_session_end))))
   /\ (forall r, In r (user_progress (snd (fst bob_session_end))) ->
         exists row,
           In row (users (snd (fst bob_session_end)))
           /\ user_id row = progress_user_id r))
  /\ (play json_loads sample_hashpw sample_checkpw bob_number_session
        initial_session (init_database None) = bob_number_session_end
      /\ snd bob_number_session_end = Some (JList [JInt 1])
      /\ (logged_in (fst (fst bob_number_session_end)) = true
          <-> user_data (fst (fst bob_number_session_end)) <> None)
      /\ (forall u, user_data (fst (fst bob_number_session_end)) = Some u ->
            exists row,
              In row (users (snd (fst bob_number_session_end)))
              /\ user_id row = u_id u /\ user_email row = u_email u
              /\ user_age row = u_age u)
      /\ NoDup (map user_email (users (snd (fst bob_number_session_end))))
      /\ NoDup (map user_id (users (snd (fst bob_number_session_end))))
      /\ (forall r, In r (user_progress (snd (fst bob_number_session_end))) ->
            exists row,
              In row (users (snd (fst bob_number_session_end)))
              /\ user_id row = progress_user_id r)).
Proof.
  split; (split; [reflexivity | split; [vm_compute; reflexivity |]]).
  - apply (session_keeps_account_and_store json_loads sample_hashpw
             sample_checkpw bob_session (fst (fst bob_session_end))
             (snd (fst bob_session_end)) (snd bob_session_end)).
    unfold bob_session_end.
    destruct (play json_loads sample_hashpw sample_checkpw bob_session
                initial_session (init_database None)) as [[st db] stored].
    reflexivity.
  - apply (session_keeps_account_and_store json_loads sample_hashpw
             sample_checkpw bob_number_session
             (fst (fst bob_number_session_end))
             (snd (fst bob_number_session_end)) (snd bob_number_session_end)).
    unfold bob_number_session_end.
    destruct (play json_loads sample_hashpw sample_checkpw bob_number_session
                initial_session (init_database None)) as [[st db] stored].
    reflexivity.
Defined.

(** ** Runs without an event *)

Lemma display_quiz_no_click (values : nat -> string) (now : Z)
    (st : session_state) (db : database) :
  (exists e, display_quiz (Widgets NoClick values) now st db = Raise e)
  \/ exists p,
       display_quiz (Widgets NoClick values) now st db = Return p
       /\ page_rerun p = false
       /\ logged_in (page_state p) = logged_in st
       /\ user_data (page_state p) = user_data st
       /\ current_lesson (page_state p) = current_lesson st
       /\ lesson_topic (page_state p) = lesson_topic st
       /\ quiz_questions (page_state p) = quiz_questions st
       /\ quiz_submitted (page_state p) = quiz_submitted st
       /\ users (page_db p) = users db
       /\ (quiz_submitted st = false -> page_db p = db).
Proof.
  unfold display_quiz. destruct (quiz_submitted st) eqn:Hsub; cbn [negb].
  - destruct (results_loop 0 (quiz_questions st) (quiz_answers st) 0)
      as [r | e]; cbn [bind pressed]; [| left; exists e; reflexivity].
    right. eexists. split; [reflexivity |].
    cbn [page_rerun page_state page_db].
    destruct (user_data st); repeat split; try assumption; try discriminate.
  - destruct (form_loop (Widgets NoClick values) 0 (quiz_questions st)
                (quiz_answers st)) as [answers form].
    cbn [pressed]. right. eexists. split; [reflexivity |].
    cbn. repeat split; try assumption.
Qed.

Section RunProperties.

Variable loads : string -> outcome json.
Variable hashpw : string -> string -> outcome string.
Variable checkpw : string -> string -> outcome bool.

Lemma quiet_run (env : environment) (st : session_state) (db : database) :
  exists r,
    main loads hashpw checkpw (after_rerun env) st db = Finished r
    /\ run_rerun r = false
    /\ logged_in (run_state r) = logged_in st
    /\ user_data (run_state r) = user_data st
    /\ current_lesson (run_state r) = current_lesson st
    /\ lesson_topic (run_state r) = lesson_topic st
    /\ quiz_questions (run_state r) = quiz_questions st
    /\ quiz_submitted (run_state r) = quiz_submitted st
    /\ users (run_db r) = users db
    /\ (logged_in st = false \/ lesson_present st = false
        \/ quiz_submitted st = false ->
        run_db r = db /\ run_raised r = None).
Proof.
  unfold main, after_rerun. cbn [init_database].
  destruct (logged_in st) eqn:Hlog; cbn [negb].
  - unfold lesson_page. destruct (lesson_present st) eqn:Hlesson; cbn [negb].
    + cbn [env_event]. unfold quiz_section.
      destruct (quiz_questions st) as [| q qs] eqn:Hqs.
      * cbn [env_event navigation]. eexists. split; [reflexivity |].
        cbn [run_rerun run_state run_db run_raised].
        do 8 (split; [first [assumption | reflexivity] |]).
        intros _. split; reflexivity.
      * cbn [env_event env_radio env_now button_of].
        destruct (display_quiz_no_click (env_radio env) (env_rerun_now env)
                    st db)
          as [[e Hraise] | (p & Hrun & Hrerun & Hl & Hu & Hc & Ht & Hq & Hs
                            & Husers & Hform)].
        -- rewrite Hraise. eexists. split; [reflexivity |].
           cbn [run_rerun run_state run_db run_raised].
           do 8 (split; [first [assumption | reflexivity] |]).
           intros [Hcase | [Hcase | Hcase]]; try discriminate.
           exfalso. unfold display_quiz in Hraise. rewrite Hcase in Hraise.
           cbn [negb] in Hraise.
           destruct (form_loop _ 0 (quiz_questions st) (quiz_answers st)).
           cbn [pressed] in Hraise. discriminate Hraise.
        -- rewrite Hrun, Hrerun. cbn [navigation env_event].
           eexists. split; [reflexivity |].
           cbn [run_rerun run_state run_db run_raised].
           rewrite Hl, Hu, Hc, Ht, Hq, Hs, Husers.
           do 8 (split; [first [assumption | reflexivity] |]).
           intros [Hcase | [Hcase | Hcase]]; try discriminate.
           split; [exact (Hform Hcase) | reflexivity].
    + cbn [env_event topic_selection_page]. eexists. split; [reflexivity |].
      cbn [run_rerun run_state run_db run_raised].
      do 8 (split; [first [assumption | reflexivity] |]).
      intros _. split; reflexivity.
  - cbn [env_event login_page]. eexists. split; [reflexivity |].
    cbn [run_rerun run_state run_db run_raised].
    do 8 (split; [first [assumption | reflexivity] |]).
    intros _. split; reflexivity.
Qed.

(** X16. A run without an event never ends in [st.rerun()], so an action
    of the user settles after two runs at most. Such a run keeps the
    login, the lesson, the items and the submitted flag, and keeps the
    accounts; outside the results view it writes nothing to the database
    and raises nothing. *)
Theorem run_without_event_settles
    (env : environment) (st : session_state) (db : database) :
  (exists r,
      main loads hashpw checkpw (after_rerun env) st db = Finished r
      /\ run_rerun r = false
      /\ logged_in (run_state r) = logged_in st
      /\ user_data (run_state r) = user_data st
      /\ current_lesson (run_state r) = current_lesson st
      /\ lesson_topic (run_state r) = lesson_topic st
      /\ quiz_questions (run_state r) = quiz_questions st
      /\ quiz_submitted (run_state r) = quiz_submitted st
      /\ users (run_db r) = users db
      /\ (logged_in st = false \/ lesson_present st = false
          \/ quiz_submitted st = false ->
          run_db r = db /\ run_raised r = None))
  /\ (forall r, interact loads hashpw checkpw env st db = Finished r ->
                run_rerun r = false).
Proof.
  split; [apply quiet_run |].
  intros r. unfold interact.
  destruct (main loads hashpw checkpw env st db) as [r1 |]; [| discriminate].
  destruct (run_rerun r1) eqn:Hrerun.
  - intros Hsecond.
    destruct (quiet_run env (run_state r1) (run_db r1)) as (r2 & Hrun & Hquiet & _).
    congruence.
  - intros H. injection H as <-. exact Hrerun.
Qed.


(** ** Actions on the results view *)

Lemma answer_question_returns
    (chat : chat_request -> outcome string) (question topic : string) (age : Z) :
  exists text, answer_question chat question topic age = Return text.
Proof.
  unfold answer_question.
  destruct (chat (answer_request question topic age)); eexists; reflexivity.
Qed.

Lemma generate_lesson_returns
    (chat : chat_request -> outcome string) (topic : string) (age : Z) :
  generate_lesson chat topic age
  = Return match chat (lesson_request topic age) with
           | Return content => content
           | Raise e => "Error generating lesson: " +:+ exn_str e
           end.
Proof.
  unfold generate_lesson.
  destruct (chat (lesson_request topic age)); reflexivity.
Qed.

(** The first run of an action on the results view, event by event. *)
Lemma quiz_section_on_results (env : environment) (st : session_state)
    (db : database) (drawn : list shown) (u : user) :
  on_results_view st -> user_data st = Some u ->
  exists r,
    quiz_section loads env st db drawn = Finished r
    /\ run_raised r = None
    /\ run_db r
       = save_user_progress db (env_now env) (u_id u) (lesson_topic st)
           (matching_count (quiz_questions st) (quiz_answers st))
    /\ run_state r
       = match env_event env with
         | QuizButton RetakeQuiz =>
             SessionState (logged_in st) (user_data st) (current_lesson st)
               (quiz_questions st) ∅ false (lesson_topic st)
         | QuizButton NewTopic =>
             SessionState (logged_in st) (user_data st) None [] ∅ false ""
         | ChooseNewTopicButton =>
             SessionState (logged_in st) (user_data st) None
               (quiz_questions st) (quiz_answers st) (quiz_submitted st) ""
         | LogoutButton => with_account st false None
         | _ => st
         end
    /\ run_rerun r
       = match env_event env with
         | QuizButton RetakeQuiz | QuizButton NewTopic
         | ChooseNewTopicButton | LogoutButton => true
         | _ => false
         end.
Proof.
  intros (Hlog & Hlesson & Hne & Hsub & Hrange) Hu.
  destruct (display_quiz_submitted
              (Widgets (button_of (env_event env)) (env_radio env))
              (env_now env) st db Hsub Hrange)
    as (p & Hrun & Hdb & _ & Hstate & Hrerun).
  rewrite Hu in Hdb. cbn [pressed] in Hstate, Hrerun.
  assert (Hsection :
            quiz_section loads env st db drawn
            = match display_quiz
                      (Widgets (button_of (env_event env)) (env_radio env))
                      (env_now env) st db with
              | Raise e => Finished (Run st db (Some e) false drawn)
              | Return p =>
                  let drawn' := drawn ++ [ShownQuiz (page_elements p)] in
                  if page_rerun p
                  then Finished (Run (page_state p) (page_db p) None true drawn')
                  else Finished (navigation env (page_state p) (page_db p) drawn')
              end).
  { unfold quiz_section. destruct (quiz_questions st); [contradiction | reflexivity]. }
  rewrite Hsection, Hrun. cbv zeta. rewrite Hrerun.
  unfold navigation.
  destruct (env_event env) as [| | | | | | | [| | |] | |];
    cbn [button_of] in *; rewrite Hstate, Hdb;
    eexists; (split; [reflexivity |]);
    cbn [run_raised run_db run_state run_rerun];
    repeat split; reflexivity.
Qed.

Lemma main_on_results (env : environment) (st : session_state)
    (db : database) (u : user) :
  on_results_view st -> user_data st = Some u ->
  exists r,
    main loads hashpw checkpw env st db = Finished r
    /\ run_raised r = None
    /\ run_db r
       = save_user_progress db (env_now env) (u_id u) (lesson_topic st)
           (matching_count (quiz_questions st) (quiz_answers st))
    /\ run_state r
       = match env_event env with
         | QuizButton RetakeQuiz =>
             SessionState (logged_in st) (user_data st) (current_lesson st)
               (quiz_questions st) ∅ false (lesson_topic st)
         | QuizButton NewTopic =>
             SessionState (logged_in st) (user_data st) None [] ∅ false ""
         | ChooseNewTopicButton =>
             SessionState (logged_in st) (user_data st) None
               (quiz_questions st) (quiz_answers st) (quiz_submitted st) ""
         | LogoutButton => with_account st false None
         | _ => st
         end
    /\ run_rerun r
       = match env_event env with
         | QuizButton RetakeQuiz | QuizButton NewTopic
         | ChooseNewTopicButton | LogoutButton => true
         | _ => false
         end.
Proof.
  intros Hview Hu.
  pose proof Hview as (Hlog & Hlesson & _).
  assert (Hpage : exists drawn,
             main loads hashpw checkpw env st db
             = quiz_section loads env st db drawn).
  { unfold main. cbn [init_database]. rewrite Hlog. cbn [negb].
    unfold lesson_page. rewrite Hlesson. cbn [negb].
    destruct (env_event env) as [| | | | | user_question | | | |];
      try (eexists; reflexivity).
    destruct (is_empty user_question); [eexists; reflexivity |].
    rewrite Hu.
    destruct (answer_question_returns (env_chat env) user_question
                (lesson_topic st) (u_age u)) as [text ->].
    eexists; reflexivity. }
  destruct Hpage as [drawn ->].
  exact (quiz_section_on_results env st db drawn u Hview Hu).
Qed.

(** X17. On the results view every action of the user stores the score
    once more, whatever the action is: a question, a button of the quiz,
    the way back to the topics, even the logout. The action ends without
    exception, the progress table holds one more row with the account,
    topic and count of the session and the time of the run, and the
    accounts are as before. *)
Theorem every_action_on_results_saves
    (env : environment) (st : session_state) (db : database) (u : user)
    (Hview : on_results_view st) (Hu : user_data st = Some u) :
  exists r,
    interact loads hashpw checkpw env st db = Finished r
    /\ run_raised r = None
    /\ run_rerun r = false
    /\ user_progress (run_db r)
       = user_progress db
         ++ [ProgressRow (user_progress_seq db + 1) (u_id u) (lesson_topic st)
               (matching_count (quiz_questions st) (quiz_answers st))
               (env_now env)]
    /\ users (run_db r) = users db.
Proof.
  destruct (main_on_results env st db u Hview Hu)
    as (r1 & Hrun & Hraised & Hdb & Hstate & Hrerun).
  unfold interact. rewrite Hrun.
  destruct (run_rerun r1) eqn:Hagain.
  - destruct (quiet_run env (run_state r1) (run_db r1))
      as (r2 & Hrun2 & Hquiet & _ & _ & _ & _ & _ & _ & _ & Hoff).
    destruct Hoff as [Hdb2 Hraised2].
    { pose proof Hview as (Hlog & Hlesson & _).
      rewrite Hstate.
      destruct (env_event env) as [| | | | | | | [| | |] | |];
        try discriminate Hrerun; cbn; auto. }
    exists r2. split; [exact Hrun2 |]. rewrite Hdb2, Hdb.
    repeat split; try assumption; reflexivity.
  - exists r1. split; [reflexivity |]. rewrite Hdb.
    repeat split; try assumption; reflexivity.
Qed.

End RunProperties.

Lemma every_action_on_results_saves_witness :
  on_results_view loops_graded
  /\ user_data loops_graded = Some alice
  /\ exists r,
       interact json_loads sample_hashpw sample_checkpw
         (action LogoutButton 280) loops_graded alice_db = Finished r
       /\ run_raised r = None
       /\ run_rerun r = false
       /\ user_progress (run_db r)
          = user_progress alice_db
            ++ [ProgressRow (user_progress_seq alice_db + 1) (u_id alice)
                  (lesson_topic loops_graded)
                  (matching_count (quiz_questions loops_graded)
                     (quiz_answers loops_graded))
                  (env_now (action LogoutButton 280))]
       /\ users (run_db r) = users alice_db.
Proof.
  assert (Hview : on_results_view loops_graded).
  { repeat split; try reflexivity. discriminate. }
  split; [exact Hview | split; [reflexivity |]].
  apply (every_action_on_results_saves json_loads sample_hashpw sample_checkpw
           (action LogoutButton 280) loops_graded alice_db alice Hview).
  reflexivity.
Defined.

(** ** Logging out and in again *)

Section SessionProperties.

Variable loads : string -> outcome json.
Variable hashpw : string -> string -> outcome string.
Variable checkpw : string -> string -> outcome bool.

Lemma on_results_view_with_account (st : session_state) (account : user) :
  on_results_view st -> on_results_view (with_account st true (Some account)).
Proof.
  intros (_ & Hlesson & Hne & Hsub & Hrange).
  repeat split; assumption.
Qed.

(** X18. The logout button clears the login flag and the account and
    nothing else: lesson, items, answers and submitted flag stay in the
    session. Logged out from the results view, the session shows those
    results to whoever logs in next, and the run that follows the login
    stores the score of the earlier user once more, under the account
    that has just logged in. *)
Theorem logout_keeps_quiz_for_next_login
    (env1 env2 : environment) (st : session_state) (db : database)
    (u : user) (email password : string) (row : user_row)
    (Hview : on_results_view st) (Hu : user_data st = Some u)
    (Hout : env_event env1 = LogoutButton)
    (Hin : env_event env2 = LoginForm email password)
    (Hfilled : is_empty email || is_empty password = false)
    (Hvalid : validate_email email = true)
    (Hrow : select_user db email = Some row)
    (Hpassword : checkpw password (user_password_hash row) = Return true) :
  exists r1 r2,
    interact loads hashpw checkpw env1 st db = Finished r1
    /\ run_state r1 = with_account st false None
    /\ interact loads hashpw checkpw env2 (run_state r1) (run_db r1) = Finished r2
    /\ run_state r2
       = with_account st true (Some (User (user_id row) email (user_age row)))
    /\ user_progress (run_db r2)
       = user_progress db
         ++ [ProgressRow (user_progress_seq db + 1) (u_id u) (lesson_topic st)
               (matching_count (quiz_questions st) (quiz_answers st))
               (env_now env1);
             ProgressRow (user_progress_seq db + 1 + 1) (user_id row)
               (lesson_topic st)
               (matching_count (quiz_questions st) (quiz_answers st))
               (env_rerun_now env2)].
Proof.
  destruct (main_on_results loads hashpw checkpw env1 st db u Hview Hu)
    as (r1 & Hrun1 & _ & Hdb1 & Hstate1 & Hrerun1).
  rewrite Hout in Hstate1, Hrerun1.
  set (db1 := save_user_progress db (env_now env1) (u_id u) (lesson_topic st)
                (matching_count (quiz_questions st) (quiz_answers st))) in *.
  set (account := User (user_id row) email (user_age row)).
  assert (Hfirst : interact loads hashpw checkpw env1 st db
                   = Finished (Run (with_account st false None) db1 None false [])).
  { unfold interact. rewrite Hrun1, Hrerun1, Hstate1, Hdb1. reflexivity. }
  assert (Hlogin : main loads hashpw checkpw env2 (with_account st false None) db1
                   = Finished (Run (with_account st true (Some account))
                             (update_last_login db1 (env_now env2) (user_id row))
                             None true
                             [ShownMessage (StSuccess "Login successful!")])).
  { unfold main, login_page. cbn [init_database with_account logged_in negb].
    rewrite Hin. unfold login_submit. rewrite Hfilled, Hvalid. cbn [negb].
    unfold authenticate_user, verify_password.
    change (select_user db1 email) with (select_user db email).
    rewrite Hrow, Hpassword. reflexivity. }
  destruct (main_on_results loads hashpw checkpw (after_rerun env2)
              (with_account st true (Some account))
              (update_last_login db1 (env_now env2) (user_id row)) account
              (on_results_view_with_account st account Hview) eq_refl)
    as (r2 & Hrun2 & _ & Hdb2 & Hstate2 & _).
  cbn [after_rerun env_event env_now] in Hstate2, Hdb2.
  exists (Run (with_account st false None) db1 None false []), r2.
  split; [exact Hfirst |].
  split; [reflexivity |].
  cbn [run_state run_db].
  split.
  { unfold interact. rewrite Hlogin. cbn [run_rerun run_state run_db].
    exact Hrun2. }
  split; [exact Hstate2 |].
  rewrite Hdb2. unfold db1. cbn. rewrite <- app_assoc. reflexivity.
Qed.

(** ** Starting a lesson *)

(** X19. On the topic selection page a topic button, or the custom topic
    field when it is not empty, starts a lesson: the quiz fields are
    reset, the topic is set, and the lesson is the text of the backend
    or, when the backend fails, the error sentence with the text of the
    exception. The database is not written. The rerun shows the lesson
    with the button to take the quiz, unless the text is empty; then the
    topic selection page is shown again. *)
Theorem topic_starts_lesson
    (env : environment) (st : session_state) (db : database) (u : user)
    (topic : string)
    (Hlog : logged_in st = true) (Hu : user_data st = Some u)
    (Hnone : lesson_present st = false)
    (Htopic : topic_chosen (env_event env) = Some topic) :
  exists text r,
    text = match env_chat env (lesson_request topic (u_age u)) with
           | Return content => content
           | Raise e => "Error generating lesson: " +:+ exn_str e
           end
    /\ main loads hashpw checkpw env st db
       = Finished (Run (SessionState true (Some u) (Some text) [] ∅ false topic)
                 db None true [ShownProgress (display_user_progress st db)])
    /\ interact loads hashpw checkpw env st db = Finished r
    /\ run_state r = SessionState true (Some u) (Some text) [] ∅ false topic
    /\ run_db r = db
    /\ run_raised r = None
    /\ run_shown r
       = if is_empty text
         then [ShownProgress (display_user_progress st db)]
         else [ShownLesson topic text; ShownTakeQuizButton].
Proof.
  set (text := match env_chat env (lesson_request topic (u_age u)) with
               | Return content => content
               | Raise e => "Error generating lesson: " +:+ exn_str e
               end).
  assert (Hstart : forall drawn,
             start_lesson env topic st db drawn
             = Run (SessionState true (Some u) (Some text) [] ∅ false topic)
                 db None true drawn).
  { intros drawn. unfold start_lesson. rewrite Hu, Hlog.
    rewrite generate_lesson_returns. reflexivity. }
  assert (Hmain : main loads hashpw checkpw env st db
                  = Finished (Run (SessionState true (Some u) (Some text) [] ∅
                                 false topic)
                            db None true
                            [ShownProgress (display_user_progress st db)])).
  { unfold main. cbn [init_database]. rewrite Hlog. cbn [negb].
    unfold lesson_page. rewrite Hnone. cbn [negb].
    unfold topic_selection_page. unfold topic_chosen in Htopic.
    destruct (env_event env) as [| | | label | custom_topic | | | | |];
      try discriminate Htopic.
    - destruct (existsb (String.eqb label) (languages ++ roles));
        [| discriminate Htopic].
      injection Htopic as ->. rewrite Hstart. reflexivity.
    - destruct (is_empty custom_topic); [discriminate Htopic |].
      injection Htopic as ->. rewrite Hstart. reflexivity. }
  assert (Hprogress : display_user_progress
                        (SessionState true (Some u) (Some text) [] ∅ false topic)
                        db
                      = display_user_progress st db).
  { unfold display_user_progress. cbn [user_data]. rewrite Hu. reflexivity. }
  exists text,
    (Run (SessionState true (Some u) (Some text) [] ∅ false topic) db None
       false
       (if is_empty text
        then [ShownProgress (display_user_progress st db)]
        else [ShownLesson topic text; ShownTakeQuizButton])).
  split; [reflexivity |].
  split; [exact Hmain |].
  split.
  { unfold interact. rewrite Hmain. cbn [run_rerun run_state run_db].
    unfold main, after_rerun. cbn [init_database logged_in negb].
    unfold lesson_page, lesson_present. cbn [current_lesson].
    destruct (is_empty text) eqn:Hempty; cbn [negb].
    - unfold topic_selection_page. cbn [env_event]. rewrite Hprogress.
      reflexivity.
    - cbn [env_event]. unfold quiz_section. cbn [quiz_questions env_event].
      unfold navigation. cbn [env_event]. reflexivity. }
  repeat split; reflexivity.
Qed.


(** ** Taking the quiz *)

(** X20. When quiz generation comes back empty, be it a backend that
    fails, a reply that is no JSON, or a document without questions, the
    session and the database stay as they were: the first run shows the
    errors reported and asks for a rerun, and the rerun shows the lesson
    with the button to take the quiz again, not the quiz. *)
Theorem failed_quiz_generation_leaves_session
    (env : environment) (st : session_state) (db : database) (u : user)
    (Hlog : logged_in st = true) (Hu : user_data st = Some u)
    (Hlesson : lesson_present st = true)
    (Hnone : quiz_questions st = [])
    (Hevent : env_event env = TakeQuizButton)
    (Hempty : quiz_returned
                (generate_quiz (env_chat env) loads (lesson_topic st) (u_age u))
              = Return (JList [])) :
  main loads hashpw checkpw env st db
  = Finished (Run st db None true
            ([ShownLesson (lesson_topic st) (default "" (current_lesson st));
              ShownTakeQuizButton]
             ++ map ShownError
                  (quiz_errors
                     (generate_quiz (env_chat env) loads (lesson_topic st)
                        (u_age u)))))
  /\ interact loads hashpw checkpw env st db
     = Finished (Run st db None false
               [ShownLesson (lesson_topic st) (default "" (current_lesson st));
                ShownTakeQuizButton]).
Proof.
  pose proof Hlog as Hflag.
  assert (Hmain : main loads hashpw checkpw env st db
                  = Finished (Run st db None true
                            ([ShownLesson (lesson_topic st)
                                (default "" (current_lesson st));
                              ShownTakeQuizButton]
                             ++ map ShownError
                                  (quiz_errors
                                     (generate_quiz (env_chat env) loads
                                        (lesson_topic st) (u_age u)))))).
  { unfold main. cbn [init_database]. rewrite Hlog. cbn [negb].
    unfold lesson_page. rewrite Hlesson, Hevent. cbn [negb].
    unfold quiz_section. rewrite Hnone, Hevent, Hu. cbv zeta. rewrite Hempty.
    cbn [quiz_items_of_json mapM mret option_ret].
    f_equal. f_equal.
    destruct st as [flag account lesson qs answers sub topic].
    cbn [logged_in user_data quiz_questions] in Hflag, Hu, Hnone.
    subst flag account qs. reflexivity. }
  split; [exact Hmain |].
  unfold interact. rewrite Hmain. cbn [run_rerun run_state run_db].
  unfold main, after_rerun. cbn [init_database]. rewrite Hlog. cbn [negb].
  unfold lesson_page. rewrite Hlesson. cbn [negb env_event].
  unfold quiz_section. rewrite Hnone. cbn [env_event navigation].
  reflexivity.
Qed.

(** X21. When quiz generation returns a list that reads as quiz items,
    not empty, the items are loaded as they are, however many they are,
    and the rerun shows the quiz form over them: the session holds those
    items, the submitted flag is clear, every question index has the
    value of its radio widget recorded, and the database is untouched. *)
Theorem generated_quiz_is_loaded
    (env : environment) (st : session_state) (db : database) (u : user)
    (v : json) (items : list QuizItem)
    (Hlog : logged_in st = true) (Hu : user_data st = Some u)
    (Hlesson : lesson_present st = true)
    (Hnone : quiz_questions st = [])
    (Hform : quiz_submitted st = false)
    (Hevent : env_event env = TakeQuizButton)
    (Hreturned : quiz_returned
                   (generate_quiz (env_chat env) loads (lesson_topic st)
                      (u_age u))
                 = Return v)
    (Hitems : quiz_items_of_json v = Some items)
    (Hsome : items <> []) :
  exists r,
    interact loads hashpw checkpw env st db = Finished r
    /\ run_raised r = None
    /\ run_db r = db
    /\ quiz_questions (run_state r) = items
    /\ quiz_submitted (run_state r) = false
    /\ (forall k, (k < length items)%nat ->
                  quiz_answers (run_state r) !! k = Some (env_radio env k))
    /\ current_lesson (run_state r) = current_lesson st
    /\ lesson_topic (run_state r) = lesson_topic st
    /\ user_data (run_state r) = user_data st.
Proof.
  set (st1 := SessionState (logged_in st) (user_data st) (current_lesson st)
                items (quiz_answers st) (quiz_submitted st) (lesson_topic st)).
  assert (Hmain : exists drawn,
             main loads hashpw checkpw env st db
             = Finished (Run st1 db None true drawn)).
  { unfold main. cbn [init_database]. rewrite Hlog. cbn [negb].
    unfold lesson_page. rewrite Hlesson, Hevent. cbn [negb].
    unfold quiz_section. rewrite Hnone, Hevent, Hu. cbv zeta.
    rewrite Hreturned, Hitems. rewrite <- Hu. eexists. reflexivity. }
  destruct Hmain as [drawn Hmain].
  destruct (display_quiz_form (Widgets NoClick (env_radio env))
              (env_rerun_now env) st1 db Hform)
    as (p & Hrun & Hdb & Hin & _ & Hqs & Hlesson' & Htopic & Hdata & _ & Hsub
        & Hrerun).
  cbn [pressed radio] in Hsub, Hin. rewrite Hsub in Hrerun.
  cbn [st1 quiz_questions current_lesson lesson_topic user_data] in Hin, Hqs,
    Hlesson', Htopic, Hdata.
  unfold interact. rewrite Hmain. cbn [run_rerun run_state run_db].
  unfold main, after_rerun. cbn [init_database].
  change (logged_in st1) with (logged_in st). rewrite Hlog. cbn [negb].
  unfold lesson_page.
  change (lesson_present st1) with (lesson_present st). rewrite Hlesson.
  cbn [negb env_event]. unfold quiz_section.
  change (quiz_questions st1) with items.
  destruct items as [| q qs] eqn:Hlist; [contradiction |].
  cbn [env_event env_radio env_now button_of].
  rewrite Hrun, Hrerun. cbn [navigation env_event].
  eexists. split; [reflexivity |].
  cbn [run_raised run_db run_state].
  repeat split; assumption.
Qed.

End SessionProperties.

Lemma logout_keeps_quiz_for_next_login_witness :
  on_results_view loops_graded
  /\ user_data loops_graded = Some alice
  /\ env_event (action LogoutButton 280) = LogoutButton
  /\ env_event (action (LoginForm "bob@example.com" "Secret2") 290)
     = LoginForm "bob@example.com" "Secret2"
  /\ is_empty "bob@example.com" || is_empty "Secret2" = false
  /\ validate_email "bob@example.com" = true
  /\ select_user two_accounts_db "bob@example.com" = Some bob_row
  /\ sample_checkpw "Secret2" (user_password_hash bob_row) = Return true
  /\ exists r1 r2,
       interact json_loads sample_hashpw sample_checkpw
         (action LogoutButton 280) loops_graded two_accounts_db = Finished r1
       /\ run_state r1 = with_account loops_graded false None
       /\ interact json_loads sample_hashpw sample_checkpw
            (action (LoginForm "bob@example.com" "Secret2") 290)
            (run_state r1) (run_db r1) = Finished r2
       /\ run_state r2
          = with_account loops_graded true
              (Some (User (user_id bob_row) "bob@example.com"
                       (user_age bob_row)))
       /\ user_progress (run_db r2)
          = user_progress two_accounts_db
            ++ [ProgressRow (user_progress_seq two_accounts_db + 1)
                  (u_id alice) (lesson_topic loops_graded)
                  (matching_count (quiz_questions loops_graded)
                     (quiz_answers loops_graded))
                  (env_now (action LogoutButton 280));
                ProgressRow (user_progress_seq two_accounts_db + 1 + 1)
                  (user_id bob_row) (lesson_topic loops_graded)
                  (matching_count (quiz_questions loops_graded)
                     (quiz_answers loops_graded))
                  (env_rerun_now
                     (action (LoginForm "bob@example.com" "Secret2") 290))].
Proof.
  assert (Hview : on_results_view loops_graded).
  { repeat split; try reflexivity. discriminate. }
  split; [exact Hview |].
  do 7 (split; [reflexivity |]).
  apply (logout_keeps_quiz_for_next_login json_loads sample_hashpw
           sample_checkpw (action LogoutButton 280)
           (action (LoginForm "bob@example.com" "Secret2") 290)
           loops_graded two_accounts_db alice "bob@example.com" "Secret2"
           bob_row Hview); reflexivity.
Defined.

Lemma topic_starts_lesson_witness :
  logged_in alice_topics = true
  /\ user_data alice_topics = Some alice
  /\ lesson_present alice_topics = false
  /\ topic_chosen (env_event (action (TopicButton "Python Basics") 220))
     = Some "Python Basics"
  /\ exists text r,
       text = match env_chat (action (TopicButton "Python Basics") 220)
                      (lesson_request "Python Basics" (u_age alice)) with
              | Return content => content
              | Raise e => "Error generating lesson: " +:+ exn_str e
              end
       /\ main json_loads sample_hashpw sample_checkpw
            (action (TopicButton "Python Basics") 220) alice_topics alice_db
          = Finished (Run (SessionState true (Some alice) (Some text) [] ∅ false
                         "Python Basics")
                    alice_db None true
                    [ShownProgress (display_user_progress alice_topics alice_db)])
       /\ interact json_loads sample_hashpw sample_checkpw
            (action (TopicButton "Python Basics") 220) alice_topics alice_db
          = Finished r
       /\ run_state r
          = SessionState true (Some alice) (Some text) [] ∅ false
              "Python Basics"
       /\ run_db r = alice_db
       /\ run_raised r = None
       /\ run_shown r
          = if is_empty text
            then [ShownProgress (display_user_progress alice_topics alice_db)]
            else [ShownLesson "Python Basics" text; ShownTakeQuizButton].
Proof.
  do 4 (split; [reflexivity |]).
  apply (topic_starts_lesson json_loads sample_hashpw sample_checkpw
           (action (TopicButton "Python Basics") 220) alice_topics alice_db
           alice "Python Basics"); reflexivity.
Defined.

Lemma failed_quiz_generation_leaves_session_witness :
  logged_in alice_lesson = true
  /\ user_data alice_lesson = Some alice
  /\ lesson_present alice_lesson = true
  /\ quiz_questions alice_lesson = []
  /\ env_event take_quiz_offline = TakeQuizButton
  /\ quiz_returned
       (generate_quiz (env_chat take_quiz_offline) json_loads
          (lesson_topic alice_lesson) (u_age alice))
     = Return (JList [])
  /\ main json_loads sample_hashpw sample_checkpw take_quiz_offline
       alice_lesson alice_db
     = Finished (Run alice_lesson alice_db None true
               ([ShownLesson (lesson_topic alice_lesson)
                   (default "" (current_lesson alice_lesson));
                 ShownTakeQuizButton]
                ++ map ShownError
                     (quiz_errors
                        (generate_quiz (env_chat take_quiz_offline) json_loads
                           (lesson_topic alice_lesson) (u_age alice)))))
  /\ interact json_loads sample_hashpw sample_checkpw take_quiz_offline
       alice_lesson alice_db
     = Finished (Run alice_lesson alice_db None false
               [ShownLesson (lesson_topic alice_lesson)
                  (default "" (current_lesson alice_lesson));
                ShownTakeQuizButton]).
Proof.
  do 6 (split; [reflexivity |]).
  apply (failed_quiz_generation_leaves_session json_loads sample_hashpw
           sample_checkpw take_quiz_offline alice_lesson alice_db alice);
    reflexivity.
Defined.

Lemma generated_quiz_is_loaded_witness :
  logged_in alice_lesson = true
  /\ user_data alice_lesson = Some alice
  /\ lesson_present alice_lesson = true
  /\ quiz_questions alice_lesson = []
  /\ quiz_submitted alice_lesson = false
  /\ env_event (action TakeQuizButton 240) = TakeQuizButton
  /\ quiz_returned
       (generate_quiz (env_chat (action TakeQuizButton 240)) json_loads
          (lesson_topic alice_lesson) (u_age alice))
     = Return one_question
  /\ quiz_items_of_json one_question = Some [loop_item 0]
  /\ [loop_item 0] <> []
  /\ exists r,
       interact json_loads sample_hashpw sample_checkpw
         (action TakeQuizButton 240) alice_lesson alice_db = Finished r
       /\ run_raised r = None
       /\ run_db r = alice_db
       /\ quiz_questions (run_state r) = [loop_item 0]
       /\ quiz_submitted (run_state r) = false
       /\ (forall k, (k < length [loop_item 0])%nat ->
                     quiz_answers (run_state r) !! k
                     = Some (env_radio (action TakeQuizButton 240) k))
       /\ current_lesson (run_state r) = current_lesson alice_lesson
       /\ lesson_topic (run_state r) = lesson_topic alice_lesson
       /\ user_data (run_state r) = user_data alice_lesson.
Proof.
  assert (Hreturned : quiz_returned
                        (generate_quiz (env_chat (action TakeQuizButton 240))
                           json_loads (lesson_topic alice_lesson) (u_age alice))
                      = Return one_question) by (vm_compute; reflexivity).
  do 6 (split; [reflexivity |]).
  split; [exact Hreturned |].
  split; [reflexivity |].
  split; [discriminate |].
  apply (generated_quiz_is_loaded json_loads sample_hashpw sample_checkpw
           (action TakeQuizButton 240) alice_lesson alice_db alice one_question
           [loop_item 0]);
    first [reflexivity | exact Hreturned | discriminate].
Defined.

(** ** Fences around the reply *)

Lemma length_append (a b : string) :
  String.length (a +:+ b) = (String.length a + String.length b)%nat.
Proof.
  induction a as [| x a IH]; [reflexivity |].
  rewrite append_cons. cbn [String.length]. rewrite IH. reflexivity.
Qed.

Lemma prefix_append (sub rest : string) :
  String.prefix sub (sub +:+ rest) = true.
Proof.
  induction sub as [| x sub IH];
    [rewrite append_empty_l; destruct rest; reflexivity |].
  rewrite append_cons. cbn [String.prefix].
  destruct (ascii_dec x x) as [_ | Hne]; [exact IH | contradiction].
Qed.

Lemma index_first (c : ascii) (sub' pre rest : string) :
  lacks c pre ->
  String.index 0 (String c sub') (pre +:+ String c sub' +:+ rest)
  = Some (String.length pre).
Proof.
  unfold lacks. induction pre as [| x pre IH]; intros Hlacks.
  - rewrite append_empty_l.
    pose proof (prefix_append (String c sub') rest) as Hprefix.
    destruct (String c sub' +:+ rest) eqn:Htext; [discriminate Hprefix |].
    cbn [String.index]. rewrite Hprefix. reflexivity.
  - cbn [string_forallb] in Hlacks. apply andb_prop in Hlacks as [Hx Hpre].
    apply negb_true_iff, Ascii.eqb_neq in Hx.
    rewrite append_cons. cbn [String.index String.prefix].
    destruct (ascii_dec c x) as [Heq | _]; [congruence |].
    rewrite (IH Hpre). reflexivity.
Qed.

Lemma index_none (c : ascii) (sub' s : string) :
  lacks c s -> String.index 0 (String c sub') s = None.
Proof.
  unfold lacks. induction s as [| x s IH]; intros Hlacks; [reflexivity |].
  cbn [string_forallb] in Hlacks. apply andb_prop in Hlacks as [Hx Hs].
  apply negb_true_iff, Ascii.eqb_neq in Hx.
  cbn [String.index String.prefix].
  destruct (ascii_dec c x) as [Heq | _]; [congruence |].
  rewrite (IH Hs). reflexivity.
Qed.

Lemma index_skip (sub a s : string) (n : nat) :
  String.index (String.length a + n) sub (a +:+ s)
  = option_map (fun m => (String.length a + m)%nat) (String.index n sub s).
Proof.
  induction a as [| x a IH].
  - rewrite append_empty_l. cbn [String.length Nat.add].
    destruct (String.index n sub s); reflexivity.
  - rewrite append_cons. cbn [String.length Nat.add String.index].
    rewrite IH. destruct (String.index n sub s); reflexivity.
Qed.

Lemma substring_skip (a s : string) (m : nat) :
  String.substring (String.length a) m (a +:+ s) = String.substring 0 m s.
Proof.
  induction a as [| x a IH]; [reflexivity |].
  rewrite append_cons. cbn [String.length String.substring]. exact IH.
Qed.

Lemma substring_take (b c : string) :
  String.substring 0 (String.length b) (b +:+ c) = b.
Proof.
  induction b as [| x b IH].
  - cbn [String.length]. destruct ("" +:+ c); reflexivity.
  - rewrite append_cons. cbn [String.length String.substring].
    rewrite IH. reflexivity.
Qed.

Lemma py_slice_middle (a b c : string) :
  py_slice (a +:+ b +:+ c) (Z.of_nat (String.length a))
    (Z.of_nat (String.length a + String.length b)) = b.
Proof.
  unfold py_slice, py_bound. rewrite !length_append.
  set (la := String.length a). set (lb := String.length b).
  set (lc := String.length c).
  replace (Z.of_nat la <? 0) with false by (symmetry; apply Z.ltb_ge; lia).
  replace (Z.of_nat (la + lb) <? 0) with false
    by (symmetry; apply Z.ltb_ge; lia).
  rewrite !Z.min_l by lia.
  destruct (Z.ltb_spec (Z.of_nat la) (Z.of_nat (la + lb))) as [Hlt | Hge].
  - rewrite Nat2Z.id.
    replace (Z.to_nat (Z.of_nat (la + lb) - Z.of_nat la)) with lb by lia.
    subst la lb. rewrite substring_skip. apply substring_take.
  - assert (Hempty : lb = 0%nat) by lia.
    subst lb. destruct b; [reflexivity | discriminate Hempty].
Qed.

Lemma py_slice_drop_last (a b : string) (x : ascii) :
  py_slice (a +:+ b +:+ String x "") (Z.of_nat (String.length a)) (-1) = b.
Proof.
  unfold py_slice, py_bound. rewrite !length_append.
  set (la := String.length a). set (lb := String.length b).
  cbn [String.length].
  replace (Z.of_nat la <? 0) with false by (symmetry; apply Z.ltb_ge; lia).
  replace (-1 <? 0) with true by reflexivity.
  rewrite Z.min_l by lia. rewrite Z.max_l by lia.
  destruct (Z.ltb_spec (Z.of_nat la) (-1 + Z.of_nat (la + (lb + 1))))
    as [Hlt | Hge].
  - rewrite Nat2Z.id.
    replace (Z.to_nat (-1 + Z.of_nat (la + (lb + 1)) - Z.of_nat la)) with lb
      by lia.
    subst la lb. rewrite substring_skip. apply substring_take.
  - assert (Hempty : lb = 0%nat) by lia.
    subst lb. destruct b; [reflexivity | discriminate Hempty].
Qed.

Lemma backtick_fence : fence = String "`" "``".
Proof. reflexivity. Qed.

Lemma backtick_fence_json : fence_json = String "`" "``json".
Proof. reflexivity. Qed.

(** X22. A JSON block between fences is cut out of the reply: when the
    stripped reply is some text, the opening fence tagged [json], the
    block, a closing fence and more text, and neither the text before
    nor the block holds a backtick, the text handed to the decoder is
    the block, stripped. *)
Theorem fenced_block_is_extracted
    (content pre body post : string)
    (Hreply : py_strip content
              = pre +:+ fence_json +:+ body +:+ fence +:+ post)
    (Hpre : lacks "`" pre) (Hbody : lacks "`" body) :
  extract_json content = py_strip body.
Proof.
  unfold extract_json. cbv zeta. rewrite Hreply.
  set (text := pre +:+ fence_json +:+ body +:+ fence +:+ post).
  assert (Hopen : String.index 0 fence_json text = Some (String.length pre)).
  { subst text. rewrite backtick_fence_json. apply index_first. exact Hpre. }
  assert (Hclose : String.index (String.length pre + 7) fence text
                   = Some (String.length pre + 7 + String.length body)%nat).
  { subst text.
    replace (pre +:+ fence_json +:+ body +:+ fence +:+ post)
      with ((pre +:+ fence_json) +:+ body +:+ fence +:+ post)
      by (rewrite !append_assoc; reflexivity).
    replace (String.length pre + 7)%nat
      with (String.length (pre +:+ fence_json) + 0)%nat
      by (rewrite length_append; cbn; lia).
    rewrite index_skip. rewrite backtick_fence at 1 2.
    rewrite (index_first "`" "``" body post Hbody). cbn [option_map].
    rewrite length_append. cbn. f_equal. lia. }
  unfold py_in, py_find. change (Z.to_nat 0) with 0%nat. rewrite Hopen.
  replace (Z.to_nat (Z.of_nat (String.length pre) + 7))
    with (String.length pre + 7)%nat by lia.
  rewrite Hclose. f_equal.
  subst text.
  replace (pre +:+ fence_json +:+ body +:+ fence +:+ post)
    with ((pre +:+ fence_json) +:+ body +:+ (fence +:+ post))
    by (rewrite !append_assoc; reflexivity).
  replace (Z.of_nat (String.length pre) + 7)
    with (Z.of_nat (String.length (pre +:+ fence_json)))
    by (rewrite length_append; cbn; lia).
  replace (Z.of_nat (String.length pre + 7 + String.length body))
    with (Z.of_nat (String.length (pre +:+ fence_json) + String.length body))
    by (rewrite length_append; cbn; lia).
  apply py_slice_middle.
Qed.

Lemma fenced_block_is_extracted_witness :
  py_strip fenced_reply
  = "Here is your quiz:
" +:+ fence_json +:+ ("
" +:+ one_question_reply +:+ "
") +:+ fence +:+ "
Good luck!"
  /\ lacks "`" "Here is your quiz:
"
  /\ lacks "`" ("
" +:+ one_question_reply +:+ "
")
  /\ extract_json fenced_reply
     = py_strip ("
" +:+ one_question_reply +:+ "
").
Proof.
  split; [vm_compute; reflexivity |].
  split; [vm_compute; reflexivity |].
  split; [vm_compute; reflexivity |].
  apply (fenced_block_is_extracted fenced_reply "Here is your quiz:
" ("
" +:+ one_question_reply +:+ "
") "
Good luck!"); vm_compute; reflexivity.
Defined.

(** X23. An opening fence that is never closed costs the reply its last
    character: when the stripped reply is some text, the opening fence
    tagged [json] and a block that ends the reply, with no backtick
    before or in it, the text handed to the decoder is the block without
    its last character, stripped. A complete document sent this way
    loses its closing brace. *)
Theorem unclosed_fence_drops_last_character
    (content pre body : string) (last : ascii)
    (Hreply : py_strip content
              = pre +:+ fence_json +:+ body +:+ String last "")
    (Hpre : lacks "`" pre) (Hbody : lacks "`" (body +:+ String last "")) :
  extract_json content = py_strip body.
Proof.
  unfold extract_json. cbv zeta. rewrite Hreply.
  set (text := pre +:+ fence_json +:+ body +:+ String last "").
  assert (Hopen : String.index 0 fence_json text = Some (String.length pre)).
  { subst text. rewrite backtick_fence_json. apply index_first. exact Hpre. }
  assert (Hclose : String.index (String.length pre + 7) fence text = None).
  { subst text.
    replace (pre +:+ fence_json +:+ body +:+ String last "")
      with ((pre +:+ fence_json) +:+ body +:+ String last "")
      by (rewrite !append_assoc; reflexivity).
    replace (String.length pre + 7)%nat
      with (String.length (pre +:+ fence_json) + 0)%nat
      by (rewrite length_append; cbn; lia).
    rewrite index_skip. rewrite backtick_fence.
    rewrite (index_none "`" "``" _ Hbody). reflexivity. }
  unfold py_in, py_find. change (Z.to_nat 0) with 0%nat. rewrite Hopen.
  replace (Z.to_nat (Z.of_nat (String.length pre) + 7))
    with (String.length pre + 7)%nat by lia.
  rewrite Hclose. f_equal.
  subst text.
  replace (pre +:+ fence_json +:+ body +:+ String last "")
    with ((pre +:+ fence_json) +:+ body +:+ String last "")
    by (rewrite !append_assoc; reflexivity).
  replace (Z.of_nat (String.length pre) + 7)
    with (Z.of_nat (String.length (pre +:+ fence_json)))
    by (rewrite length_append; cbn; lia).
  apply py_slice_drop_last.
Qed.

Lemma unclosed_fence_drops_last_character_witness :
  py_strip unclosed_reply
  = "" +:+ fence_json +:+ unclosed_body +:+ String "}" ""
  /\ lacks "`" ""
  /\ lacks "`" (unclosed_body +:+ String "}" "")
  /\ extract_json unclosed_reply = py_strip unclosed_body.
Proof.
  split; [vm_compute; reflexivity |].
  split; [vm_compute; reflexivity |].
  split; [vm_compute; reflexivity |].
  apply (unclosed_fence_drops_last_character unclosed_reply "" unclosed_body
           "}"); vm_compute; reflexivity.
Defined.

(** The document of [unclosed_reply] is complete, and still the quiz is
    not generated: the decoder is handed the text without its closing
    brace. *)
Lemma unclosed_reply_fails :
  json_loads (unclosed_body +:+ "}") = Return (JDict [("questions", JList [])])
  /\ quiz_returned
       (generate_quiz (replying unclosed_reply) json_loads "Loops" 16)
     = Return (JList [])
  /\ length
       (quiz_errors
          (generate_quiz (replying unclosed_reply) json_loads "Loops" 16))
     = 2%nat.
Proof. repeat split; vm_compute; reflexivity. Qed.

(** ** What a parse failure reports *)

Lemma substring_prefix_length (m : nat) (s : string) :
  String.length (String.substring 0 m s) = Nat.min m (String.length s)
  /\ exists rest, s = String.substring 0 m s +:+ rest.
Proof.
  revert s. induction m as [| m IH]; intros s.
  - destruct s; (split; [reflexivity | eexists; reflexivity]).
  - destruct s as [| x s]; [split; [reflexivity | exists ""; reflexivity] |].
    cbn [String.substring String.length].
    destruct (IH s) as [Hlen [rest Hrest]].
    split; [rewrite Hlen; reflexivity |].
    exists rest. rewrite append_cons. rewrite <- Hrest. reflexivity.
Qed.

Lemma py_slice_head (s : string) :
  (String.length (py_slice s 0 200) <= 200)%nat
  /\ String.length (py_slice s 0 200) = Nat.min 200 (String.length s)
  /\ exists rest, s = py_slice s 0 200 +:+ rest.
Proof.
  unfold py_slice, py_bound.
  replace (0 <? 0) with false by reflexivity.
  replace (200 <? 0) with false by reflexivity.
  rewrite (Z.min_l 0) by lia.
  destruct (Z.ltb_spec 0 (Z.min 200 (Z.of_nat (String.length s))))
    as [Hpos | Hzero].
  - change (Z.to_nat 0) with 0%nat. rewrite Z.sub_0_r.
    destruct (substring_prefix_length
                (Z.to_nat (Z.min 200 (Z.of_nat (String.length s)))) s)
      as [Hlen Hrest].
    rewrite Hlen. split; [lia | split; [lia | exact Hrest]].
  - assert (Hempty : String.length s = 0%nat) by lia.
    destruct s; [| discriminate Hempty].
    cbn. split; [lia | split; [reflexivity | exists ""; reflexivity]].
Qed.

(** X24. When the decoder rejects the reply, [generate_quiz] returns the
    empty list and reports two errors: the decoder's message, and the
    start of the text that was handed to the decoder, cut after 200
    characters and followed by three dots. *)
Theorem parse_failure_quotes_reply
    (chat : chat_request -> outcome string) (loads : string -> outcome json)
    (topic : string) (age : Z) (content : string) (e : exn)
    (Hreply : chat (quiz_request topic age) = Return content)
    (Hdecode : loads (extract_json content) = Raise e)
    (Hclass : exn_kind e = JSONDecodeError) :
  exists excerpt rest,
    generate_quiz chat loads topic age
    = QuizResult (Return (JList []))
        ["Error parsing quiz JSON: " +:+ exn_str e;
         "Raw response: " +:+ excerpt +:+ "..."]
    /\ extract_json content = excerpt +:+ rest
    /\ String.length excerpt
       = Nat.min 200 (String.length (extract_json content)).
Proof.
  destruct (py_slice_head (extract_json content)) as (_ & Hlen & rest & Hrest).
  exists (py_slice (extract_json content) 0 200), rest.
  split; [| split; [exact Hrest | exact Hlen]].
  unfold generate_quiz. rewrite Hreply, Hdecode. cbn [bind].
  unfold quiz_handlers. rewrite Hclass. reflexivity.
Qed.

Lemma parse_failure_quotes_reply_witness :
  replying "I cannot help with that." (quiz_request "Loops" 16)
  = Return "I cannot help with that."
  /\ json_loads (extract_json "I cannot help with that.")
     = Raise (Exn JSONDecodeError "Expecting value")
  /\ exn_kind (Exn JSONDecodeError "Expecting value") = JSONDecodeError
  /\ exists excerpt rest,
       generate_quiz (replying "I cannot help with that.") json_loads "Loops"
         16
       = QuizResult (Return (JList []))
           ["Error parsing quiz JSON: "
              +:+ exn_str (Exn JSONDecodeError "Expecting value");
            "Raw response: " +:+ excerpt +:+ "..."]
       /\ extract_json "I cannot help with that." = excerpt +:+ rest
       /\ String.length excerpt
          = Nat.min 200
              (String.length (extract_json "I cannot help with that.")).
Proof.
  split; [reflexivity |].
  split; [vm_compute; reflexivity |].
  split; [reflexivity |].
  apply (parse_failure_quotes_reply (replying "I cannot help with that.")
           json_loads "Loops" 16 "I cannot help with that."
           (Exn JSONDecodeError "Expecting value"));
    vm_compute; reflexivity.
Defined.

(** ** Before the login *)

Section LoginGuard.

Variable loads : string -> outcome json.
Variable hashpw : string -> string -> outcome string.
Variable checkpw : string -> string -> outcome bool.

(** X25. While nobody is logged in, a run reaches neither the lesson nor
    the quiz: whatever the event, it leaves the lesson, the topic, the
    items, the answers and the submitted flag as they are, and writes no
    progress row. It raises only out of one of the two forms: out of the
    login form with the exception [bcrypt] raised when checking the
    password against the hash of a stored account, out of the
    registration form with the exception [bcrypt] raised when hashing the
    password or with the [OverflowError] of an age that is no 64-bit
    integer; session and database are then as the run found them. The
    session is logged in by such a run only through the login form, with
    the email of a stored account and a password that checks against its
    hash. *)
Theorem logged_out_run_is_confined
    (env : environment) (st : session_state) (db : database)
    (Hout : logged_in st = false) :
  exists r,
    main loads hashpw checkpw env st db = Finished r
    /\ user_progress (run_db r) = user_progress db
    /\ current_lesson (run_state r) = current_lesson st
    /\ lesson_topic (run_state r) = lesson_topic st
    /\ quiz_questions (run_state r) = quiz_questions st
    /\ quiz_answers (run_state r) = quiz_answers st
    /\ quiz_submitted (run_state r) = quiz_submitted st
    /\ (forall e,
          run_raised r = Some e ->
          run_state r = st /\ run_db r = db /\ run_rerun r = false
          /\ ((exists email password row,
                  env_event env = LoginForm email password
                  /\ select_user db email = Some row
                  /\ checkpw password (user_password_hash row) = Raise e)
              \/ (exists reg_email reg_password confirm_password age,
                    env_event env
                    = RegisterForm reg_email reg_password confirm_password age
                    /\ (hashpw reg_password (env_salt env) = Raise e
                        \/ (sqlite_integer age = false
                            /\ e = overflow_error)))))
    /\ (logged_in (run_state r) = true ->
        exists email password row,
          env_event env = LoginForm email password
          /\ select_user db email = Some row
          /\ checkpw password (user_password_hash row) = Return true).
Proof.
  unfold main. cbn [init_database]. rewrite Hout. cbn [negb].
  eexists. split; [reflexivity |]. unfold login_page.
  destruct (env_event env) as [| email password
                               | reg_email reg_password confirm_password age
                               | | | | | | |];
    try (cbn [run_raised run_db run_state];
         do 6 (split; [reflexivity |]);
         split; [discriminate | intros Hin; congruence]).
  - destruct (login_submit_cases checkpw st db (env_now env) email password)
      as [[text ->]
         | [(row & Hrow & _ & Hpassword & ->)
           | (row & e & Hrow & _ & Hpassword & ->)]];
      unfold run_of_form;
      cbn [run_raised run_db run_state run_rerun form_state form_db
           form_rerun];
      do 6 (split; [reflexivity |]).
    + split; [discriminate | intros Hin; congruence].
    + split; [discriminate |].
      intros _. exists email, password, row. repeat split; assumption.
    + split; [| intros Hin; congruence].
      intros e' He'. injection He' as <-.
      do 3 (split; [reflexivity |]). left.
      exists email, password, row. repeat split; assumption.
  - destruct (register_submit_cases hashpw st db (env_now env) (env_salt env)
                reg_email reg_password confirm_password age)
      as [[text ->]
         | (_ & _ & _
            & [(hashed & _ & _ & _ & ->)
              | [(e & Hhash & _ & ->) | (_ & Hage & ->)]])];
      unfold run_of_form;
      cbn [run_raised run_db run_state run_rerun form_state form_db
           form_rerun user_progress];
      do 6 (split; [reflexivity |]).
    + split; [discriminate | intros Hin; congruence].
    + split; [discriminate | intros Hin; congruence].
    + split; [| intros Hin; congruence].
      intros e' He'. injection He' as <-.
      do 3 (split; [reflexivity |]). right.
      exists reg_email, reg_password, confirm_password, age.
      split; [reflexivity | left; exact Hhash].
    + split; [| intros Hin; congruence].
      intros e' He'. injection He' as <-.
      do 3 (split; [reflexivity |]). right.
      exists reg_email, reg_password, confirm_password, age.
      split; [reflexivity | right; split; [exact Hage | reflexivity]].
Qed.

End LoginGuard.

(** The results of Alice's quiz are in the session and nobody is logged
    in. A login with her password: the run raises nothing and logs in,
    lesson and quiz as they were. The same with the pass phrase [bcrypt]
    refuses: the run ends in that exception and nothing has changed. *)
Lemma logged_out_run_is_confined_witness :
  logged_in (with_account loops_graded false None) = false
  /\ (exists r,
        main json_loads sample_hashpw sample_checkpw
          (action (LoginForm "alice@example.com" "Secret1") 300)
          (with_account loops_graded false None) alice_db = Finished r
        /\ run_raised r = None
        /\ logged_in (run_state r) = true
        /\ user_progress (run_db r) = user_progress alice_db
        /\ quiz_questions (run_state r) = loops_quiz
        /\ quiz_submitted (run_state r) = true)
  /\ (exists r,
        main json_loads sample_hashpw sample_checkpw
          (action (LoginForm "alice@example.com" long_password) 300)
          (with_account loops_graded false None) alice_db = Finished r
        /\ run_raised r = Some password_too_long
        /\ run_state r = with_account loops_graded false None
        /\ run_db r = alice_db).
Proof.
  split; [reflexivity |].
  split.
  - destruct (logged_out_run_is_confined json_loads sample_hashpw
                sample_checkpw
                (action (LoginForm "alice@example.com" "Secret1") 300)
                (with_account loops_graded false None) alice_db eq_refl)
      as (r & Hrun & Hprogress & _ & _ & Hitems & _ & Hsub & _).
    exists r. split; [exact Hrun |].
    split; [injection Hrun as <-; reflexivity |].
    split; [injection Hrun as <-; reflexivity |].
    split; [exact Hprogress | split; [exact Hitems | exact Hsub]].
  - destruct (logged_out_run_is_confined json_loads sample_hashpw
                sample_checkpw
                (action (LoginForm "alice@example.com" long_password) 300)
                (with_account loops_graded false None) alice_db eq_refl)
      as (r & Hrun & _ & _ & _ & _ & _ & _ & Hraised & _).
    assert (He : run_raised r = Some password_too_long)
      by (injection Hrun as <-; reflexivity).
    destruct (Hraised password_too_long He) as (Hstate & Hdb & _).
    exists r. repeat split; assumption.
Defined.
